(** * Probability-Difference derivatives: pricing, liquidation, settlement

    A shallow embedding of the PD engine of the BUBE prototype and of the
    two front ends that drive it:

    - [PdEngine]: [pdEngine.js] (pricing, liquidation predicate, market
      ingestion);
    - [App]: the React component (recompute effect, and the open,
      manual-probability, settle and refresh handlers), as a transition
      system over its [useState] cells;
    - [Streamlit]: the Streamlit application (the same engine, with the
      two ledgers kept in [st.session_state]);
    - [View]: the mount effect and the three tables of the component;
    - [Session]: the fetch, the seeding and the tabs of the Streamlit
      application;
    - [Ledger]: the invariants of the two ledgers of [App];
    - [PdEngine64], [App64], [Streamlit64]: the engine, the recompute
      effect and the price handlers once more, over binary64;
    - [Samples], [Examples], [Samples64]: the data of the spec's worked
      examples and further sample data.

    Numbers.  The program computes with IEEE 754 binary64 numbers
    (JavaScript numbers, Python floats).  The development has two
    embeddings of them.

    - [PdEngine], [App], [Streamlit] and [Ledger] take them as exact
      rationals [Q]: rounding, infinities and NaN are not represented,
      and the source's comparisons ([<=], [===]) are the boolean
      comparisons of [Q].  They carry the properties that do not hang on
      the last digit of a result: the pricing identity, settlement,
      what a handler writes and what it leaves alone.
    - [PdEngine64], [App64] and [Streamlit64] take them as the
      primitive floats of the kernel, with the rounding, the signed
      zeros, the infinities and NaN of the standard; [Number] of a text
      that is not a number is NaN.  They carry the properties in which a
      comparison of computed numbers decides a status, or in which NaN
      can reach a field: the liquidation threshold, the frame of a price
      update, the clamp of the manual probability and the refresh.

    Where the source only moves a number from one field to another the
    embedding keeps the very same term, so "left unchanged" is stated
    with Leibniz equality; where a number is computed again, "the same
    value" is equality of rationals, or [=?] on floats.

    Objects.  A plain JavaScript object used as a map is a [gmap] of its
    own properties together with the members every object inherits from
    [Object.prototype], which a property read also finds; a Python dict
    is a [gmap].

    Side effects outside the two ledgers and the form ([alert],
    [console.error], [st.success], the loading flags) are not part of
    the state. *)

From Stdlib Require Import QArith Qabs Qminmax Lqa Floats.
From stdpp Require Import base option list strings pretty gmap.

Set Warnings "-inexact-float".

Local Open Scope Q_scope.

(** The two closed sets of string tags used by both front ends. *)
Inductive Side := LONG | SHORT.
Inductive Status := OPEN | LIQUIDATED | SETTLED.

Global Instance Side_eq_dec : EqDecision Side.
Proof. solve_decision. Defined.
Global Instance Status_eq_dec : EqDecision Status.
Proof. solve_decision. Defined.

(** The spec's sign of a side. *)
Definition sign (side : Side) : Q :=
  match side with LONG => 1 | SHORT => -1 end.

(** JSON values, as produced by [JSON.parse] / [json.loads]. *)
#[local] Unset Elimination Schemes.
Inductive json :=
| JNull
| JBool (b : bool)
| JNum (q : Q)
| JStr (s : string)
| JArr (items : list json)
| JObj (fields : list (string * json)).
#[local] Set Elimination Schemes.

(** A promise / call that either yields a value or throws. *)
Inductive Outcome (A : Type) :=
| Resolved (a : A)
| Rejected (reason : string).
Arguments Resolved {A} a.
Arguments Rejected {A} reason.

(** * pdEngine.js *)
Module PdEngine.

(** ** PD math *)

Definition pdPnl (notional pEntry pCurrent : Q) (side : Side) : Q :=
  let s := match side with LONG => 1 | _ => -1 end in
  let deltaP := pCurrent - pEntry in
  notional * deltaP * s.

Definition computeEquity (imAmount pnl : Q) : Q := imAmount + pnl.

Definition LIQ_THRESHOLD_BETA : Q := 0.05.

Definition isLiquidation (equity imAmount : Q) : bool :=
  Qle_bool equity (LIQ_THRESHOLD_BETA * imAmount).

(** ** Polymarket fetchers *)

(** One element of the provider's JSON array, restricted to the fields
    the engine reads.  [active] and [closed] hold the truthiness of the
    fields; [None] stands for a field that is [null] or absent. *)
Module RawMarket.
Record t := mk {
  id : string;
  slug : option string;
  question : string;
  description : option string;
  active : bool;
  closed : bool;
  outcomes : option string;
  outcomePrices : option string }.
End RawMarket.

(** The engine's market object.  [polyId] holds the provider id as the
    property key it is used as; [question] is [None] when the field is
    [undefined]. *)
Module Market.
Record t := mk {
  id : string;
  source : string;
  polyId : string;
  slug : option string;
  question : option string;
  description : string;
  currentP : Q;
  status : Status;
  outcome : option Q }.
End Market.

(** What [fetch] hands back: a network failure, or a response whose
    body [res.json()] either decodes to the array of candidates or
    throws. *)
Inductive HttpResult :=
| NetworkError (reason : string)
| HttpResponse (ok : bool) (status : nat) (body : Outcome (list RawMarket.t)).

Section Ingestion.

(** [JSON.parse] ([None] when it throws [SyntaxError]) and the
    [Number] conversion belong to the runtime. *)
Variable JSON_parse : string -> option json.
Variable Number : json -> Q.

(** [Array.isArray(outs) && outs.length === 2] *)
Definition isBinary (outs : json) : bool :=
  match outs with
  | JArr items => bool_decide (length items = 2%nat)
  | _ => false
  end.

(** The [for (const m of data)] loop; [selected] is the array built
    so far, and [break] returns it. *)
Fixpoint selectMarkets (maxMarkets : nat) (data selected : list RawMarket.t)
  : list RawMarket.t :=
  match data with
  | [] => selected
  | m :: rest =>
    if negb (RawMarket.active m) || RawMarket.closed m
    then selectMarkets maxMarkets rest selected
    else
      match JSON_parse (default "[]"%string (RawMarket.outcomes m)) with
      | None => selectMarkets maxMarkets rest selected
      | Some outs =>
        if negb (isBinary outs)
        then selectMarkets maxMarkets rest selected
        else
          let selected' := selected ++ [m] in
          if bool_decide (maxMarkets <= length selected')%nat
          then selected'
          else selectMarkets maxMarkets rest selected'
      end
  end.

Definition fetchPolymarketMarkets (maxMarkets : nat) (res : HttpResult)
  : Outcome (list RawMarket.t) :=
  match res with
  | NetworkError reason => Rejected reason
  | HttpResponse ok status body =>
    if negb ok
    then Rejected ("Polymarket API error: " +:+ pretty status)
    else
      match body with
      | Rejected reason => Rejected reason
      | Resolved data => Resolved (selectMarkets maxMarkets data [])
      end
  end.

(** [prices[0] != null] is false for [null] and for a missing
    element. *)
Definition yesPrice (m : RawMarket.t) : Q :=
  match JSON_parse (default "[]"%string (RawMarket.outcomePrices m)) with
  | Some (JArr (JNull :: _)) => 0
  | Some (JArr (first :: _)) => Number first
  | Some _ => 0
  | None => 0
  end.

Definition polymarketToBube (m : RawMarket.t) : Market.t :=
  let pYes := yesPrice m in
  {| Market.id := "poly-" +:+ RawMarket.id m;
     Market.source := "polymarket";
     Market.polyId := RawMarket.id m;
     Market.slug := RawMarket.slug m;
     Market.question := Some (RawMarket.question m);
     Market.description := default EmptyString (RawMarket.description m);
     Market.currentP := pYes;
     Market.status := OPEN;
     Market.outcome := None |}.

End Ingestion.

End PdEngine.

(** * App.jsx: the React component *)
Module App.
Import PdEngine.

Module Position.
Record t := mk {
  id : string;
  marketId : string;
  marketName : option string;
  side : Side;
  notional : Q;
  imPct : Q;
  imAmount : Q;
  entryP : Q;
  currentP : Q;
  pnl : Q;
  equity : Q;
  status : Status }.

(** [{ ...pos, currentP, pnl, equity }] *)
Definition withMarks (pos : t) (currentP' pnl' equity' : Q) : t :=
  {| id := id pos; marketId := marketId pos; marketName := marketName pos;
     side := side pos; notional := notional pos; imPct := imPct pos;
     imAmount := imAmount pos; entryP := entryP pos;
     currentP := currentP'; pnl := pnl'; equity := equity';
     status := status pos |}.

(** [{ ...pos, status }] *)
Definition withStatus (pos : t) (status' : Status) : t :=
  {| id := id pos; marketId := marketId pos; marketName := marketName pos;
     side := side pos; notional := notional pos; imPct := imPct pos;
     imAmount := imAmount pos; entryP := entryP pos;
     currentP := currentP pos; pnl := pnl pos; equity := equity pos;
     status := status' |}.
End Position.

(** [{ ...m, currentP: p }] *)
Definition withCurrentP (m : Market.t) (p : Q) : Market.t :=
  {| Market.id := Market.id m; Market.source := Market.source m;
     Market.polyId := Market.polyId m; Market.slug := Market.slug m;
     Market.question := Market.question m;
     Market.description := Market.description m;
     Market.currentP := p;
     Market.status := Market.status m; Market.outcome := Market.outcome m |}.

(** [{ ...m, status: 'SETTLED', outcome }] *)
Definition withSettlement (m : Market.t) (outcome : Q) : Market.t :=
  {| Market.id := Market.id m; Market.source := Market.source m;
     Market.polyId := Market.polyId m; Market.slug := Market.slug m;
     Market.question := Market.question m;
     Market.description := Market.description m;
     Market.currentP := Market.currentP m;
     Market.status := SETTLED; Market.outcome := Some outcome |}.

(** [{ ...m, currentP, question, description }] *)
Definition withQuote (m mapped : Market.t) : Market.t :=
  {| Market.id := Market.id m; Market.source := Market.source m;
     Market.polyId := Market.polyId m; Market.slug := Market.slug m;
     Market.question := Market.question mapped;
     Market.description := Market.description mapped;
     Market.currentP := Market.currentP mapped;
     Market.status := Market.status m; Market.outcome := Market.outcome m |}.

(** The [useState] cells of [App] that the handlers read or write.
    [marketsChanged] is not a cell: it records that [setMarkets] was
    called since the last render, which is what the dependency array
    [[markets]] of the recompute effect tests. *)
Record State := mkState {
  markets : list Market.t;
  marketsChanged : bool;
  positions : list Position.t;
  selectedMarketId : option string;
  adminMarketId : option string;
  side : Side;
  notional : Q;
  imPct : Q;
  manualProb : Q;
  settleOutcome : Q }.

Definition setMarkets (f : list Market.t -> list Market.t) (s : State) : State :=
  {| markets := f (markets s); marketsChanged := true;
     positions := positions s;
     selectedMarketId := selectedMarketId s; adminMarketId := adminMarketId s;
     side := side s; notional := notional s; imPct := imPct s;
     manualProb := manualProb s; settleOutcome := settleOutcome s |}.

Definition setPositions (f : list Position.t -> list Position.t) (s : State) : State :=
  {| markets := markets s; marketsChanged := marketsChanged s;
     positions := f (positions s);
     selectedMarketId := selectedMarketId s; adminMarketId := adminMarketId s;
     side := side s; notional := notional s; imPct := imPct s;
     manualProb := manualProb s; settleOutcome := settleOutcome s |}.

Definition setManualProb (p : Q) (s : State) : State :=
  {| markets := markets s; marketsChanged := marketsChanged s;
     positions := positions s;
     selectedMarketId := selectedMarketId s; adminMarketId := adminMarketId s;
     side := side s; notional := notional s; imPct := imPct s;
     manualProb := p; settleOutcome := settleOutcome s |}.

Definition rendered (s : State) : State :=
  {| markets := markets s; marketsChanged := false;
     positions := positions s;
     selectedMarketId := selectedMarketId s; adminMarketId := adminMarketId s;
     side := side s; notional := notional s; imPct := imPct s;
     manualProb := manualProb s; settleOutcome := settleOutcome s |}.

(** [markets.find(m => m.id === id) || null] *)
Definition findMarket (ms : list Market.t) (id : option string) : option Market.t :=
  match id with
  | None => None
  | Some i => List.find (fun m => bool_decide (Market.id m = i)) ms
  end.

Definition selectedMarket (s : State) : option Market.t :=
  findMarket (markets s) (selectedMarketId s).

Definition adminMarket (s : State) : option Market.t :=
  findMarket (markets s) (adminMarketId s).

(** ** Recompute effect *)

(** The callback given to [prev.map] in the effect. *)
Definition recompute (ms : list Market.t) (pos : Position.t) : Position.t :=
  match List.find (fun mm => bool_decide (Market.id mm = Position.marketId pos)) ms with
  | None => pos
  | Some m =>
    if negb (bool_decide (Position.status pos = OPEN)) then pos
    else
      let pnl := pdPnl (Position.notional pos) (Position.entryP pos)
                       (Market.currentP m) (Position.side pos) in
      let equity := computeEquity (Position.imAmount pos) pnl in
      let updated := Position.withMarks pos (Market.currentP m) pnl equity in
      if isLiquidation equity (Position.imAmount pos)
      then Position.withStatus updated LIQUIDATED
      else updated
  end.

(** [useEffect(..., [markets])]: runs after a render in which
    [markets] is a new array. *)
Definition recomputeEffect (s : State) : State :=
  if marketsChanged s then
    match markets s with
    | [] => rendered s
    | _ => rendered (setPositions (fun prev => recompute (markets s) <$> prev) s)
    end
  else s.

(** ** Form setters *)

Definition setSelectedMarketId (i : option string) (s : State) : State :=
  {| markets := markets s; marketsChanged := marketsChanged s;
     positions := positions s;
     selectedMarketId := i; adminMarketId := adminMarketId s;
     side := side s; notional := notional s; imPct := imPct s;
     manualProb := manualProb s; settleOutcome := settleOutcome s |}.

Definition setAdminMarketId (i : option string) (s : State) : State :=
  {| markets := markets s; marketsChanged := marketsChanged s;
     positions := positions s;
     selectedMarketId := selectedMarketId s; adminMarketId := i;
     side := side s; notional := notional s; imPct := imPct s;
     manualProb := manualProb s; settleOutcome := settleOutcome s |}.

Definition setSide (x : Side) (s : State) : State :=
  {| markets := markets s; marketsChanged := marketsChanged s;
     positions := positions s;
     selectedMarketId := selectedMarketId s; adminMarketId := adminMarketId s;
     side := x; notional := notional s; imPct := imPct s;
     manualProb := manualProb s; settleOutcome := settleOutcome s |}.

Definition setNotional (x : Q) (s : State) : State :=
  {| markets := markets s; marketsChanged := marketsChanged s;
     positions := positions s;
     selectedMarketId := selectedMarketId s; adminMarketId := adminMarketId s;
     side := side s; notional := x; imPct := imPct s;
     manualProb := manualProb s; settleOutcome := settleOutcome s |}.

Definition setImPct (x : Q) (s : State) : State :=
  {| markets := markets s; marketsChanged := marketsChanged s;
     positions := positions s;
     selectedMarketId := selectedMarketId s; adminMarketId := adminMarketId s;
     side := side s; notional := notional s; imPct := x;
     manualProb := manualProb s; settleOutcome := settleOutcome s |}.

Definition setSettleOutcome (x : Q) (s : State) : State :=
  {| markets := markets s; marketsChanged := marketsChanged s;
     positions := positions s;
     selectedMarketId := selectedMarketId s; adminMarketId := adminMarketId s;
     side := side s; notional := notional s; imPct := imPct s;
     manualProb := manualProb s; settleOutcome := x |}.

(** ** Handlers *)

(** [uuid] is the value of [crypto.randomUUID()].  [currentP] of a
    market is always a number, so [selectedMarket.currentP ?? 0] is
    [selectedMarket.currentP]. *)
Definition handleOpenPosition (uuid : string) (s : State) : State :=
  match selectedMarket s with
  | None => s
  | Some sm =>
    if Qle_bool (notional s) 0 then s
    else
      let imAmount := (notional s * imPct s) / 100 in
      let entryP := Market.currentP sm in
      let newPos :=
        {| Position.id := uuid;
           Position.marketId := Market.id sm;
           Position.marketName := Market.question sm;
           Position.side := side s;
           Position.notional := notional s;
           Position.imPct := imPct s;
           Position.imAmount := imAmount;
           Position.entryP := entryP;
           Position.currentP := entryP;
           Position.pnl := 0;
           Position.equity := imAmount;
           Position.status := OPEN |} in
      setPositions (fun prev => prev ++ [newPos]) s
  end.

Definition handleManualProbApply (s : State) : State :=
  match adminMarket s with
  | None => s
  | Some am =>
    let p := Qmin 1 (Qmax 0 (manualProb s)) in
    setMarkets (fun prev =>
      (fun m => if bool_decide (Market.id m = Market.id am)
                then withCurrentP m p else m) <$> prev) s
  end.

(** The callback given to [prev.map] in [handleSettle]. *)
Definition finalize (marketId : string) (outcome : Q) (pos : Position.t)
  : Position.t :=
  if negb (bool_decide (Position.marketId pos = marketId)) then pos
  else if bool_decide (Position.status pos = SETTLED) then pos
  else if bool_decide (Position.status pos = LIQUIDATED)
  then Position.withStatus pos SETTLED
  else
    let finalPnl := pdPnl (Position.notional pos) (Position.entryP pos)
                          outcome (Position.side pos) in
    let equity := computeEquity (Position.imAmount pos) finalPnl in
    Position.withStatus (Position.withMarks pos outcome finalPnl equity) SETTLED.

(** [settleOutcome === 1 ? 1 : 0] *)
Definition coerceOutcome (settleOutcome : Q) : Q :=
  if Qeq_bool settleOutcome 1 then 1 else 0.

Definition handleSettle (s : State) : State :=
  match adminMarket s with
  | None => s
  | Some am =>
    let outcome := coerceOutcome (settleOutcome s) in
    setPositions (fun prev => finalize (Market.id am) outcome <$> prev)
      (setMarkets (fun prev =>
         (fun m => if bool_decide (Market.id m = Market.id am)
                   then withSettlement m outcome else m) <$> prev) s)
  end.

Section Provider.

Variable JSON_parse : string -> option json.
Variable Number : json -> Q.

(** [Object.fromEntries(raw.map(m => [m.id, m]))]: the own properties
    of [byId]; a later entry replaces an earlier one with the same
    key. *)
Definition indexById (raw : list RawMarket.t) : gmap string RawMarket.t :=
  foldl (fun byId m => <[RawMarket.id m := m]> byId) ∅ raw.

(** The names of the members of [Object.prototype], which [byId]
    inherits like every plain object. *)
Definition Object_prototype : list string :=
  ["constructor"; "__defineGetter__"; "__defineSetter__"; "hasOwnProperty";
   "__lookupGetter__"; "__lookupSetter__"; "isPrototypeOf";
   "propertyIsEnumerable"; "toString"; "valueOf"; "__proto__";
   "toLocaleString"]%string.

(** What a property read of [byId] yields when it is not [undefined]:
    a candidate of the batch, or a member inherited from
    [Object.prototype] (a function, or for [__proto__] the prototype
    itself). *)
Inductive Member :=
| OwnEntry (m : RawMarket.t)
| Inherited.

(** [byId[key]]: the own property if there is one, else the inherited
    member if [key] names one, else [undefined] ([None]). *)
Definition getMember (byId : gmap string RawMarket.t) (key : string)
  : option Member :=
  match byId !! key with
  | Some m => Some (OwnEntry m)
  | None => if bool_decide (key ∈ Object_prototype) then Some Inherited else None
  end.

(** [polymarketToBube(pm)].  Every field that [polymarketToBube] reads
    from an inherited member is [undefined]: [outcomePrices ?? '[]']
    parses to the empty array, which leaves [pYes] at 0, the question
    is [undefined] and [description || ''] is the empty string. *)
Definition mappedOf (pm : Member) : Market.t :=
  match pm with
  | OwnEntry m => polymarketToBube JSON_parse Number m
  | Inherited =>
    {| Market.id := "poly-undefined";
       Market.source := "polymarket";
       Market.polyId := "undefined";
       Market.slug := None;
       Market.question := None;
       Market.description := EmptyString;
       Market.currentP := 0;
       Market.status := OPEN;
       Market.outcome := None |}
  end.

(** The [.then] callback; [am] is the [adminMarket] captured by the
    click, [s] the state when the promise resolves.  [if (!pm)] holds
    of [undefined] only: candidates and inherited members are
    objects. *)
Definition refreshResolved (am : Market.t) (raw : list RawMarket.t) (s : State)
  : State :=
  match getMember (indexById raw) (Market.polyId am) with
  | None => s
  | Some pm =>
    let mapped := mappedOf pm in
    setManualProb (Market.currentP mapped)
      (setMarkets (fun prev =>
         (fun m => if bool_decide (Market.id m = Market.id am)
                   then withQuote m mapped else m) <$> prev) s)
  end.

(** The click and the settling of the promise, with no other event
    in between; [res] is what [fetch] produced. *)
Definition handleRefreshFromPolymarket (res : HttpResult) (s : State) : State :=
  match adminMarket s with
  | None => s
  | Some am =>
    if negb (bool_decide (Market.source am = "polymarket"%string)) then s
    else
      match fetchPolymarketMarkets JSON_parse 50 res with
      | Resolved raw => refreshResolved am raw s
      | Rejected _ => s
      end
  end.

(** ** The component as a transition system *)

Inductive Event :=
| SelectMarket (id : string)
| SelectAdminMarket (id : option string)
| SetSide (x : Side)
| SetNotional (x : Q)
| SetImPct (x : Q)
| SetManualProb (x : Q)
| SetSettleOutcome (x : Q)
| OpenPosition (uuid : string)
| ManualProbApply
| Settle
| RefreshFromPolymarket (res : HttpResult).

Definition handle (e : Event) (s : State) : State :=
  match e with
  | SelectMarket id => setSelectedMarketId (Some id) s
  | SelectAdminMarket id => setAdminMarketId id s
  | SetSide x => setSide x s
  | SetNotional x => setNotional x s
  | SetImPct x => setImPct x s
  | SetManualProb x => setManualProb x s
  | SetSettleOutcome x => setSettleOutcome x s
  | OpenPosition uuid => handleOpenPosition uuid s
  | ManualProbApply => handleManualProbApply s
  | Settle => handleSettle s
  | RefreshFromPolymarket res => handleRefreshFromPolymarket res s
  end.

(** One event: the handler, the render, the effect. *)
Definition step (s : State) (e : Event) : State :=
  recomputeEffect (handle e s).

Definition run (s : State) (es : list Event) : State := foldl step s es.

End Provider.

End App.

(** * The Streamlit application *)
Module Streamlit.

Definition LIQ_THRESHOLD_BETA : Q := 0.05.

(** The market dicts stored in [st.session_state.markets]; [None] in
    [source], [poly_id], [poly_slug] is a key that [dict.get] does not
    find (the local demo markets have none of them). *)
Module Market.
Record t := mk {
  id : string;
  name : string;
  description : string;
  current_p : Q;
  status : Status;
  outcome : option Q;
  source : option string;
  poly_id : option string;
  poly_slug : option string }.

Definition set_settled (m : t) (outcome' : Q) : t :=
  {| id := id m; name := name m; description := description m;
     current_p := current_p m; status := SETTLED; outcome := Some outcome';
     source := source m; poly_id := poly_id m; poly_slug := poly_slug m |}.

Definition set_quote (m : t) (p : Q) (name' description' : string) : t :=
  {| id := id m; name := name'; description := description';
     current_p := p; status := status m; outcome := outcome m;
     source := source m; poly_id := poly_id m; poly_slug := poly_slug m |}.

Definition set_current_p (m : t) (p : Q) : t :=
  {| id := id m; name := name m; description := description m;
     current_p := p; status := status m; outcome := outcome m;
     source := source m; poly_id := poly_id m; poly_slug := poly_slug m |}.
End Market.

(** [asdict(Position(...))] *)
Module Position.
Record t := mk {
  id : string;
  user_id : string;
  market_id : string;
  side : Side;
  notional : Q;
  im_pct : Q;
  im_amount : Q;
  entry_p : Q;
  current_p : Q;
  pnl : Q;
  equity : Q;
  status : Status }.

Definition set_marks (pos : t) (pnl' equity' current_p' : Q) : t :=
  {| id := id pos; user_id := user_id pos; market_id := market_id pos;
     side := side pos; notional := notional pos; im_pct := im_pct pos;
     im_amount := im_amount pos; entry_p := entry_p pos;
     current_p := current_p'; pnl := pnl'; equity := equity';
     status := status pos |}.

Definition set_status (pos : t) (status' : Status) : t :=
  {| id := id pos; user_id := user_id pos; market_id := market_id pos;
     side := side pos; notional := notional pos; im_pct := im_pct pos;
     im_amount := im_amount pos; entry_p := entry_p pos;
     current_p := current_p pos; pnl := pnl pos; equity := equity pos;
     status := status' |}.
End Position.

(** ** Core PD math *)

Definition pd_pnl (notional p_entry p_current : Q) (side : Side) : Q :=
  let s := match side with LONG => 1 | _ => -1 end in
  let delta_p := p_current - p_entry in
  notional * delta_p * s.

Definition compute_equity (im_amount pnl : Q) : Q := im_amount + pnl.

Definition is_liquidation (equity im_amount : Q) : bool :=
  Qle_bool equity (LIQ_THRESHOLD_BETA * im_amount).

(** ** Engine: update and settle *)

(** The two ledgers of [st.session_state]. *)
Record State := mkState {
  markets : gmap string Market.t;
  positions : list Position.t }.

(** The body of the [for pos in positions] loop of
    [update_positions_for_market]. *)
Definition update_position (market_id : string) (current_p : Q) (pos : Position.t)
  : Position.t :=
  if negb (bool_decide (Position.market_id pos = market_id)) then pos
  else if negb (bool_decide (Position.status pos = OPEN)) then pos
  else
    let pnl := pd_pnl (Position.notional pos) (Position.entry_p pos)
                      current_p (Position.side pos) in
    let equity := compute_equity (Position.im_amount pos) pnl in
    let pos' := Position.set_marks pos pnl equity current_p in
    if is_liquidation equity (Position.im_amount pos)
    then Position.set_status pos' LIQUIDATED
    else pos'.

(** [None] is the [KeyError] of [markets[market_id]], raised before
    anything is written. *)
Definition update_positions_for_market (market_id : string) (st : State)
  : option State :=
  m ← markets st !! market_id;
  let current_p := Market.current_p m in
  Some {| markets := markets st;
          positions := update_position market_id current_p <$> positions st |}.

(** The body of the [for pos in positions] loop of [settle_market]. *)
Definition settle_position (market_id : string) (outcome : Q) (pos : Position.t)
  : Position.t :=
  if negb (bool_decide (Position.market_id pos = market_id)) then pos
  else if bool_decide (Position.status pos = SETTLED) then pos
  else if bool_decide (Position.status pos = LIQUIDATED)
  then Position.set_status pos SETTLED
  else
    let final_pnl := pd_pnl (Position.notional pos) (Position.entry_p pos)
                            outcome (Position.side pos) in
    Position.set_status
      (Position.set_marks pos final_pnl
         (compute_equity (Position.im_amount pos) final_pnl) outcome)
      SETTLED.

Definition settle_market (market_id : string) (outcome : Q) (st : State)
  : option State :=
  m ← markets st !! market_id;
  Some {| markets := <[market_id := Market.set_settled m outcome]> (markets st);
          positions := settle_position market_id outcome <$> positions st |}.

(** ** The buttons of [main] *)

Inductive Feedback :=
| StError (msg : string)
| StWarning (msg : string)
| StInfo (msg : string)
| StSuccess.

(** [if st.button("Open Position")]; [uuid] is [str(uuid.uuid4())] and
    [None] the [KeyError] of [markets[selected_market_id]]. *)
Definition open_position (current_user_id selected_market_id : string)
    (side_value : Side) (notional im_pct : Q) (uuid : string) (st : State)
  : option (State * Feedback) :=
  m ← markets st !! selected_market_id;
  if negb (bool_decide (Market.status m = OPEN))
  then Some (st, StError "Cannot open position on a settled market.")
  else if Qle_bool notional 0
  then Some (st, StError "Notional must be > 0.")
  else
    let im_amount := notional * im_pct in
    let entry_p := Market.current_p m in
    let pnl := 0 in
    let equity := im_amount in
    let pos :=
      {| Position.id := uuid;
         Position.user_id := current_user_id;
         Position.market_id := selected_market_id;
         Position.side := side_value;
         Position.notional := notional;
         Position.im_pct := im_pct;
         Position.im_amount := im_amount;
         Position.entry_p := entry_p;
         Position.current_p := entry_p;
         Position.pnl := pnl;
         Position.equity := equity;
         Position.status := OPEN |} in
    Some ({| markets := markets st; positions := positions st ++ [pos] |},
          StSuccess).

(** [if st.button("Apply manual probability")] *)
Definition apply_manual_probability (adm_mid : string) (new_p : Q) (st : State)
  : option State :=
  m ← markets st !! adm_mid;
  update_positions_for_market adm_mid
    {| markets := <[adm_mid := Market.set_current_p m new_p]> (markets st);
       positions := positions st |}.

(** ** Polymarket integration *)

Inductive Exc :=
| JSONDecodeError | ValueError | IndexError | TypeError | KeyError
| AttributeError | OverflowError
| RequestException.

Inductive Try (A : Type) :=
| Return (a : A)
| Raise (e : Exc).
Arguments Return {A} a.
Arguments Raise {A} e.

(** One dict of the provider's list, restricted to the keys that
    [polymarket_market_to_bube] reads; [None] is an absent key. *)
Module RawMarket.
Record t := mk {
  id : string;
  question : option string;
  description : option string;
  slug : option string;
  outcomePrices : option string }.
End RawMarket.

Section Provider.

(** [json.loads] ([None] when it raises [JSONDecodeError]) and the
    parsing of a string by [float] ([None] when it raises
    [ValueError]) belong to the runtime. *)
Variable json_loads : string -> option json.
Variable float_of_str : string -> option Q.

(** Truth value of a decoded JSON value. *)
Definition truthy (v : json) : bool :=
  match v with
  | JNull => false
  | JBool b => b
  | JNum q => negb (Qeq_bool q 0)
  | JStr s => negb (bool_decide (s = EmptyString))
  | JArr items => negb (bool_decide (items = []))
  | JObj fields => negb (bool_decide (fields = []))
  end.

(** [prices[0]] *)
Definition first_item (prices : json) : Try json :=
  match prices with
  | JArr (x :: _) => Return x
  | JArr [] => Raise IndexError
  | JStr (String c _) => Return (JStr (String c EmptyString))
  | JStr EmptyString => Raise IndexError
  | JObj _ => Raise KeyError
  | JNull | JBool _ | JNum _ => Raise TypeError
  end.

(** The largest magnitude [float] accepts of an integer: from
    [2^1024 - 2^970] on, the nearest double would be infinite. *)
Definition float_overflow : Q := 2 ^ 1024 - 2 ^ 970.

(** [float(x)].  A decoded number is a double or an integer; an integer
    too large for a double raises [OverflowError]. *)
Definition float (x : json) : Try Q :=
  match x with
  | JNum q => if Qle_bool float_overflow (Qabs q) then Raise OverflowError else Return q
  | JBool b => Return (if b then 1 else 0)
  | JStr s =>
    match float_of_str s with
    | Some q => Return q
    | None => Raise ValueError
    end
  | JNull | JArr _ | JObj _ => Raise TypeError
  end.

(** [except (json.JSONDecodeError, ValueError, IndexError)] *)
Definition caught (e : Exc) : bool :=
  match e with
  | JSONDecodeError | ValueError | IndexError => true
  | _ => false
  end.

(** The [try] block computing [p_yes]. *)
Definition p_yes_of (m : RawMarket.t) : Try Q :=
  match json_loads (default "[]"%string (RawMarket.outcomePrices m)) with
  | None => Return 0
  | Some prices =>
    let attempt :=
      if truthy prices
      then match first_item prices with
           | Return x => float x
           | Raise e => Raise e
           end
      else Return 0 in
    match attempt with
    | Return p => Return p
    | Raise e => if caught e then Return 0 else Raise e
    end
  end.

Definition polymarket_market_to_bube (m : RawMarket.t) : Try Market.t :=
  match p_yes_of m with
  | Raise e => Raise e
  | Return p_yes =>
    let description := default EmptyString (RawMarket.description m) in
    Return
      {| Market.id := "poly-" +:+ RawMarket.id m;
         Market.name := default ("Polymarket " +:+ RawMarket.id m)
                                (RawMarket.question m);
         Market.description := description;
         Market.current_p := p_yes;
         Market.status := OPEN;
         Market.outcome := None;
         Market.source := Some "polymarket"%string;
         Market.poly_id := Some (RawMarket.id m);
         Market.poly_slug := RawMarket.slug m |}
  end.

(** [{m["id"]: m for m in poly_markets}] *)
Definition index_by_id (poly_markets : list RawMarket.t)
  : gmap string RawMarket.t :=
  foldl (fun by_id m => <[RawMarket.id m := m]> by_id) ∅ poly_markets.

(** [if st.button("Pull latest Polymarket price")]; [fetched] is the
    result of the call [fetch_polymarket_markets(max_markets=200)],
    [None] the [KeyError] of [markets[adm_mid]] outside the [try]. *)
Definition refresh_from_polymarket (adm_mid : string)
    (fetched : Try (list RawMarket.t)) (st : State)
  : option (State * Feedback) :=
  adm_m ← markets st !! adm_mid;
  if negb (bool_decide (Market.source adm_m = Some "polymarket"%string))
  then Some (st, StInfo "This market is not linked to Polymarket (source != 'polymarket').")
  else
    match fetched with
    | Raise _ => Some (st, StError "Error refreshing from Polymarket")
    | Return poly_markets =>
      let poly_by_id := index_by_id poly_markets in
      match Market.poly_id adm_m ≫= (fun poly_id => poly_by_id !! poly_id) with
      | None =>
        Some (st, StWarning "Matching Polymarket market not found in latest API response.")
      | Some pm =>
        match polymarket_market_to_bube pm with
        | Raise _ => Some (st, StError "Error refreshing from Polymarket")
        | Return bm =>
          let st' :=
            {| markets :=
                 <[adm_mid := Market.set_quote adm_m (Market.current_p bm)
                                (Market.name bm) (Market.description bm)]>
                   (markets st);
               positions := positions st |} in
          match update_positions_for_market adm_mid st' with
          | Some st'' => Some (st'', StSuccess)
          | None => Some (st', StError "Error refreshing from Polymarket")
          end
        end
      end
    end.

End Provider.

End Streamlit.

(** * Invariants of the two ledgers of [App] *)
Module Ledger.

(** The marks of a position of [App] are those of its market. *)
Definition inSync (ms : list PdEngine.Market.t) (pos : App.Position.t) : Prop :=
  exists m,
    List.find (fun mm => bool_decide (PdEngine.Market.id mm = App.Position.marketId pos)) ms
      = Some m
    /\ App.Position.currentP pos == PdEngine.Market.currentP m
    /\ App.Position.pnl pos
       == PdEngine.pdPnl (App.Position.notional pos) (App.Position.entryP pos)
            (PdEngine.Market.currentP m) (App.Position.side pos)
    /\ App.Position.equity pos
       == PdEngine.computeEquity (App.Position.imAmount pos) (App.Position.pnl pos).

(** The state of [App] between two events: the effect has run, every
    OPEN position carries the marks of its market, and one with a
    positive margin is above the liquidation threshold. *)
Definition consistent (s : App.State) : Prop :=
  App.marketsChanged s = false
  /\ forall (i : nat) (pos : App.Position.t),
       App.positions s !! i = Some pos ->
       App.Position.status pos = OPEN ->
       inSync (App.markets s) pos
       /\ (0 < App.Position.imAmount pos ->
           PdEngine.isLiquidation (App.Position.equity pos) (App.Position.imAmount pos)
           = false).

(** How a handler of [App] may rewrite one market object. *)
Inductive marketUpdate (m : PdEngine.Market.t) : PdEngine.Market.t -> Prop :=
| KeepMarket : marketUpdate m m
| QuoteMarket (p : Q) : marketUpdate m (App.withCurrentP m p)
| SettleMarket (settleOutcome : Q) :
    marketUpdate m (App.withSettlement m (App.coerceOutcome settleOutcome))
| RefreshMarket (mapped : PdEngine.Market.t) : marketUpdate m (App.withQuote m mapped).

(** The settled-market invariant of the data model: a SETTLED market
    carries the outcome 0 or 1. *)
Definition outcomeIsBinary (m : PdEngine.Market.t) : Prop :=
  PdEngine.Market.status m = SETTLED ->
  PdEngine.Market.outcome m = Some 0 \/ PdEngine.Market.outcome m = Some 1.

(** The ingestion filter in the spec's words: active, not closed, and
    an outcome list of exactly two entries. *)
Definition accepted (JSON_parse : string -> option json) (m : PdEngine.RawMarket.t)
  : bool :=
  PdEngine.RawMarket.active m
  && negb (PdEngine.RawMarket.closed m)
  && match JSON_parse (default "[]"%string (PdEngine.RawMarket.outcomes m)) with
     | Some (JArr [_; _]) => true
     | _ => false
     end.

End Ledger.

(** * Sample data

    The markets and positions of the spec's worked examples, and a
    fragment of the runtime conversions that is enough to evaluate the
    ingestion on them. *)
Module Samples.

Definition quote : string := String (Ascii.ascii_of_nat 34) EmptyString.

(** The text of a JSON array of two strings. *)
Definition pairText (a b : string) : string :=
  "[" +:+ quote +:+ a +:+ quote +:+ ", " +:+ quote +:+ b +:+ quote +:+ "]".

Definition yesNoText : string := pairText "Yes" "No".
Definition pricesText : string := pairText "0.62" "0.38".

(** [JSON.parse] / [json.loads] on the texts used below; the last
    case covers the texts ["not json"] and ["oops"], which are not
    JSON. *)
Definition JSON_parse (text : string) : option json :=
  if bool_decide (text = yesNoText) then Some (JArr [JStr "Yes"; JStr "No"])
  else if bool_decide (text = pricesText) then Some (JArr [JStr "0.62"; JStr "0.38"])
  else if bool_decide (text = "[]"%string) then Some (JArr [])
  else None.

(** [float] of a string, on the strings used below. *)
Definition float_of_str (text : string) : option Q :=
  if bool_decide (text = "0.62"%string) then Some 0.62
  else if bool_decide (text = "0.38"%string) then Some 0.38
  else None.

(** [Number] on the values used below. *)
Definition Number (v : json) : Q :=
  match v with
  | JNum q => q
  | JStr text => default 0 (float_of_str text)
  | _ => 0
  end.

(** ** Provider candidates *)

Definition candidate : PdEngine.RawMarket.t :=
  {| PdEngine.RawMarket.id := "1";
     PdEngine.RawMarket.slug := Some "btc-100k"%string;
     PdEngine.RawMarket.question := "BTC hits $100,000 by 31 Dec 2026";
     PdEngine.RawMarket.description := None;
     PdEngine.RawMarket.active := true;
     PdEngine.RawMarket.closed := false;
     PdEngine.RawMarket.outcomes := Some yesNoText;
     PdEngine.RawMarket.outcomePrices := Some pricesText |}.

(** The same candidate with an [outcomePrices] text that is not JSON. *)
Definition badPrices : PdEngine.RawMarket.t :=
  {| PdEngine.RawMarket.id := "2";
     PdEngine.RawMarket.slug := None;
     PdEngine.RawMarket.question := "Trump wins US Election 2028";
     PdEngine.RawMarket.description := None;
     PdEngine.RawMarket.active := true;
     PdEngine.RawMarket.closed := false;
     PdEngine.RawMarket.outcomes := Some yesNoText;
     PdEngine.RawMarket.outcomePrices := Some "not json"%string |}.

(** A candidate with an [outcomes] text that is not JSON. *)
Definition badOutcomes : PdEngine.RawMarket.t :=
  {| PdEngine.RawMarket.id := "3";
     PdEngine.RawMarket.slug := None;
     PdEngine.RawMarket.question := "Rain tomorrow";
     PdEngine.RawMarket.description := None;
     PdEngine.RawMarket.active := true;
     PdEngine.RawMarket.closed := false;
     PdEngine.RawMarket.outcomes := Some "oops"%string;
     PdEngine.RawMarket.outcomePrices := Some pricesText |}.

Definition pyBadPrices : Streamlit.RawMarket.t :=
  {| Streamlit.RawMarket.id := "2";
     Streamlit.RawMarket.question := Some "Trump wins US Election 2028"%string;
     Streamlit.RawMarket.description := None;
     Streamlit.RawMarket.slug := None;
     Streamlit.RawMarket.outcomePrices := Some "not json"%string |}.

(** ** [App] *)

Definition market (id polyId question : string) (p : Q) (status : Status)
    (outcome : option Q) : PdEngine.Market.t :=
  {| PdEngine.Market.id := id;
     PdEngine.Market.source := "polymarket";
     PdEngine.Market.polyId := polyId;
     PdEngine.Market.slug := None;
     PdEngine.Market.question := Some question;
     PdEngine.Market.description := EmptyString;
     PdEngine.Market.currentP := p;
     PdEngine.Market.status := status;
     PdEngine.Market.outcome := outcome |}.

Definition btc (p : Q) : PdEngine.Market.t :=
  market "poly-1" "1" "BTC hits $100,000 by 31 Dec 2026" p OPEN None.

Definition election (p : Q) : PdEngine.Market.t :=
  market "poly-2" "2" "Trump wins US Election 2028" p OPEN None.

Definition electionSettled : PdEngine.Market.t :=
  market "poly-2" "2" "Trump wins US Election 2028" 0.41 SETTLED (Some 1).

(** A market loaded from a candidate whose provider id is
    ["constructor"]. *)
Definition inheritedKey (p : Q) : PdEngine.Market.t :=
  market "poly-constructor" "constructor" "Who builds it" p OPEN None.

(** LONG 1,000,000 on the first market at 10% margin, entered at 0.50. *)
Definition longBtc (status : Status) : App.Position.t :=
  {| App.Position.id := "pos-1";
     App.Position.marketId := "poly-1";
     App.Position.marketName := Some "BTC hits $100,000 by 31 Dec 2026"%string;
     App.Position.side := LONG;
     App.Position.notional := 1000000;
     App.Position.imPct := 10;
     App.Position.imAmount := 100000;
     App.Position.entryP := 0.5;
     App.Position.currentP := 0.5;
     App.Position.pnl := 0;
     App.Position.equity := 100000;
     App.Position.status := status |}.

(** SHORT 500,000 on the second market at 10% margin, entered at 0.41. *)
Definition shortElection (status : Status) : App.Position.t :=
  {| App.Position.id := "pos-2";
     App.Position.marketId := "poly-2";
     App.Position.marketName := Some "Trump wins US Election 2028"%string;
     App.Position.side := SHORT;
     App.Position.notional := 500000;
     App.Position.imPct := 10;
     App.Position.imAmount := 50000;
     App.Position.entryP := 0.41;
     App.Position.currentP := 0.41;
     App.Position.pnl := 0;
     App.Position.equity := 50000;
     App.Position.status := status |}.

(** The component with the two markets loaded and the form as given. *)
Definition app (ms : list PdEngine.Market.t) (ps : list App.Position.t)
    (selected admin : string) (imPct manualProb settleOutcome : Q) : App.State :=
  {| App.markets := ms;
     App.marketsChanged := false;
     App.positions := ps;
     App.selectedMarketId := Some selected;
     App.adminMarketId := Some admin;
     App.side := LONG;
     App.notional := 1000000;
     App.imPct := imPct;
     App.manualProb := manualProb;
     App.settleOutcome := settleOutcome |}.

(** ** Streamlit *)

Definition pyMarket (id name : string) (p : Q) (status : Status)
    (outcome : option Q) : Streamlit.Market.t :=
  {| Streamlit.Market.id := id;
     Streamlit.Market.name := name;
     Streamlit.Market.description := EmptyString;
     Streamlit.Market.current_p := p;
     Streamlit.Market.status := status;
     Streamlit.Market.outcome := outcome;
     Streamlit.Market.source := Some "polymarket"%string;
     Streamlit.Market.poly_id := Some id;
     Streamlit.Market.poly_slug := None |}.

Definition pyLongBtc (status : Status) : Streamlit.Position.t :=
  {| Streamlit.Position.id := "pos-1";
     Streamlit.Position.user_id := "demo_trader";
     Streamlit.Position.market_id := "1";
     Streamlit.Position.side := LONG;
     Streamlit.Position.notional := 1000000;
     Streamlit.Position.im_pct := 0.1;
     Streamlit.Position.im_amount := 100000;
     Streamlit.Position.entry_p := 0.5;
     Streamlit.Position.current_p := 0.5;
     Streamlit.Position.pnl := 0;
     Streamlit.Position.equity := 100000;
     Streamlit.Position.status := status |}.

Definition pyShortElection (status : Status) : Streamlit.Position.t :=
  {| Streamlit.Position.id := "pos-2";
     Streamlit.Position.user_id := "demo_trader";
     Streamlit.Position.market_id := "2";
     Streamlit.Position.side := SHORT;
     Streamlit.Position.notional := 500000;
     Streamlit.Position.im_pct := 0.1;
     Streamlit.Position.im_amount := 50000;
     Streamlit.Position.entry_p := 0.41;
     Streamlit.Position.current_p := 0.41;
     Streamlit.Position.pnl := 0;
     Streamlit.Position.equity := 50000;
     Streamlit.Position.status := status |}.

Definition session (election : Streamlit.Market.t) (ps : list Streamlit.Position.t)
  : Streamlit.State :=
  {| Streamlit.markets :=
       <["1"%string := pyMarket "1" "BTC hits $100,000 by 31 Dec 2026" 0.5 OPEN None]>
         (<["2"%string := election]> ∅);
     Streamlit.positions := ps |}.

Definition pyElection : Streamlit.Market.t :=
  pyMarket "2" "Trump wins US Election 2028" 0.41 OPEN None.

Definition pyElectionSettled : Streamlit.Market.t :=
  pyMarket "2" "Trump wins US Election 2028" 0.41 SETTLED (Some 1).

(** The same market as the Streamlit application holds it. *)
Definition pyInheritedKey : Streamlit.Market.t :=
  {| Streamlit.Market.id := "poly-constructor";
     Streamlit.Market.name := "Who builds it";
     Streamlit.Market.description := EmptyString;
     Streamlit.Market.current_p := 0.5;
     Streamlit.Market.status := OPEN;
     Streamlit.Market.outcome := None;
     Streamlit.Market.source := Some "polymarket"%string;
     Streamlit.Market.poly_id := Some "constructor"%string;
     Streamlit.Market.poly_slug := None |}.

End Samples.

(** * App.jsx: the rest of the component

    The effect that loads the markets when the component mounts, and
    the three lists the positions tables are rendered from. *)
Module View.

Definition loadError : string :=
  "Could not load Polymarket markets. Check connection or CORS. You can still test manual mode.".

Section Mount.

Variable JSON_parse : string -> option json.
Variable Number : json -> Q.

(** The function [load] of the mount effect: the state cells it leaves
    behind and the final value of [marketError].  [res] is what [fetch]
    produced. *)
Definition load (res : PdEngine.HttpResult) (s : App.State) : App.State * string :=
  match PdEngine.fetchPolymarketMarkets JSON_parse 15 res with
  | Resolved raw =>
    let mapped := PdEngine.polymarketToBube JSON_parse Number <$> raw in
    let s1 := App.setMarkets (fun _ => mapped) s in
    (match mapped with
     | [] => s1
     | first :: _ =>
       App.setManualProb (PdEngine.Market.currentP first)
         (App.setAdminMarketId (Some (PdEngine.Market.id first))
            (App.setSelectedMarketId (Some (PdEngine.Market.id first)) s1))
     end, EmptyString)
  | Rejected _ => (s, loadError)
  end.

(** [load], the render and the recompute effect. *)
Definition mount (res : PdEngine.HttpResult) (s : App.State) : App.State * string :=
  (App.recomputeEffect (load res s).1, (load res s).2).

End Mount.

(** [positions.filter(p => p.status === ...)] *)
Definition openPositions (positions : list App.Position.t) : list App.Position.t :=
  List.filter (fun p => bool_decide (App.Position.status p = OPEN)) positions.

Definition liquidatedPositions (positions : list App.Position.t)
  : list App.Position.t :=
  List.filter (fun p => bool_decide (App.Position.status p = LIQUIDATED)) positions.

Definition settledPositions (positions : list App.Position.t) : list App.Position.t :=
  List.filter (fun p => bool_decide (App.Position.status p = SETTLED)) positions.

End View.

(** * The Streamlit application: fetch, seeding and the positions tab *)
Module Session.

(** The value under a key that [json.loads] is given: the key is
    absent, holds a string, or holds something that is not a string. *)
Inductive Value :=
| Absent
| Text (text : string)
| NotText.

(** One item of the provider's list.  [is_dict] tells whether it is a
    dict; an item that is not one has no [get] (iterating a dict or a
    string that the body decoded to yields such items).  For a dict,
    [raw] holds the keys of [Streamlit.RawMarket], [active] and [closed]
    the truth value of [m.get(key, False)], and [outcomes] what is under
    the key of that name. *)
Module Candidate.
Record t := mk {
  is_dict : bool;
  raw : Streamlit.RawMarket.t;
  active : bool;
  closed : bool;
  outcomes : Value }.
End Candidate.

Section Fetch.

(** [json.loads], [float] of a string and [len] of a string belong to
    the runtime. *)
Variable json_loads : string -> option json.
Variable float_of_str : string -> option Q.
Variable str_len : string -> nat.

(** [len(outs)]: a number, a boolean and [None] have no length. *)
Definition len (outs : json) : Streamlit.Try nat :=
  match outs with
  | JArr items => Streamlit.Return (length items)
  | JObj fields => Streamlit.Return (length fields)
  | JStr text => Streamlit.Return (str_len text)
  | JNull | JBool _ | JNum _ => Streamlit.Raise Streamlit.TypeError
  end.

(** [json.loads(m.get("outcomes", "[]"))], [None] when it raises
    [JSONDecodeError]: an item that is not a dict has no [get], and
    [json.loads] takes a string only. *)
Definition outcomes_of (m : Candidate.t) : Streamlit.Try (option json) :=
  if negb (Candidate.is_dict m) then Streamlit.Raise Streamlit.AttributeError
  else
    match Candidate.outcomes m with
    | Absent => Streamlit.Return (json_loads "[]")
    | Text text => Streamlit.Return (json_loads text)
    | NotText => Streamlit.Raise Streamlit.TypeError
    end.

(** The [for m in data] loop of [fetch_polymarket_markets]; [selected]
    is the list built so far. *)
Fixpoint select_markets (max_markets : Z) (require_yes_no only_open : bool)
    (data selected : list Candidate.t) : Streamlit.Try (list Candidate.t) :=
  match data with
  | [] => Streamlit.Return selected
  | m :: rest =>
    if only_open && negb (Candidate.is_dict m)
    then Streamlit.Raise Streamlit.AttributeError
    else if only_open && (negb (Candidate.active m) || Candidate.closed m)
    then select_markets max_markets require_yes_no only_open rest selected
    else
      let keep :=
        let selected' := selected ++ [m] in
        if bool_decide (max_markets <= Z.of_nat (length selected'))%Z
        then Streamlit.Return selected'
        else select_markets max_markets require_yes_no only_open rest selected' in
      if require_yes_no
      then
        match outcomes_of m with
        | Streamlit.Raise e => Streamlit.Raise e
        | Streamlit.Return None =>
          select_markets max_markets require_yes_no only_open rest selected
        | Streamlit.Return (Some outs) =>
          match len outs with
          | Streamlit.Raise e => Streamlit.Raise e
          | Streamlit.Return n =>
            if negb (bool_decide (n = 2%nat))
            then select_markets max_markets require_yes_no only_open rest selected
            else keep
          end
        end
      else keep
  end.

(** [response] is the outcome of [requests.get], [raise_for_status],
    [resp.json()] and of starting the iteration of the decoded body (a
    number, a boolean and [null] cannot be iterated: [TypeError]). *)
Definition fetch_polymarket_markets (max_markets : Z) (require_yes_no only_open : bool)
    (response : Streamlit.Try (list Candidate.t)) : Streamlit.Try (list Candidate.t) :=
  match response with
  | Streamlit.Raise e => Streamlit.Raise e
  | Streamlit.Return data =>
    select_markets max_markets require_yes_no only_open data []
  end.

(** The two demo markets, [asdict(Market(...))]. *)
Definition demo_market (id name description : string) (current_p : Q)
  : Streamlit.Market.t :=
  {| Streamlit.Market.id := id;
     Streamlit.Market.name := name;
     Streamlit.Market.description := description;
     Streamlit.Market.current_p := current_p;
     Streamlit.Market.status := OPEN;
     Streamlit.Market.outcome := None;
     Streamlit.Market.source := None;
     Streamlit.Market.poly_id := None;
     Streamlit.Market.poly_slug := None |}.

Definition m1 (id : string) : Streamlit.Market.t :=
  demo_market id "BTC hits $100,000 by 31 Dec 2026"
    "YES if BTC trades at or above $100k on any major exchange before end of 2026."
    0.62.

Definition m2 (id : string) : Streamlit.Market.t :=
  demo_market id "Trump wins US Election 2028"
    "YES if Trump wins the 2028 US Presidential election." 0.41.

(** The [for pm in poly_markets] loop of [init_state]: the markets
    written so far, and the exception that ended the loop, if any. *)
Fixpoint seed (poly_markets : list Candidate.t) (markets : gmap string Streamlit.Market.t)
  : gmap string Streamlit.Market.t * option Streamlit.Exc :=
  match poly_markets with
  | [] => (markets, None)
  | pm :: rest =>
    match Streamlit.polymarket_market_to_bube json_loads float_of_str
            (Candidate.raw pm) with
    | Streamlit.Raise e => (markets, Some e)
    | Streamlit.Return bm => seed rest (<[Streamlit.Market.id bm := bm]> markets)
    end
  end.

(** The [except Exception] branch of [init_state]. *)
Definition fallback (id1 id2 : string) (markets : gmap string Streamlit.Market.t)
  : gmap string Streamlit.Market.t :=
  <[id2 := m2 id2]> (<[id1 := m1 id1]> markets).

(** The market seeding of [init_state] (the users are not part of
    [Streamlit.State]; an absent key of [st.session_state] is the empty
    container the function replaces it with).  [id1] and [id2] are the
    two [str(uuid.uuid4())] of the demo markets; the boolean tells
    whether the sidebar warning is shown. *)
Definition init_state (response : Streamlit.Try (list Candidate.t)) (id1 id2 : string)
    (st : Streamlit.State) : Streamlit.State * bool :=
  if bool_decide (Streamlit.markets st = ∅)
  then
    match fetch_polymarket_markets 10 true true response with
    | Streamlit.Return (pm :: rest) =>
      match seed (pm :: rest) (Streamlit.markets st) with
      | (markets, None) =>
        ({| Streamlit.markets := markets;
            Streamlit.positions := Streamlit.positions st |}, false)
      | (markets, Some _) =>
        ({| Streamlit.markets := fallback id1 id2 markets;
            Streamlit.positions := Streamlit.positions st |}, true)
      end
    | Streamlit.Return [] | Streamlit.Raise _ =>
      ({| Streamlit.markets := fallback id1 id2 (Streamlit.markets st);
          Streamlit.positions := Streamlit.positions st |}, true)
    end
  else (st, false).

End Fetch.

(** [for mid in markets.keys(): update_positions_for_market(mid)] *)
Fixpoint update_all (market_ids : list string) (st : Streamlit.State)
  : option Streamlit.State :=
  match market_ids with
  | [] => Some st
  | mid :: rest =>
    st' ← Streamlit.update_positions_for_market mid st;
    update_all rest st'
  end.

(** The recompute of the "Positions & Risk" tab: nothing happens when
    the current user has no position.  The keys are taken in the order
    of [map_to_list]; the result does not depend on the order. *)
Definition positions_tab (current_user_id : string) (st : Streamlit.State)
  : option Streamlit.State :=
  let user_positions :=
    List.filter (fun p => bool_decide (Streamlit.Position.user_id p = current_user_id))
      (Streamlit.positions st) in
  match user_positions with
  | [] => Some st
  | _ => update_all (map_to_list (Streamlit.markets st)).*1 st
  end.

End Session.

(** * Invariants of the Position Ledger of [App] *)
Module Invariants.

(** The fields of a position that are set when it is opened. *)
Definition fixedFields (pos : App.Position.t)
  : string * string * option string * Side * Q * Q * Q * Q :=
  (App.Position.id pos, App.Position.marketId pos, App.Position.marketName pos,
   App.Position.side pos, App.Position.notional pos, App.Position.imPct pos,
   App.Position.imAmount pos, App.Position.entryP pos).

(** OPEN comes before LIQUIDATED, which comes before SETTLED. *)
Definition rank (status : Status) : nat :=
  match status with OPEN => 0 | LIQUIDATED => 1 | SETTLED => 2 end.

(** A later version of the same position. *)
Definition laterVersion (pos pos' : App.Position.t) : Prop :=
  fixedFields pos' = fixedFields pos
  /\ (rank (App.Position.status pos) <= rank (App.Position.status pos'))%nat.

(** The equity of a position is its margin plus its pnl. *)
Definition balanced (pos : App.Position.t) : Prop :=
  App.Position.equity pos
  == PdEngine.computeEquity (App.Position.imAmount pos) (App.Position.pnl pos).


(** The position [handleOpenPosition] builds. *)
Definition opened (uuid : string) (s : App.State) (sm : PdEngine.Market.t)
  : App.Position.t :=
  {| App.Position.id := uuid;
     App.Position.marketId := PdEngine.Market.id sm;
     App.Position.marketName := PdEngine.Market.question sm;
     App.Position.side := App.side s;
     App.Position.notional := App.notional s;
     App.Position.imPct := App.imPct s;
     App.Position.imAmount := (App.notional s * App.imPct s) / 100;
     App.Position.entryP := PdEngine.Market.currentP sm;
     App.Position.currentP := PdEngine.Market.currentP sm;
     App.Position.pnl := 0;
     App.Position.equity := (App.notional s * App.imPct s) / 100;
     App.Position.status := OPEN |}.

(** Every market quotes a probability. *)
Definition quotedInRange (m : PdEngine.Market.t) : Prop :=
  0 <= PdEngine.Market.currentP m /\ PdEngine.Market.currentP m <= 1.

(** What the positions tab of the Streamlit application makes of one
    position: it is marked at its own market, if that market exists. *)
Definition remark (markets : gmap string Streamlit.Market.t)
    (pos : Streamlit.Position.t) : Streamlit.Position.t :=
  match markets !! Streamlit.Position.market_id pos with
  | Some m =>
    Streamlit.update_position (Streamlit.Position.market_id pos)
      (Streamlit.Market.current_p m) pos
  | None => pos
  end.

(** A market of the Streamlit application as it is seeded. *)
Definition openNoOutcome (m : Streamlit.Market.t) : Prop :=
  Streamlit.Market.status m = OPEN /\ Streamlit.Market.outcome m = None.

(** The Streamlit fetch filter with its default flags: a dict that is
    active, not closed, and whose [outcomes] are absent or a text, and
    decode to a value of length 2. *)
Definition accepted (json_loads : string -> option json) (str_len : string -> nat)
    (m : Session.Candidate.t) : bool :=
  Session.Candidate.is_dict m
  && Session.Candidate.active m
  && negb (Session.Candidate.closed m)
  && match Session.outcomes_of json_loads m with
     | Streamlit.Return (Some outs) =>
       match Session.len str_len outs with
       | Streamlit.Return n => bool_decide (n = 2%nat)
       | Streamlit.Raise _ => false
       end
     | _ => false
     end.

(** The exception an item of the list raises in the loop of the fetch
    with its default flags, if the loop reaches it: an item that is not
    a dict has no [get]; for an active, open dict, [json.loads] refuses
    [outcomes] that are not a string, and [len] a decoded number,
    boolean or null. *)
Definition failure (json_loads : string -> option json) (m : Session.Candidate.t)
  : option Streamlit.Exc :=
  if negb (Session.Candidate.is_dict m) then Some Streamlit.AttributeError
  else if negb (Session.Candidate.active m) || Session.Candidate.closed m then None
  else
    match Session.Candidate.outcomes m with
    | Session.NotText => Some Streamlit.TypeError
    | Session.Absent | Session.Text _ =>
      match Session.outcomes_of json_loads m with
      | Streamlit.Return (Some (JNull | JBool _ | JNum _)) => Some Streamlit.TypeError
      | _ => None
      end
    end.

End Invariants.

(** * More sample data *)
Module Examples.

(** [json.loads] on the texts of [Samples] and on the text ["5"]. *)
Definition json_loads (text : string) : option json :=
  if bool_decide (text = "5"%string) then Some (JNum 5) else Samples.JSON_parse text.

Definition pyRaw (id question : string) (outcomePrices : option string)
  : Streamlit.RawMarket.t :=
  {| Streamlit.RawMarket.id := id;
     Streamlit.RawMarket.question := Some question;
     Streamlit.RawMarket.description := None;
     Streamlit.RawMarket.slug := None;
     Streamlit.RawMarket.outcomePrices := outcomePrices |}.

(** An active, open, binary candidate quoted at 0.62. *)
Definition binary : Session.Candidate.t :=
  {| Session.Candidate.is_dict := true;
     Session.Candidate.raw :=
       pyRaw "1" "BTC hits $100,000 by 31 Dec 2026" (Some Samples.pricesText);
     Session.Candidate.active := true;
     Session.Candidate.closed := false;
     Session.Candidate.outcomes := Session.Text Samples.yesNoText |}.

(** A closed candidate. *)
Definition closedOne : Session.Candidate.t :=
  {| Session.Candidate.is_dict := true;
     Session.Candidate.raw := pyRaw "4" "Rain yesterday" (Some Samples.pricesText);
     Session.Candidate.active := true;
     Session.Candidate.closed := true;
     Session.Candidate.outcomes := Session.Text Samples.yesNoText |}.

(** A candidate whose [outcomes] text is the number 5. *)
Definition numeric : Session.Candidate.t :=
  {| Session.Candidate.is_dict := true;
     Session.Candidate.raw := pyRaw "5" "Five" (Some Samples.pricesText);
     Session.Candidate.active := true;
     Session.Candidate.closed := false;
     Session.Candidate.outcomes := Session.Text "5"%string |}.


(** A binary candidate whose [outcomes] are [null]. *)
Definition nullOutcomes : Session.Candidate.t :=
  {| Session.Candidate.is_dict := true;
     Session.Candidate.raw := pyRaw "7" "Seven" (Some Samples.pricesText);
     Session.Candidate.active := true;
     Session.Candidate.closed := false;
     Session.Candidate.outcomes := Session.NotText |}.

(** An item of the list that is [null]. *)
Definition notDict : Session.Candidate.t :=
  {| Session.Candidate.is_dict := false;
     Session.Candidate.raw := pyRaw "" "" None;
     Session.Candidate.active := false;
     Session.Candidate.closed := false;
     Session.Candidate.outcomes := Session.Absent |}.

(** A fresh session. *)
Definition fresh : Streamlit.State :=
  {| Streamlit.markets := ∅; Streamlit.positions := [] |}.

End Examples.

(** * The engine in double precision

    JavaScript numbers and Python floats are IEEE 754 binary64 numbers.
    The modules above embed them as exact rationals, which is what the
    pricing identities and the structure of the ledgers need.  Whether a
    position is liquidated, and what the clamp of the manual probability
    writes, depends on rounding and on NaN, so the code that a price
    update runs through is embedded once more, on Rocq's primitive
    binary64 numbers: [+], [-], [*], [/] round to nearest (ties to even)
    as the hardware does, [<=?], [<?] and [=?] are the IEEE comparisons
    (false on NaN, [-0 =? 0]), and [nan] is the one NaN.  The function
    names are those of the source; the modules carry the suffix 64. *)

(** ** pdEngine.js *)
Module PdEngine64.

Local Open Scope float_scope.

Definition pdPnl (notional pEntry pCurrent : float) (side : Side) : float :=
  let s := match side with LONG => 1 | _ => -1 end in
  let deltaP := pCurrent - pEntry in
  notional * deltaP * s.

Definition computeEquity (imAmount pnl : float) : float := imAmount + pnl.

Definition LIQ_THRESHOLD_BETA : float := 0.05.

Definition isLiquidation (equity imAmount : float) : bool :=
  equity <=? LIQ_THRESHOLD_BETA * imAmount.

(** The engine's market object. *)
Module Market.
Record t := mk {
  id : string;
  source : string;
  polyId : string;
  slug : option string;
  question : option string;
  description : string;
  currentP : float;
  status : Status;
  outcome : option float }.
End Market.

Section Ingestion.

(** [JSON.parse] ([None] when it throws [SyntaxError]) and the
    [Number] conversion belong to the runtime; [Number] yields NaN for
    what is not numeric. *)
Variable JSON_parse : string -> option json.
Variable Number : json -> float.

Definition yesPrice (m : PdEngine.RawMarket.t) : float :=
  match JSON_parse (default "[]"%string (PdEngine.RawMarket.outcomePrices m)) with
  | Some (JArr (JNull :: _)) => 0
  | Some (JArr (first :: _)) => Number first
  | Some _ => 0
  | None => 0
  end.

Definition polymarketToBube (m : PdEngine.RawMarket.t) : Market.t :=
  let pYes := yesPrice m in
  {| Market.id := "poly-" +:+ PdEngine.RawMarket.id m;
     Market.source := "polymarket";
     Market.polyId := PdEngine.RawMarket.id m;
     Market.slug := PdEngine.RawMarket.slug m;
     Market.question := Some (PdEngine.RawMarket.question m);
     Market.description := default EmptyString (PdEngine.RawMarket.description m);
     Market.currentP := pYes;
     Market.status := OPEN;
     Market.outcome := None |}.

End Ingestion.

End PdEngine64.

(** ** App.jsx *)
Module App64.
Import PdEngine64.

Local Open Scope float_scope.

Module Position.
Record t := mk {
  id : string;
  marketId : string;
  marketName : option string;
  side : Side;
  notional : float;
  imPct : float;
  imAmount : float;
  entryP : float;
  currentP : float;
  pnl : float;
  equity : float;
  status : Status }.

(** [{ ...pos, currentP, pnl, equity }] *)
Definition withMarks (pos : t) (currentP' pnl' equity' : float) : t :=
  {| id := id pos; marketId := marketId pos; marketName := marketName pos;
     side := side pos; notional := notional pos; imPct := imPct pos;
     imAmount := imAmount pos; entryP := entryP pos;
     currentP := currentP'; pnl := pnl'; equity := equity';
     status := status pos |}.

(** [{ ...pos, status }] *)
Definition withStatus (pos : t) (status' : Status) : t :=
  {| id := id pos; marketId := marketId pos; marketName := marketName pos;
     side := side pos; notional := notional pos; imPct := imPct pos;
     imAmount := imAmount pos; entryP := entryP pos;
     currentP := currentP pos; pnl := pnl pos; equity := equity pos;
     status := status' |}.
End Position.

(** [{ ...m, currentP: p }] *)
Definition withCurrentP (m : Market.t) (p : float) : Market.t :=
  {| Market.id := Market.id m; Market.source := Market.source m;
     Market.polyId := Market.polyId m; Market.slug := Market.slug m;
     Market.question := Market.question m;
     Market.description := Market.description m;
     Market.currentP := p;
     Market.status := Market.status m; Market.outcome := Market.outcome m |}.

(** [{ ...m, currentP, question, description }] *)
Definition withQuote (m mapped : Market.t) : Market.t :=
  {| Market.id := Market.id m; Market.source := Market.source m;
     Market.polyId := Market.polyId m; Market.slug := Market.slug m;
     Market.question := Market.question mapped;
     Market.description := Market.description mapped;
     Market.currentP := Market.currentP mapped;
     Market.status := Market.status m; Market.outcome := Market.outcome m |}.

(** The [useState] cells, as in [App.State].  The cell [manualProb]
    holds a number or the text of the input; the component reads it
    through [Number(manualProb)] only, and that number is what the
    field here holds. *)
Record State := mkState {
  markets : list Market.t;
  marketsChanged : bool;
  positions : list Position.t;
  selectedMarketId : option string;
  adminMarketId : option string;
  side : Side;
  notional : float;
  imPct : float;
  manualProb : float;
  settleOutcome : float }.

Definition setMarkets (f : list Market.t -> list Market.t) (s : State) : State :=
  {| markets := f (markets s); marketsChanged := true;
     positions := positions s;
     selectedMarketId := selectedMarketId s; adminMarketId := adminMarketId s;
     side := side s; notional := notional s; imPct := imPct s;
     manualProb := manualProb s; settleOutcome := settleOutcome s |}.

Definition setPositions (f : list Position.t -> list Position.t) (s : State) : State :=
  {| markets := markets s; marketsChanged := marketsChanged s;
     positions := f (positions s);
     selectedMarketId := selectedMarketId s; adminMarketId := adminMarketId s;
     side := side s; notional := notional s; imPct := imPct s;
     manualProb := manualProb s; settleOutcome := settleOutcome s |}.

Definition setManualProb (p : float) (s : State) : State :=
  {| markets := markets s; marketsChanged := marketsChanged s;
     positions := positions s;
     selectedMarketId := selectedMarketId s; adminMarketId := adminMarketId s;
     side := side s; notional := notional s; imPct := imPct s;
     manualProb := p; settleOutcome := settleOutcome s |}.

Definition setAdminMarketId (i : option string) (s : State) : State :=
  {| markets := markets s; marketsChanged := marketsChanged s;
     positions := positions s;
     selectedMarketId := selectedMarketId s; adminMarketId := i;
     side := side s; notional := notional s; imPct := imPct s;
     manualProb := manualProb s; settleOutcome := settleOutcome s |}.

Definition rendered (s : State) : State :=
  {| markets := markets s; marketsChanged := false;
     positions := positions s;
     selectedMarketId := selectedMarketId s; adminMarketId := adminMarketId s;
     side := side s; notional := notional s; imPct := imPct s;
     manualProb := manualProb s; settleOutcome := settleOutcome s |}.

(** [markets.find(m => m.id === id) || null] *)
Definition findMarket (ms : list Market.t) (id : option string) : option Market.t :=
  match id with
  | None => None
  | Some i => List.find (fun m => bool_decide (Market.id m = i)) ms
  end.

Definition selectedMarket (s : State) : option Market.t :=
  findMarket (markets s) (selectedMarketId s).

Definition adminMarket (s : State) : option Market.t :=
  findMarket (markets s) (adminMarketId s).

(** ** Recompute effect *)

(** The callback given to [prev.map] in the effect. *)
Definition recompute (ms : list Market.t) (pos : Position.t) : Position.t :=
  match List.find (fun mm => bool_decide (Market.id mm = Position.marketId pos)) ms with
  | None => pos
  | Some m =>
    if negb (bool_decide (Position.status pos = OPEN)) then pos
    else
      let pnl := pdPnl (Position.notional pos) (Position.entryP pos)
                       (Market.currentP m) (Position.side pos) in
      let equity := computeEquity (Position.imAmount pos) pnl in
      let updated := Position.withMarks pos (Market.currentP m) pnl equity in
      if isLiquidation equity (Position.imAmount pos)
      then Position.withStatus updated LIQUIDATED
      else updated
  end.

(** [useEffect(..., [markets])]: runs after a render in which
    [markets] is a new array. *)
Definition recomputeEffect (s : State) : State :=
  if marketsChanged s then
    match markets s with
    | [] => rendered s
    | _ => rendered (setPositions (fun prev => recompute (markets s) <$> prev) s)
    end
  else s.

(** ** Handlers *)

(** [Math.max(a, b)] and [Math.min(a, b)] on two numbers: NaN when
    either is NaN, and [+0] counts as larger than [-0]. *)
Definition Math_max (a b : float) : float :=
  if is_nan a || is_nan b then nan
  else if a <? b then b
  else if b <? a then a
  else if get_sign a then b else a.

Definition Math_min (a b : float) : float :=
  if is_nan a || is_nan b then nan
  else if a <? b then a
  else if b <? a then b
  else if get_sign a then a else b.

(** [uuid] is the value of [crypto.randomUUID()].  [currentP] of a
    market is always a number, so [selectedMarket.currentP ?? 0] is
    [selectedMarket.currentP]. *)
Definition handleOpenPosition (uuid : string) (s : State) : State :=
  match selectedMarket s with
  | None => s
  | Some sm =>
    if notional s <=? 0 then s
    else
      let imAmount := (notional s * imPct s) / 100 in
      let entryP := Market.currentP sm in
      let newPos :=
        {| Position.id := uuid;
           Position.marketId := Market.id sm;
           Position.marketName := Market.question sm;
           Position.side := side s;
           Position.notional := notional s;
           Position.imPct := imPct s;
           Position.imAmount := imAmount;
           Position.entryP := entryP;
           Position.currentP := entryP;
           Position.pnl := 0;
           Position.equity := imAmount;
           Position.status := OPEN |} in
      setPositions (fun prev => prev ++ [newPos]) s
  end.

Definition handleManualProbApply (s : State) : State :=
  match adminMarket s with
  | None => s
  | Some am =>
    let p := Math_min 1 (Math_max 0 (manualProb s)) in
    setMarkets (fun prev =>
      (fun m => if bool_decide (Market.id m = Market.id am)
                then withCurrentP m p else m) <$> prev) s
  end.

Section Provider.

Variable JSON_parse : string -> option json.
Variable Number : json -> float.

(** [polymarketToBube(pm)], as [App.mappedOf]. *)
Definition mappedOf (pm : App.Member) : Market.t :=
  match pm with
  | App.OwnEntry m => polymarketToBube JSON_parse Number m
  | App.Inherited =>
    {| Market.id := "poly-undefined";
       Market.source := "polymarket";
       Market.polyId := "undefined";
       Market.slug := None;
       Market.question := None;
       Market.description := EmptyString;
       Market.currentP := 0;
       Market.status := OPEN;
       Market.outcome := None |}
  end.

(** The [.then] callback of [handleRefreshFromPolymarket]. *)
Definition refreshResolved (am : Market.t) (raw : list PdEngine.RawMarket.t)
    (s : State) : State :=
  match App.getMember (App.indexById raw) (Market.polyId am) with
  | None => s
  | Some pm =>
    let mapped := mappedOf pm in
    setManualProb (Market.currentP mapped)
      (setMarkets (fun prev =>
         (fun m => if bool_decide (Market.id m = Market.id am)
                   then withQuote m mapped else m) <$> prev) s)
  end.

(** The click and the settling of the promise, with no other event
    in between; [res] is what [fetch] produced. *)
Definition handleRefreshFromPolymarket (res : PdEngine.HttpResult) (s : State)
  : State :=
  match adminMarket s with
  | None => s
  | Some am =>
    if negb (bool_decide (Market.source am = "polymarket"%string)) then s
    else
      match PdEngine.fetchPolymarketMarkets JSON_parse 50 res with
      | Resolved raw => refreshResolved am raw s
      | Rejected _ => s
      end
  end.

End Provider.

(** ** Price updates *)

(** The spec's [applyPriceUpdate(marketId, newProbability)]: choose the
    admin market, type the probability ([typed] is the number the text
    converts to), click "Apply and recompute P&L"; the effect follows
    the render. *)
Definition applyPriceUpdate (marketId : string) (typed : float) (s : State)
  : State :=
  recomputeEffect
    (handleManualProbApply
       (setManualProb typed (setAdminMarketId (Some marketId) s))).



(** The marks [handleOpenPosition] gives a position on market [m]: it
    is entered and marked at the market's probability, with no pnl and
    its margin as equity. *)
Definition asOpened (m : Market.t) (pos : Position.t) : Prop :=
  Position.status pos = OPEN
  /\ Position.entryP pos = Market.currentP m
  /\ Position.currentP pos = Market.currentP m
  /\ Position.pnl pos = 0
  /\ Position.equity pos = Position.imAmount pos.


End App64.

(** ** The Streamlit application *)
Module Streamlit64.

Local Open Scope float_scope.

Definition LIQ_THRESHOLD_BETA : float := 0.05.

Module Market.
Record t := mk {
  id : string;
  name : string;
  description : string;
  current_p : float;
  status : Status;
  outcome : option float;
  source : option string;
  poly_id : option string;
  poly_slug : option string }.

Definition set_current_p (m : t) (p : float) : t :=
  {| id := id m; name := name m; description := description m;
     current_p := p; status := status m; outcome := outcome m;
     source := source m; poly_id := poly_id m; poly_slug := poly_slug m |}.
End Market.

Module Position.
Record t := mk {
  id : string;
  user_id : string;
  market_id : string;
  side : Side;
  notional : float;
  im_pct : float;
  im_amount : float;
  entry_p : float;
  current_p : float;
  pnl : float;
  equity : float;
  status : Status }.

Definition set_marks (pos : t) (pnl' equity' current_p' : float) : t :=
  {| id := id pos; user_id := user_id pos; market_id := market_id pos;
     side := side pos; notional := notional pos; im_pct := im_pct pos;
     im_amount := im_amount pos; entry_p := entry_p pos;
     current_p := current_p'; pnl := pnl'; equity := equity';
     status := status pos |}.

Definition set_status (pos : t) (status' : Status) : t :=
  {| id := id pos; user_id := user_id pos; market_id := market_id pos;
     side := side pos; notional := notional pos; im_pct := im_pct pos;
     im_amount := im_amount pos; entry_p := entry_p pos;
     current_p := current_p pos; pnl := pnl pos; equity := equity pos;
     status := status' |}.
End Position.

Definition pd_pnl (notional p_entry p_current : float) (side : Side) : float :=
  let s := match side with LONG => 1 | _ => -1 end in
  let delta_p := p_current - p_entry in
  notional * delta_p * s.

Definition compute_equity (im_amount pnl : float) : float := im_amount + pnl.

Definition is_liquidation (equity im_amount : float) : bool :=
  equity <=? LIQ_THRESHOLD_BETA * im_amount.

(** The two ledgers of [st.session_state]. *)
Record State := mkState {
  markets : gmap string Market.t;
  positions : list Position.t }.

(** The body of the [for pos in positions] loop of
    [update_positions_for_market]. *)
Definition update_position (market_id : string) (current_p : float)
    (pos : Position.t) : Position.t :=
  if negb (bool_decide (Position.market_id pos = market_id)) then pos
  else if negb (bool_decide (Position.status pos = OPEN)) then pos
  else
    let pnl := pd_pnl (Position.notional pos) (Position.entry_p pos)
                      current_p (Position.side pos) in
    let equity := compute_equity (Position.im_amount pos) pnl in
    let pos' := Position.set_marks pos pnl equity current_p in
    if is_liquidation equity (Position.im_amount pos)
    then Position.set_status pos' LIQUIDATED
    else pos'.

(** [None] is the [KeyError] of [markets[market_id]], raised before
    anything is written. *)
Definition update_positions_for_market (market_id : string) (st : State)
  : option State :=
  m ← markets st !! market_id;
  let current_p := Market.current_p m in
  Some {| markets := markets st;
          positions := update_position market_id current_p <$> positions st |}.

(** [if st.button("Apply manual probability")]; [new_p] is the value
    of the slider. *)
Definition apply_manual_probability (adm_mid : string) (new_p : float) (st : State)
  : option State :=
  m ← markets st !! adm_mid;
  update_positions_for_market adm_mid
    {| markets := <[adm_mid := Market.set_current_p m new_p]> (markets st);
       positions := positions st |}.


End Streamlit64.

(** ** Sample data in double precision *)
Module Samples64.

Local Open Scope float_scope.

(** [Number] on the values used below: the two prices of
    [Samples.pricesText], and NaN for any other text. *)
Definition Number (v : json) : float :=
  match v with
  | JStr text =>
    if bool_decide (text = "0.62"%string) then 0.62
    else if bool_decide (text = "0.38"%string) then 0.38
    else nan
  | _ => nan
  end.

(** The first candidate of [Samples] with the words of its outcomes
    where the prices should be. *)
Definition wordPrices : PdEngine.RawMarket.t :=
  {| PdEngine.RawMarket.id := "1";
     PdEngine.RawMarket.slug := Some "btc-100k"%string;
     PdEngine.RawMarket.question := "BTC hits $100,000 by 31 Dec 2026";
     PdEngine.RawMarket.description := None;
     PdEngine.RawMarket.active := true;
     PdEngine.RawMarket.closed := false;
     PdEngine.RawMarket.outcomes := Some Samples.yesNoText;
     PdEngine.RawMarket.outcomePrices := Some Samples.yesNoText |}.

Definition market (id polyId question : string) (p : float) : PdEngine64.Market.t :=
  {| PdEngine64.Market.id := id;
     PdEngine64.Market.source := "polymarket";
     PdEngine64.Market.polyId := polyId;
     PdEngine64.Market.slug := None;
     PdEngine64.Market.question := Some question;
     PdEngine64.Market.description := EmptyString;
     PdEngine64.Market.currentP := p;
     PdEngine64.Market.status := OPEN;
     PdEngine64.Market.outcome := None |}.

Definition btc (p : float) : PdEngine64.Market.t :=
  market "poly-1" "1" "BTC hits $100,000 by 31 Dec 2026" p.

Definition election (p : float) : PdEngine64.Market.t :=
  market "poly-2" "2" "Trump wins US Election 2028" p.

(** A position of the given side and size on the first market, as
    [handleOpenPosition] builds it at the entry probability. *)
Definition onBtc (side : Side) (notional imPct entryP : float) : App64.Position.t :=
  {| App64.Position.id := "pos-1";
     App64.Position.marketId := "poly-1";
     App64.Position.marketName := Some "BTC hits $100,000 by 31 Dec 2026"%string;
     App64.Position.side := side;
     App64.Position.notional := notional;
     App64.Position.imPct := imPct;
     App64.Position.imAmount := (notional * imPct) / 100;
     App64.Position.entryP := entryP;
     App64.Position.currentP := entryP;
     App64.Position.pnl := 0;
     App64.Position.equity := (notional * imPct) / 100;
     App64.Position.status := OPEN |}.

(** The component with the two markets loaded. *)
Definition app (ms : list PdEngine64.Market.t) (ps : list App64.Position.t)
    (selected admin : string) (imPct manualProb : float) : App64.State :=
  {| App64.markets := ms;
     App64.marketsChanged := false;
     App64.positions := ps;
     App64.selectedMarketId := Some selected;
     App64.adminMarketId := Some admin;
     App64.side := LONG;
     App64.notional := 1000000;
     App64.imPct := imPct;
     App64.manualProb := manualProb;
     App64.settleOutcome := 1 |}.

Definition pyMarket (id name : string) (p : float) : Streamlit64.Market.t :=
  {| Streamlit64.Market.id := id;
     Streamlit64.Market.name := name;
     Streamlit64.Market.description := EmptyString;
     Streamlit64.Market.current_p := p;
     Streamlit64.Market.status := OPEN;
     Streamlit64.Market.outcome := None;
     Streamlit64.Market.source := Some "polymarket"%string;
     Streamlit64.Market.poly_id := Some id;
     Streamlit64.Market.poly_slug := None |}.

(** A position of the given side and size on market ["1"]. *)
Definition pyOnBtc (side : Side) (notional im_pct entry_p : float) (status : Status)
  : Streamlit64.Position.t :=
  {| Streamlit64.Position.id := "pos-1";
     Streamlit64.Position.user_id := "demo_trader";
     Streamlit64.Position.market_id := "1";
     Streamlit64.Position.side := side;
     Streamlit64.Position.notional := notional;
     Streamlit64.Position.im_pct := im_pct;
     Streamlit64.Position.im_amount := notional * im_pct;
     Streamlit64.Position.entry_p := entry_p;
     Streamlit64.Position.current_p := entry_p;
     Streamlit64.Position.pnl := 0;
     Streamlit64.Position.equity := notional * im_pct;
     Streamlit64.Position.status := status |}.

Definition session (ps : list Streamlit64.Position.t) : Streamlit64.State :=
  {| Streamlit64.markets :=
       <["1"%string := pyMarket "1" "BTC hits $100,000 by 31 Dec 2026" 0.5]>
         (<["2"%string := pyMarket "2" "Trump wins US Election 2028" 0.41]> ∅);
     Streamlit64.positions := ps |}.

End Samples64.

(** * Properties *)

(** ** Pricing *)

(** C1. The pricing function of either front end returns
    [notional * (currentP - entryP) * sign side], with [sign LONG = 1]
    and [sign SHORT = -1], and the equity function returns
    [marginAmount + pnl].  Both are total functions of their arguments
    alone; no restriction on [notional] or on the probabilities is
    needed. *)
Theorem pricing_identity (notional entryP currentP marginAmount pnl : Q) (side : Side) :
  sign LONG = 1 /\ sign SHORT = -1
  /\ PdEngine.pdPnl notional entryP currentP side
     = notional * (currentP - entryP) * sign side
  /\ PdEngine.computeEquity marginAmount pnl = marginAmount + pnl
  /\ Streamlit.pd_pnl notional entryP currentP side
     = notional * (currentP - entryP) * sign side
  /\ Streamlit.compute_equity marginAmount pnl = marginAmount + pnl.
Proof.
  unfold PdEngine.pdPnl, PdEngine.computeEquity,
    Streamlit.pd_pnl, Streamlit.compute_equity.
  by destruct side.
Qed.

(** A LONG gains what the matching SHORT loses. *)
Lemma pdPnl_zero_sum (notional entryP currentP : Q) :
  PdEngine.pdPnl notional entryP currentP LONG
  + PdEngine.pdPnl notional entryP currentP SHORT == 0.
Proof. unfold PdEngine.pdPnl. ring. Qed.

Lemma pdPnl_flat (notional p : Q) (side : Side) :
  PdEngine.pdPnl notional p p side == 0.
Proof. unfold PdEngine.pdPnl. ring. Qed.

(** The first worked example: a LONG of 1,000,000 at 10% margin entered
    at 0.50 and marked at 0.40. *)
Example worked_example_liquidation :
  let pnl := PdEngine.pdPnl 1000000 (5 # 10) (4 # 10) LONG in
  let equity := PdEngine.computeEquity 100000 pnl in
  pnl == -100000 /\ equity == 0 /\ PdEngine.isLiquidation equity 100000 = true.
Proof. by vm_compute. Qed.

(** The second worked example: a SHORT of 500,000 at 10% margin entered
    at 0.41 and settled at outcome 1. *)
Example worked_example_settlement :
  let pnl := PdEngine.pdPnl 500000 (41 # 100) 1 SHORT in
  pnl == -295000 /\ PdEngine.computeEquity 50000 pnl == -245000.
Proof. by vm_compute. Qed.

(** ** Liquidation *)

(** What the recompute effect makes of an OPEN position whose market is
    in the list. *)
Lemma js_recompute_open (ms : list PdEngine.Market.t) (m : PdEngine.Market.t)
    (pos : App.Position.t) :
  List.find (fun mm => bool_decide (PdEngine.Market.id mm = App.Position.marketId pos)) ms
    = Some m ->
  App.Position.status pos = OPEN ->
  let pnl := PdEngine.pdPnl (App.Position.notional pos) (App.Position.entryP pos)
               (PdEngine.Market.currentP m) (App.Position.side pos) in
  let equity := PdEngine.computeEquity (App.Position.imAmount pos) pnl in
  App.recompute ms pos =
  App.Position.withStatus
    (App.Position.withMarks pos (PdEngine.Market.currentP m) pnl equity)
    (if PdEngine.isLiquidation equity (App.Position.imAmount pos)
     then LIQUIDATED else OPEN).
Proof.
  intros Hfind Hopen pnl equity. unfold App.recompute.
  rewrite Hfind, Hopen. simpl. fold pnl. fold equity.
  destruct (PdEngine.isLiquidation equity (App.Position.imAmount pos)); [done|].
  unfold App.Position.withStatus, App.Position.withMarks. simpl. by rewrite Hopen.
Qed.

(** The same for the loop body of [update_positions_for_market]. *)
Lemma py_update_position_open (market_id : string) (current_p : Q)
    (pos : Streamlit.Position.t) :
  Streamlit.Position.market_id pos = market_id ->
  Streamlit.Position.status pos = OPEN ->
  let pnl := Streamlit.pd_pnl (Streamlit.Position.notional pos)
               (Streamlit.Position.entry_p pos) current_p (Streamlit.Position.side pos) in
  let equity := Streamlit.compute_equity (Streamlit.Position.im_amount pos) pnl in
  Streamlit.update_position market_id current_p pos =
  Streamlit.Position.set_status
    (Streamlit.Position.set_marks pos pnl equity current_p)
    (if Streamlit.is_liquidation equity (Streamlit.Position.im_amount pos)
     then LIQUIDATED else OPEN).
Proof.
  intros Hmid Hopen pnl equity. unfold Streamlit.update_position.
  rewrite bool_decide_eq_true_2 by done. rewrite Hopen. simpl. fold pnl. fold equity.
  destruct (Streamlit.is_liquidation equity (Streamlit.Position.im_amount pos)); [done|].
  unfold Streamlit.Position.set_status, Streamlit.Position.set_marks. simpl.
  by rewrite Hopen.
Qed.


(** ** Positions that are not OPEN *)

Lemma js_recompute_not_open (ms : list PdEngine.Market.t) (pos : App.Position.t) :
  App.Position.status pos <> OPEN -> App.recompute ms pos = pos.
Proof.
  intros Hst. unfold App.recompute.
  destruct (List.find _ ms); [|done].
  by rewrite bool_decide_eq_false_2.
Qed.

Lemma js_recomputeEffect_positions (s : App.State) :
  App.positions (App.recomputeEffect s) = App.positions s
  \/ App.positions (App.recomputeEffect s)
     = App.recompute (App.markets s) <$> App.positions s.
Proof.
  unfold App.recomputeEffect.
  destruct (App.marketsChanged s); [|by left].
  destruct (App.markets s); [by left|by right].
Qed.

Lemma js_recomputeEffect_markets (s : App.State) :
  App.markets (App.recomputeEffect s) = App.markets s.
Proof.
  unfold App.recomputeEffect.
  destruct (App.marketsChanged s); [|done].
  by destruct (App.markets s) eqn:E.
Qed.

Lemma js_recomputeEffect_frozen (s : App.State) (i : nat) (pos : App.Position.t) :
  App.positions s !! i = Some pos ->
  App.Position.status pos <> OPEN ->
  App.positions (App.recomputeEffect s) !! i = Some pos.
Proof.
  intros Hi Hst.
  destruct (js_recomputeEffect_positions s) as [-> | ->]; [done|].
  by rewrite list_lookup_fmap, Hi; simpl; rewrite js_recompute_not_open.
Qed.

Lemma js_handleManualProbApply_positions (s : App.State) :
  App.positions (App.handleManualProbApply s) = App.positions s.
Proof. unfold App.handleManualProbApply. by destruct (App.adminMarket s). Qed.

Lemma js_handleOpenPosition_lookup (uuid : string) (s : App.State) (i : nat)
    (pos : App.Position.t) :
  App.positions s !! i = Some pos ->
  App.positions (App.handleOpenPosition uuid s) !! i = Some pos.
Proof.
  intros Hi. unfold App.handleOpenPosition.
  destruct (App.selectedMarket s); [|done].
  destruct (Qle_bool _ _); [done|]. simpl.
  by apply lookup_app_l_Some.
Qed.

Lemma js_finalize_settled (marketId : string) (outcome : Q) (pos : App.Position.t) :
  App.Position.status pos = SETTLED -> App.finalize marketId outcome pos = pos.
Proof.
  intros Hst. unfold App.finalize.
  destruct (negb _); [done|]. by rewrite bool_decide_eq_true_2.
Qed.

Lemma js_handleSettle_settled (s : App.State) (i : nat) (pos : App.Position.t) :
  App.positions s !! i = Some pos ->
  App.Position.status pos = SETTLED ->
  App.positions (App.handleSettle s) !! i = Some pos.
Proof.
  intros Hi Hst. unfold App.handleSettle.
  destruct (App.adminMarket s); [|done]. simpl.
  by rewrite list_lookup_fmap, Hi; simpl; rewrite js_finalize_settled.
Qed.

Section AppEvents.

Variable JSON_parse : string -> option json.
Variable Number : json -> Q.

Lemma js_handleRefresh_positions (res : PdEngine.HttpResult) (s : App.State) :
  App.positions (App.handleRefreshFromPolymarket JSON_parse Number res s)
  = App.positions s.
Proof.
  unfold App.handleRefreshFromPolymarket, App.refreshResolved.
  destruct (App.adminMarket s); [|done].
  destruct (negb _); [done|].
  destruct (PdEngine.fetchPolymarketMarkets _ _ _); [|done].
  by destruct (App.getMember _ _).
Qed.

(** Every event but a settlement keeps a position that is not OPEN as
    it is. *)
Lemma js_step_frozen (s : App.State) (e : App.Event) (i : nat)
    (pos : App.Position.t) :
  App.positions s !! i = Some pos ->
  App.Position.status pos <> OPEN ->
  e <> App.Settle ->
  App.positions (App.step JSON_parse Number s e) !! i = Some pos.
Proof.
  intros Hi Hst He. unfold App.step.
  apply js_recomputeEffect_frozen; [|done].
  destruct e; simpl; try done.
  - by apply js_handleOpenPosition_lookup.
  - by rewrite js_handleManualProbApply_positions.
  - by rewrite js_handleRefresh_positions.
Qed.

(** A SETTLED position survives every event. *)
Lemma js_step_settled (s : App.State) (e : App.Event) (i : nat)
    (pos : App.Position.t) :
  App.positions s !! i = Some pos ->
  App.Position.status pos = SETTLED ->
  App.positions (App.step JSON_parse Number s e) !! i = Some pos.
Proof.
  intros Hi Hst.
  destruct e; try (apply js_step_frozen; [done|by rewrite Hst|done]).
  unfold App.step. simpl.
  apply js_recomputeEffect_frozen; [|by rewrite Hst].
  by apply js_handleSettle_settled.
Qed.

End AppEvents.

(** ** Settlement *)

Lemma js_finalize_cases (marketId : string) (outcome : Q) (pos : App.Position.t) :
  App.Position.marketId pos = marketId ->
  App.finalize marketId outcome pos =
  match App.Position.status pos with
  | SETTLED => pos
  | LIQUIDATED => App.Position.withStatus pos SETTLED
  | OPEN =>
    let finalPnl := PdEngine.pdPnl (App.Position.notional pos) (App.Position.entryP pos)
                      outcome (App.Position.side pos) in
    App.Position.withStatus
      (App.Position.withMarks pos outcome finalPnl
         (PdEngine.computeEquity (App.Position.imAmount pos) finalPnl))
      SETTLED
  end.
Proof.
  intros Hmid. unfold App.finalize.
  rewrite (bool_decide_eq_true_2 _ Hmid). simpl.
  by destruct (App.Position.status pos).
Qed.

Lemma js_finalize_other (marketId : string) (outcome : Q) (pos : App.Position.t) :
  App.Position.marketId pos <> marketId -> App.finalize marketId outcome pos = pos.
Proof.
  intros Hmid. unfold App.finalize. by rewrite (bool_decide_eq_false_2 _ Hmid).
Qed.

Lemma js_finalize_status (marketId : string) (outcome : Q) (pos : App.Position.t) :
  App.Position.marketId pos = marketId ->
  App.Position.status (App.finalize marketId outcome pos) = SETTLED.
Proof.
  intros Hmid. rewrite (js_finalize_cases _ _ _ Hmid).
  by destruct (App.Position.status pos) eqn:Hst.
Qed.

Lemma js_handleSettle_positions (s : App.State) (am : PdEngine.Market.t) :
  App.adminMarket s = Some am ->
  App.positions (App.handleSettle s)
  = App.finalize (PdEngine.Market.id am) (App.coerceOutcome (App.settleOutcome s))
      <$> App.positions s.
Proof. intros Ham. unfold App.handleSettle. by rewrite Ham. Qed.

Lemma py_settle_position_cases (market_id : string) (outcome : Q)
    (pos : Streamlit.Position.t) :
  Streamlit.Position.market_id pos = market_id ->
  Streamlit.settle_position market_id outcome pos =
  match Streamlit.Position.status pos with
  | SETTLED => pos
  | LIQUIDATED => Streamlit.Position.set_status pos SETTLED
  | OPEN =>
    let final_pnl := Streamlit.pd_pnl (Streamlit.Position.notional pos)
                       (Streamlit.Position.entry_p pos) outcome
                       (Streamlit.Position.side pos) in
    Streamlit.Position.set_status
      (Streamlit.Position.set_marks pos final_pnl
         (Streamlit.compute_equity (Streamlit.Position.im_amount pos) final_pnl)
         outcome)
      SETTLED
  end.
Proof.
  intros Hmid. unfold Streamlit.settle_position.
  rewrite (bool_decide_eq_true_2 _ Hmid). simpl.
  by destruct (Streamlit.Position.status pos).
Qed.

Lemma py_settle_position_settled (market_id : string) (outcome : Q)
    (pos : Streamlit.Position.t) :
  Streamlit.Position.status pos = SETTLED ->
  Streamlit.settle_position market_id outcome pos = pos.
Proof.
  intros Hst. unfold Streamlit.settle_position.
  destruct (negb _); [done|]. by rewrite bool_decide_eq_true_2.
Qed.

(** [settle_market] returns whenever the market exists, and then maps
    the loop body over the Position Ledger. *)
Lemma py_settle_market_returns (market_id : string) (outcome : Q)
    (st : Streamlit.State) (m : Streamlit.Market.t) :
  Streamlit.markets st !! market_id = Some m ->
  Streamlit.settle_market market_id outcome st =
  Some {| Streamlit.markets :=
            <[market_id := Streamlit.Market.set_settled m outcome]> (Streamlit.markets st);
          Streamlit.positions :=
            Streamlit.settle_position market_id outcome <$> Streamlit.positions st |}.
Proof. intros Hm. unfold Streamlit.settle_market. by rewrite Hm. Qed.

(** C4. After a settlement every position on the settled market is
    SETTLED.  One that was LIQUIDATED keeps its pnl, equity and current
    probability; one that was OPEN gets the pnl priced at the outcome
    in place of the current probability, and the equity
    [marginAmount + pnl].  The status written is SETTLED whatever that
    equity is: the liquidation predicate plays no part.  In [App] the
    outcome is the coerced [settleOutcome] and the recompute effect that
    follows the render is included. *)
Theorem settlement_finality
    (JSON_parse : string -> option json) (Number : json -> Q)
    (s : App.State) (am : PdEngine.Market.t) (i : nat) (pos : App.Position.t)
    (st : Streamlit.State) (market_id : string) (outcome : Q)
    (pm : Streamlit.Market.t) (j : nat) (ppos : Streamlit.Position.t) :
  App.adminMarket s = Some am ->
  App.positions s !! i = Some pos ->
  App.Position.marketId pos = PdEngine.Market.id am ->
  Streamlit.markets st !! market_id = Some pm ->
  Streamlit.positions st !! j = Some ppos ->
  Streamlit.Position.market_id ppos = market_id ->
  (exists pos',
      App.positions (App.step JSON_parse Number s App.Settle) !! i = Some pos'
      /\ App.Position.status pos' = SETTLED
      /\ (App.Position.status pos = LIQUIDATED ->
          App.Position.pnl pos' = App.Position.pnl pos
          /\ App.Position.equity pos' = App.Position.equity pos
          /\ App.Position.currentP pos' = App.Position.currentP pos)
      /\ (App.Position.status pos = OPEN ->
          let final := App.coerceOutcome (App.settleOutcome s) in
          App.Position.pnl pos'
          = PdEngine.pdPnl (App.Position.notional pos) (App.Position.entryP pos)
              final (App.Position.side pos)
          /\ App.Position.equity pos'
             = App.Position.imAmount pos + App.Position.pnl pos'
          /\ App.Position.currentP pos' = final))
  /\ (exists st' ppos',
      Streamlit.settle_market market_id outcome st = Some st'
      /\ Streamlit.positions st' !! j = Some ppos'
      /\ Streamlit.Position.status ppos' = SETTLED
      /\ (Streamlit.Position.status ppos = LIQUIDATED ->
          Streamlit.Position.pnl ppos' = Streamlit.Position.pnl ppos
          /\ Streamlit.Position.equity ppos' = Streamlit.Position.equity ppos
          /\ Streamlit.Position.current_p ppos' = Streamlit.Position.current_p ppos)
      /\ (Streamlit.Position.status ppos = OPEN ->
          Streamlit.Position.pnl ppos'
          = Streamlit.pd_pnl (Streamlit.Position.notional ppos)
              (Streamlit.Position.entry_p ppos) outcome (Streamlit.Position.side ppos)
          /\ Streamlit.Position.equity ppos'
             = Streamlit.Position.im_amount ppos + Streamlit.Position.pnl ppos'
          /\ Streamlit.Position.current_p ppos' = outcome)).
Proof.
  intros Ham Hi Hmid Hpm Hj Hpmid. split.
  - exists (App.finalize (PdEngine.Market.id am)
              (App.coerceOutcome (App.settleOutcome s)) pos).
    split.
    + unfold App.step. simpl. apply js_recomputeEffect_frozen.
      * by rewrite (js_handleSettle_positions s am Ham), list_lookup_fmap, Hi.
      * by rewrite js_finalize_status.
    + split; [by apply js_finalize_status|].
      rewrite (js_finalize_cases _ _ _ Hmid).
      split; intros ->; done.
  - rewrite (py_settle_market_returns _ outcome _ _ Hpm).
    eexists _, (Streamlit.settle_position market_id outcome ppos).
    split; [done|]. simpl. split; [by rewrite list_lookup_fmap, Hj|].
    rewrite (py_settle_position_cases _ _ _ Hpmid).
    split; [by destruct (Streamlit.Position.status ppos) eqn:Hst|].
    split; intros ->; done.
Qed.

(** C7. A position that is already SETTLED is left exactly as it is by
    a further settlement, of its own market or of any other. *)
Theorem resettlement_idempotent
    (JSON_parse : string -> option json) (Number : json -> Q)
    (s : App.State) (i : nat) (pos : App.Position.t)
    (st : Streamlit.State) (market_id : string) (outcome : Q)
    (pm : Streamlit.Market.t) (j : nat) (ppos : Streamlit.Position.t) :
  App.positions s !! i = Some pos ->
  App.Position.status pos = SETTLED ->
  Streamlit.markets st !! market_id = Some pm ->
  Streamlit.positions st !! j = Some ppos ->
  Streamlit.Position.status ppos = SETTLED ->
  App.positions (App.handleSettle s) !! i = Some pos
  /\ App.positions (App.step JSON_parse Number s App.Settle) !! i = Some pos
  /\ exists st',
       Streamlit.settle_market market_id outcome st = Some st'
       /\ Streamlit.positions st' !! j = Some ppos.
Proof.
  intros Hi Hst Hpm Hj Hpst.
  split; [by apply js_handleSettle_settled|].
  split; [by apply js_step_settled|].
  rewrite (py_settle_market_returns _ outcome _ _ Hpm). eexists. split; [done|].
  simpl. by rewrite list_lookup_fmap, Hj; simpl; rewrite py_settle_position_settled.
Qed.

(** ** Evaluation on the worked examples *)

(** C4 on the spec's second worked example: the final equity satisfies
    the liquidation predicate and the position is SETTLED all the same. *)
Lemma settlement_finality_witness :
  let s := Samples.app [Samples.btc 0.5; Samples.election 0.41]
             [Samples.shortElection OPEN] "poly-2" "poly-2" 10 0.5 1 in
  let pos := Samples.shortElection OPEN in
  let st := Samples.session Samples.pyElection [Samples.pyShortElection OPEN] in
  let ppos := Samples.pyShortElection OPEN in
  App.adminMarket s = Some (Samples.election 0.41)
  /\ App.positions s !! 0%nat = Some pos
  /\ App.Position.marketId pos = PdEngine.Market.id (Samples.election 0.41)
  /\ Streamlit.markets st !! "2"%string = Some Samples.pyElection
  /\ Streamlit.positions st !! 0%nat = Some ppos
  /\ Streamlit.Position.market_id ppos = "2"%string
  /\ (exists pos',
         App.positions (App.step Samples.JSON_parse Samples.Number s App.Settle) !! 0%nat
         = Some pos'
         /\ App.Position.status pos' = SETTLED
         /\ App.Position.pnl pos' == -295000
         /\ App.Position.equity pos' == -245000
         /\ PdEngine.isLiquidation (App.Position.equity pos') (App.Position.imAmount pos)
            = true)
  /\ (exists st' ppos',
         Streamlit.settle_market "2" 1 st = Some st'
         /\ Streamlit.positions st' !! 0%nat = Some ppos'
         /\ Streamlit.Position.status ppos' = SETTLED
         /\ Streamlit.Position.pnl ppos' == -295000
         /\ Streamlit.Position.equity ppos' == -245000).
Proof.
  intros s pos st ppos.
  do 3 (split; [reflexivity|]). split; [by vm_compute|]. do 2 (split; [reflexivity|]).
  destruct (settlement_finality Samples.JSON_parse Samples.Number s
              (Samples.election 0.41) 0 pos st "2" 1 Samples.pyElection 0 ppos
              eq_refl eq_refl eq_refl ltac:(by vm_compute) eq_refl eq_refl)
    as [(pos' & Hi & Hst & _ & Hopen) (st' & ppos' & Hsettle & Hj & Hpst & _ & Hpopen)].
  destruct (Hopen eq_refl) as (Hpnl & Heq & _).
  destruct (Hpopen eq_refl) as (Hppnl & Hpeq & _).
  split.
  - exists pos'. do 2 (split; [done|]).
    rewrite Heq, Hpnl. by vm_compute.
  - exists st', ppos'. do 3 (split; [done|]).
    rewrite Hpeq, Hppnl. by vm_compute.
Defined.

(** C7 on a settled market that is settled again, with the other
    outcome. *)
Lemma resettlement_idempotent_witness :
  let s := Samples.app [Samples.btc 0.5; Samples.electionSettled]
             [Samples.shortElection SETTLED] "poly-2" "poly-2" 10 0.5 0 in
  let pos := Samples.shortElection SETTLED in
  let st := Samples.session Samples.pyElectionSettled [Samples.pyShortElection SETTLED] in
  let ppos := Samples.pyShortElection SETTLED in
  App.positions s !! 0%nat = Some pos
  /\ App.Position.status pos = SETTLED
  /\ Streamlit.markets st !! "2"%string = Some Samples.pyElectionSettled
  /\ Streamlit.positions st !! 0%nat = Some ppos
  /\ Streamlit.Position.status ppos = SETTLED
  /\ App.positions (App.step Samples.JSON_parse Samples.Number s App.Settle) !! 0%nat
     = Some pos
  /\ exists st',
       Streamlit.settle_market "2" 0 st = Some st'
       /\ Streamlit.positions st' !! 0%nat = Some ppos.
Proof.
  intros s pos st ppos.
  do 2 (split; [reflexivity|]). split; [by vm_compute|]. do 2 (split; [reflexivity|]).
  destruct (resettlement_idempotent Samples.JSON_parse Samples.Number s 0 pos
              st "2" 0 Samples.pyElectionSettled 0 ppos
              eq_refl eq_refl ltac:(by vm_compute) eq_refl eq_refl)
    as (_ & Hstep & Hpy).
  done.
Defined.

(** ** The Streamlit propagator *)

Lemma py_update_position_skip (market_id : string) (current_p : Q)
    (pos : Streamlit.Position.t) :
  Streamlit.Position.status pos <> OPEN
  \/ Streamlit.Position.market_id pos <> market_id ->
  Streamlit.update_position market_id current_p pos = pos.
Proof.
  intros H. unfold Streamlit.update_position.
  destruct (bool_decide_reflect (Streamlit.Position.market_id pos = market_id)); [|done].
  simpl. destruct H as [H|H]; [|done]. by rewrite bool_decide_eq_false_2.
Qed.

(** [update_positions_for_market] returns whenever the market exists. *)
Lemma py_update_positions_returns (market_id : string) (st : Streamlit.State)
    (m : Streamlit.Market.t) :
  Streamlit.markets st !! market_id = Some m ->
  Streamlit.update_positions_for_market market_id st =
  Some {| Streamlit.markets := Streamlit.markets st;
          Streamlit.positions :=
            Streamlit.update_position market_id (Streamlit.Market.current_p m)
              <$> Streamlit.positions st |}.
Proof. intros Hm. unfold Streamlit.update_positions_for_market. by rewrite Hm. Qed.

(** ** What the handlers do to the Probability Ledger *)

Lemma marketUpdate_id (m m' : PdEngine.Market.t) :
  Ledger.marketUpdate m m' -> PdEngine.Market.id m' = PdEngine.Market.id m.
Proof. by intros []. Qed.

Lemma marketUpdate_settled (m m' : PdEngine.Market.t) :
  Ledger.marketUpdate m m' ->
  PdEngine.Market.status m = SETTLED -> PdEngine.Market.status m' = SETTLED.
Proof. by intros []. Qed.

Lemma coerceOutcome_binary (settleOutcome : Q) :
  (settleOutcome == 1 -> App.coerceOutcome settleOutcome = 1)
  /\ (~ settleOutcome == 1 -> App.coerceOutcome settleOutcome = 0)
  /\ (App.coerceOutcome settleOutcome = 0 \/ App.coerceOutcome settleOutcome = 1).
Proof.
  unfold App.coerceOutcome.
  destruct (Qeq_bool settleOutcome 1) eqn:H.
  - apply Qeq_bool_iff in H. repeat split; [done|by right].
  - apply Qeq_bool_neq in H. repeat split; [done|by left].
Qed.

Lemma marketUpdate_outcome (m m' : PdEngine.Market.t) :
  Ledger.marketUpdate m m' -> Ledger.outcomeIsBinary m -> Ledger.outcomeIsBinary m'.
Proof.
  intros [] Hm; try done.
  intros _. simpl.
  destruct (coerceOutcome_binary settleOutcome) as (_ & _ & [-> | ->]); [by left|by right].
Qed.

Lemma js_handleSettle_markets (s : App.State) (am : PdEngine.Market.t) :
  App.adminMarket s = Some am ->
  App.markets (App.handleSettle s)
  = (fun m => if bool_decide (PdEngine.Market.id m = PdEngine.Market.id am)
              then App.withSettlement m (App.coerceOutcome (App.settleOutcome s))
              else m) <$> App.markets s.
Proof. intros Ham. unfold App.handleSettle. by rewrite Ham. Qed.

Section AppMarkets.

Variable JSON_parse : string -> option json.
Variable Number : json -> Q.

(** Every handler rewrites the markets one by one, in place. *)
Lemma js_handle_markets (e : App.Event) (s : App.State) :
  exists g,
    App.markets (App.handle JSON_parse Number e s) = g <$> App.markets s
    /\ forall m, Ledger.marketUpdate m (g m).
Proof.
  assert (Hkeep : forall s', App.markets s' = App.markets s ->
            exists g, App.markets s' = g <$> App.markets s
                      /\ forall m, Ledger.marketUpdate m (g m)).
  { intros s' ->. exists (fun m => m). split; [by rewrite list_fmap_id|constructor]. }
  destruct e; simpl; try by apply Hkeep.
  - apply Hkeep. unfold App.handleOpenPosition.
    destruct (App.selectedMarket s); [|done]. by destruct (Qle_bool _ _).
  - unfold App.handleManualProbApply.
    destruct (App.adminMarket s); [|by apply Hkeep].
    eexists. split; [done|]. intros m. simpl.
    destruct (bool_decide _); constructor.
  - unfold App.handleSettle.
    destruct (App.adminMarket s); [|by apply Hkeep].
    eexists. split; [done|]. intros m. simpl.
    destruct (bool_decide _); constructor.
  - unfold App.handleRefreshFromPolymarket, App.refreshResolved.
    destruct (App.adminMarket s); [|by apply Hkeep].
    destruct (negb _); [by apply Hkeep|].
    destruct (PdEngine.fetchPolymarketMarkets _ _ _); [|by apply Hkeep].
    destruct (App.getMember _ _) as [pm|]; [|by apply Hkeep].
    eexists. split; [done|]. intros m. simpl.
    destruct (bool_decide _); constructor.
Qed.

Lemma js_step_markets (e : App.Event) (s : App.State) (j : nat)
    (m : PdEngine.Market.t) :
  App.markets s !! j = Some m ->
  exists m',
    App.markets (App.step JSON_parse Number s e) !! j = Some m'
    /\ Ledger.marketUpdate m m'.
Proof.
  intros Hj. unfold App.step. rewrite js_recomputeEffect_markets.
  destruct (js_handle_markets e s) as (g & -> & Hg).
  exists (g m). by rewrite list_lookup_fmap, Hj.
Qed.

(** The settled-market invariant survives every event. *)
Lemma js_step_outcomeIsBinary (e : App.Event) (s : App.State) :
  Forall Ledger.outcomeIsBinary (App.markets s) ->
  Forall Ledger.outcomeIsBinary (App.markets (App.step JSON_parse Number s e)).
Proof.
  intros Hall. unfold App.step. rewrite js_recomputeEffect_markets.
  destruct (js_handle_markets e s) as (g & -> & Hg).
  apply Forall_fmap. eapply Forall_impl; [exact Hall|].
  intros m Hm. simpl. by apply (marketUpdate_outcome m).
Qed.

End AppMarkets.

(** C5, amended.  Neither front end rejects a settlement.  Whatever the
    status and outcome of the market and whatever outcome is asked for,
    settling marks the market SETTLED and overwrites its outcome ([App]
    writes the coerced outcome, Streamlit the value it is given).  What
    is immutable is the status alone: no event of [App] takes a SETTLED
    market back to OPEN. *)
Theorem settlement_not_validated :
  (forall (s : App.State) (am : PdEngine.Market.t) (j : nat) (m : PdEngine.Market.t),
      App.adminMarket s = Some am ->
      App.markets s !! j = Some m ->
      PdEngine.Market.id m = PdEngine.Market.id am ->
      App.markets (App.handleSettle s) !! j
      = Some (App.withSettlement m (App.coerceOutcome (App.settleOutcome s))))
  /\ (forall (JSON_parse : string -> option json) (Number : json -> Q)
             (e : App.Event) (s : App.State) (j : nat) (m : PdEngine.Market.t),
      App.markets s !! j = Some m ->
      PdEngine.Market.status m = SETTLED ->
      exists m',
        App.markets (App.step JSON_parse Number s e) !! j = Some m'
        /\ PdEngine.Market.id m' = PdEngine.Market.id m
        /\ PdEngine.Market.status m' = SETTLED)
  /\ (forall (st : Streamlit.State) (market_id : string) (outcome : Q)
             (m : Streamlit.Market.t),
      Streamlit.markets st !! market_id = Some m ->
      exists st',
        Streamlit.settle_market market_id outcome st = Some st'
        /\ Streamlit.markets st' !! market_id
           = Some (Streamlit.Market.set_settled m outcome)
        /\ forall k, k <> market_id ->
             Streamlit.markets st' !! k = Streamlit.markets st !! k).
Proof.
  split; [|split].
  - intros s am j m Ham Hj Hid.
    rewrite (js_handleSettle_markets s am Ham), list_lookup_fmap, Hj. simpl.
    by rewrite bool_decide_eq_true_2.
  - intros JSON_parse Number e s j m Hj Hst.
    destruct (js_step_markets JSON_parse Number e s j m Hj) as (m' & Hj' & Hup).
    exists m'. split; [done|]. split.
    + by apply marketUpdate_id.
    + by apply (marketUpdate_settled m).
  - intros st market_id outcome m Hm.
    rewrite (py_settle_market_returns _ outcome _ _ Hm). eexists. split; [done|].
    simpl. split; [by rewrite lookup_insert_eq|].
    intros k Hk. by rewrite lookup_insert_ne.
Qed.

(** C5 as stated fails: a market settled with outcome 1 is settled
    again with outcome 0, and an outcome of 2 (in Streamlit, of 1/2) is
    accepted. *)
Lemma settlement_not_validated_counterexample :
  let s := Samples.app [Samples.btc 0.5; Samples.electionSettled] []
             "poly-2" "poly-2" 10 0.5 0 in
  let s2 := Samples.app [Samples.btc 0.5; Samples.election 0.41] []
              "poly-2" "poly-2" 10 0.5 2 in
  let st := Samples.session Samples.pyElectionSettled [] in
  let st2 := Samples.session Samples.pyElection [] in
  (App.adminMarket s = Some Samples.electionSettled
   /\ PdEngine.Market.status Samples.electionSettled = SETTLED
   /\ PdEngine.Market.outcome Samples.electionSettled = Some 1
   /\ App.markets (App.handleSettle s) !! 1%nat
      = Some (Samples.market "poly-2" "2" "Trump wins US Election 2028" 0.41
                SETTLED (Some 0)))
  /\ App.markets (App.handleSettle s2) !! 1%nat
     = Some (Samples.market "poly-2" "2" "Trump wins US Election 2028" 0.41
               SETTLED (Some 0))
  /\ (Streamlit.markets st !! "2"%string = Some Samples.pyElectionSettled
      /\ Streamlit.Market.outcome Samples.pyElectionSettled = Some 1
      /\ (Streamlit.markets <$> Streamlit.settle_market "2" 0 st) ≫= (.!! "2"%string)
         = Some (Samples.pyMarket "2" "Trump wins US Election 2028" 0.41
                   SETTLED (Some 0)))
  /\ (Streamlit.markets <$> Streamlit.settle_market "2" 0.5 st2) ≫= (.!! "2"%string)
     = Some (Samples.pyMarket "2" "Trump wins US Election 2028" 0.41
               SETTLED (Some 0.5)).
Proof. intros s s2 st st2. repeat split; by vm_compute. Qed.

(** C5, amended, on a market that is already SETTLED. *)
Lemma settlement_not_validated_witness :
  let s := Samples.app [Samples.btc 0.5; Samples.electionSettled] []
             "poly-2" "poly-2" 10 0.5 0 in
  let st := Samples.session Samples.pyElectionSettled [] in
  (App.adminMarket s = Some Samples.electionSettled
   /\ App.markets s !! 1%nat = Some Samples.electionSettled
   /\ App.markets (App.handleSettle s) !! 1%nat
      = Some (App.withSettlement Samples.electionSettled 0))
  /\ (PdEngine.Market.status Samples.electionSettled = SETTLED
      /\ exists m',
           App.markets (App.step Samples.JSON_parse Samples.Number s App.ManualProbApply)
             !! 1%nat = Some m'
           /\ PdEngine.Market.id m' = "poly-2"%string
           /\ PdEngine.Market.status m' = SETTLED)
  /\ (Streamlit.markets st !! "2"%string = Some Samples.pyElectionSettled
      /\ exists st',
           Streamlit.settle_market "2" 0 st = Some st'
           /\ Streamlit.markets st' !! "2"%string
              = Some (Streamlit.Market.set_settled Samples.pyElectionSettled 0)).
Proof.
  intros s st.
  destruct settlement_not_validated as (Hjs & Hstatus & Hpy).
  split; [|split].
  - split; [reflexivity|]. split; [reflexivity|].
    by apply (Hjs s Samples.electionSettled 1%nat Samples.electionSettled).
  - split; [reflexivity|].
    by apply (Hstatus Samples.JSON_parse Samples.Number App.ManualProbApply s 1%nat
                Samples.electionSettled).
  - assert (Hm : Streamlit.markets st !! "2"%string = Some Samples.pyElectionSettled)
      by by vm_compute.
    split; [exact Hm|].
    destruct (Hpy st "2"%string 0 Samples.pyElectionSettled Hm) as (st' & Hsettle & Hout & _).
    by exists st'.
Defined.

(** C10.  Whatever number [settleOutcome] holds, [handleSettle] turns
    it into 1 (when it equals 1) or 0 (otherwise) before using it: the
    market is written with that outcome, an OPEN position on it is
    priced at that outcome, and so every SETTLED market carries the
    outcome 0 or 1 after every event, a settlement included. *)
Theorem settled_outcome_binary :
  (forall settleOutcome : Q,
      (settleOutcome == 1 -> App.coerceOutcome settleOutcome = 1)
      /\ (~ settleOutcome == 1 -> App.coerceOutcome settleOutcome = 0))
  /\ (forall (s : App.State) (am : PdEngine.Market.t) (j : nat) (m : PdEngine.Market.t),
      App.adminMarket s = Some am ->
      App.markets s !! j = Some m ->
      PdEngine.Market.id m = PdEngine.Market.id am ->
      exists m',
        App.markets (App.handleSettle s) !! j = Some m'
        /\ PdEngine.Market.status m' = SETTLED
        /\ PdEngine.Market.outcome m' = Some (App.coerceOutcome (App.settleOutcome s))
        /\ (PdEngine.Market.outcome m' = Some 0 \/ PdEngine.Market.outcome m' = Some 1))
  /\ (forall (s : App.State) (am : PdEngine.Market.t) (i : nat) (pos : App.Position.t),
      App.adminMarket s = Some am ->
      App.positions s !! i = Some pos ->
      App.Position.marketId pos = PdEngine.Market.id am ->
      App.Position.status pos = OPEN ->
      exists pos',
        App.positions (App.handleSettle s) !! i = Some pos'
        /\ App.Position.currentP pos' = App.coerceOutcome (App.settleOutcome s)
        /\ App.Position.pnl pos'
           = PdEngine.pdPnl (App.Position.notional pos) (App.Position.entryP pos)
               (App.coerceOutcome (App.settleOutcome s)) (App.Position.side pos))
  /\ (forall (JSON_parse : string -> option json) (Number : json -> Q)
             (s : App.State) (e : App.Event),
      Forall Ledger.outcomeIsBinary (App.markets s) ->
      Forall Ledger.outcomeIsBinary (App.markets (App.step JSON_parse Number s e))).
Proof.
  split; [|split; [|split]].
  - intros q. by destruct (coerceOutcome_binary q) as (? & ? & _).
  - intros s am j m Ham Hj Hid.
    rewrite (js_handleSettle_markets s am Ham), list_lookup_fmap, Hj. simpl.
    rewrite bool_decide_eq_true_2 by done.
    eexists. split; [done|]. simpl. do 2 (split; [done|]).
    destruct (coerceOutcome_binary (App.settleOutcome s)) as (_ & _ & [-> | ->]);
      [by left|by right].
  - intros s am i pos Ham Hi Hmid Hopen.
    rewrite (js_handleSettle_positions s am Ham), list_lookup_fmap, Hi. simpl.
    eexists. split; [done|].
    by rewrite (js_finalize_cases _ _ _ Hmid), Hopen.
  - intros JSON_parse Number s e. apply js_step_outcomeIsBinary.
Qed.

(** C10 on [settleOutcome = 2]. *)
Lemma settled_outcome_binary_witness :
  let s := Samples.app [Samples.btc 0.5; Samples.election 0.41]
             [Samples.shortElection OPEN] "poly-2" "poly-2" 10 0.5 2 in
  ~ App.settleOutcome s == 1
  /\ App.coerceOutcome (App.settleOutcome s) = 0
  /\ (App.adminMarket s = Some (Samples.election 0.41)
      /\ App.markets s !! 1%nat = Some (Samples.election 0.41)
      /\ exists m',
           App.markets (App.handleSettle s) !! 1%nat = Some m'
           /\ PdEngine.Market.status m' = SETTLED
           /\ PdEngine.Market.outcome m' = Some 0)
  /\ (App.positions s !! 0%nat = Some (Samples.shortElection OPEN)
      /\ exists pos',
           App.positions (App.handleSettle s) !! 0%nat = Some pos'
           /\ App.Position.currentP pos' = 0
           /\ App.Position.pnl pos' == 205000)
  /\ (Forall Ledger.outcomeIsBinary (App.markets s)
      /\ Forall Ledger.outcomeIsBinary
           (App.markets (App.step Samples.JSON_parse Samples.Number s App.Settle))).
Proof.
  intros s.
  destruct settled_outcome_binary as (Hcoerce & Hmarket & Hposition & Hinv).
  assert (Hne : ~ App.settleOutcome s == 1) by (by vm_compute).
  split; [exact Hne|].
  split; [by apply (Hcoerce (App.settleOutcome s))|].
  split; [|split].
  - do 2 (split; [reflexivity|]).
    destruct (Hmarket s (Samples.election 0.41) 1%nat (Samples.election 0.41)
                eq_refl eq_refl eq_refl) as (m' & Hj & Hst & Hout & _).
    exists m'. by rewrite Hout.
  - split; [reflexivity|].
    destruct (Hposition s (Samples.election 0.41) 0%nat (Samples.shortElection OPEN)
                eq_refl eq_refl eq_refl eq_refl) as (pos' & Hi & Hcur & Hpnl).
    exists pos'. split; [done|]. split; [done|]. rewrite Hpnl. by vm_compute.
  - assert (Hall : Forall Ledger.outcomeIsBinary (App.markets s)).
    { constructor; [by intros ?|]. constructor; [by intros ?|]. constructor. }
    split; [exact Hall|]. by apply Hinv.
Defined.

(** ** Refreshing from the provider *)

(** The refresh leaves the whole state of either front end exactly as
    it was when the fetch fails, and when it succeeds without a market
    under the admin market's provider id; in [App] the latter as long as
    that id is not the name of a member of [Object.prototype]. *)
Lemma refresh_no_update_cases
    (JSON_parse : string -> option json) (Number : json -> Q)
    (float_of_str : string -> option Q) :
  (forall (res : PdEngine.HttpResult) (s : App.State) (reason : string),
      PdEngine.fetchPolymarketMarkets JSON_parse 50 res = Rejected reason ->
      App.handleRefreshFromPolymarket JSON_parse Number res s = s)
  /\ (forall (res : PdEngine.HttpResult) (s : App.State) (am : PdEngine.Market.t)
             (raw : list PdEngine.RawMarket.t),
      PdEngine.fetchPolymarketMarkets JSON_parse 50 res = Resolved raw ->
      App.adminMarket s = Some am ->
      App.indexById raw !! PdEngine.Market.polyId am = None ->
      PdEngine.Market.polyId am ∉ App.Object_prototype ->
      App.handleRefreshFromPolymarket JSON_parse Number res s = s)
  /\ (forall (st : Streamlit.State) (adm_mid : string) (adm_m : Streamlit.Market.t)
             (e : Streamlit.Exc),
      Streamlit.markets st !! adm_mid = Some adm_m ->
      exists feedback,
        Streamlit.refresh_from_polymarket JSON_parse float_of_str adm_mid
          (Streamlit.Raise e) st = Some (st, feedback))
  /\ (forall (st : Streamlit.State) (adm_mid : string) (adm_m : Streamlit.Market.t)
             (poly_markets : list Streamlit.RawMarket.t),
      Streamlit.markets st !! adm_mid = Some adm_m ->
      Streamlit.Market.poly_id adm_m
        ≫= (fun poly_id => Streamlit.index_by_id poly_markets !! poly_id) = None ->
      exists feedback,
        Streamlit.refresh_from_polymarket JSON_parse float_of_str adm_mid
          (Streamlit.Return poly_markets) st = Some (st, feedback)).
Proof.
  split; [|split; [|split]].
  - intros res s reason Hfetch. unfold App.handleRefreshFromPolymarket.
    destruct (App.adminMarket s); [|done].
    destruct (negb _); [done|]. by rewrite Hfetch.
  - intros res s am raw Hfetch Ham Hmiss Hkey.
    unfold App.handleRefreshFromPolymarket. rewrite Ham.
    destruct (negb _); [done|]. rewrite Hfetch.
    unfold App.refreshResolved, App.getMember. rewrite Hmiss.
    by rewrite bool_decide_eq_false_2.
  - intros st adm_mid adm_m e Hm. unfold Streamlit.refresh_from_polymarket.
    rewrite Hm. simpl. destruct (negb _); by eexists.
  - intros st adm_mid adm_m poly_markets Hm Hmiss.
    unfold Streamlit.refresh_from_polymarket.
    rewrite Hm. simpl. destruct (negb _); [by eexists|].
    rewrite Hmiss. by eexists.
Qed.

(** What the handler of [App] does when the provider's answer holds no
    candidate under the admin market's provider id, but that id names a
    member of [Object.prototype]: the admin market is quoted 0, loses
    its question and description, and 0 goes to the manual-probability
    field. *)
Lemma js_refresh_inherited_key
    (JSON_parse : string -> option json) (Number : json -> Q)
    (res : PdEngine.HttpResult) (s : App.State) (am : PdEngine.Market.t)
    (raw : list PdEngine.RawMarket.t) :
  App.adminMarket s = Some am ->
  PdEngine.Market.source am = "polymarket"%string ->
  PdEngine.fetchPolymarketMarkets JSON_parse 50 res = Resolved raw ->
  App.indexById raw !! PdEngine.Market.polyId am = None ->
  PdEngine.Market.polyId am ∈ App.Object_prototype ->
  let s' := App.handleRefreshFromPolymarket JSON_parse Number res s in
  App.manualProb s' = 0
  /\ App.positions s' = App.positions s
  /\ App.markets s'
     = (fun m => if bool_decide (PdEngine.Market.id m = PdEngine.Market.id am)
                 then App.withQuote m (App.mappedOf JSON_parse Number App.Inherited)
                 else m) <$> App.markets s.
Proof.
  intros Ham Hsrc Hfetch Hmiss Hkey s'. subst s'.
  unfold App.handleRefreshFromPolymarket. rewrite Ham, Hsrc. simpl.
  rewrite Hfetch. unfold App.refreshResolved, App.getMember. rewrite Hmiss.
  by rewrite bool_decide_eq_true_2.
Qed.

(** C9 fails in [App].  The handler reads [byId[adminMarket.polyId]]
    from a plain object, and that read also finds the members every
    object inherits.  The admin market below was loaded from a candidate
    whose id is ["constructor"]; the provider's next answer holds no
    candidate with that id.  The read yields the inherited member, so
    the handler does not stop at "not found": it quotes the admin market
    at 0 (it was at 0.5), removes its question and writes 0 to the
    manual-probability field.  The Streamlit handler, which tests
    [poly_id in poly_by_id], warns and leaves the session as it was. *)
Lemma js_refresh_finds_inherited_member :
  let s := Samples.app [Samples.inheritedKey 0.5; Samples.election 0.41]
             [] "poly-constructor" "poly-constructor" 10 0.5 1 in
  let res := PdEngine.HttpResponse true 200 (Resolved [Samples.candidate]) in
  let s' := App.handleRefreshFromPolymarket Samples.JSON_parse Samples.Number res s in
  let st := {| Streamlit.markets := {[ "poly-constructor"%string := Samples.pyInheritedKey ]};
               Streamlit.positions := [] |} in
  let answer :=
    {| Streamlit.RawMarket.id := "1";
       Streamlit.RawMarket.question := Some "BTC hits $100,000 by 31 Dec 2026"%string;
       Streamlit.RawMarket.description := None;
       Streamlit.RawMarket.slug := None;
       Streamlit.RawMarket.outcomePrices := Some Samples.pricesText |} in
  App.adminMarket s = Some (Samples.inheritedKey 0.5)
  /\ PdEngine.Market.polyId (Samples.inheritedKey 0.5) = "constructor"%string
  /\ PdEngine.fetchPolymarketMarkets Samples.JSON_parse 50 res
     = Resolved [Samples.candidate]
  /\ App.indexById [Samples.candidate] !! "constructor"%string = None
  /\ App.getMember (App.indexById [Samples.candidate]) "constructor"
     = Some App.Inherited
  /\ (exists m',
         App.markets s' = [m'; Samples.election 0.41]
         /\ PdEngine.Market.id m' = "poly-constructor"%string
         /\ PdEngine.Market.currentP m' = 0
         /\ PdEngine.Market.question m' = None
         /\ PdEngine.Market.description m' = EmptyString)
  /\ App.manualProb s = 0.5
  /\ App.manualProb s' = 0
  /\ s' <> s
  /\ Streamlit.Market.poly_id Samples.pyInheritedKey = Some "constructor"%string
  /\ Streamlit.refresh_from_polymarket Samples.JSON_parse Samples.float_of_str
       "poly-constructor" (Streamlit.Return [answer]) st
     = Some (st, Streamlit.StWarning
                   "Matching Polymarket market not found in latest API response.").
Proof.
  intros s res s' st answer.
  do 5 (split; [reflexivity|]).
  split; [eexists; split; [reflexivity|]; by repeat split|].
  do 2 (split; [reflexivity|]).
  split; [by intros [=]|].
  split; [reflexivity|]. by vm_compute.
Qed.

(** ** Opening a position *)

(** What [handleOpenPosition] checks: a selected market and a positive
    notional. *)
Lemma js_handleOpenPosition_rejects (uuid : string) (s : App.State) :
  App.selectedMarket s = None \/ App.notional s <= 0 ->
  App.handleOpenPosition uuid s = s.
Proof.
  intros H. unfold App.handleOpenPosition.
  destruct (App.selectedMarket s); [|done].
  destruct H as [H|H]; [done|]. apply Qle_bool_iff in H. by rewrite H.
Qed.

(** Otherwise it appends one OPEN position, whatever the status of the
    selected market. *)
Lemma js_handleOpenPosition_appends (uuid : string) (s : App.State)
    (sm : PdEngine.Market.t) :
  App.selectedMarket s = Some sm ->
  ~ App.notional s <= 0 ->
  exists pos,
    App.positions (App.handleOpenPosition uuid s) = App.positions s ++ [pos]
    /\ App.markets (App.handleOpenPosition uuid s) = App.markets s
    /\ App.Position.status pos = OPEN
    /\ App.Position.marketId pos = PdEngine.Market.id sm
    /\ App.Position.side pos = App.side s
    /\ App.Position.notional pos = App.notional s
    /\ App.Position.imAmount pos == App.notional s * (App.imPct s / 100)
    /\ App.Position.entryP pos = PdEngine.Market.currentP sm
    /\ App.Position.currentP pos = PdEngine.Market.currentP sm
    /\ App.Position.pnl pos = 0
    /\ App.Position.equity pos = App.Position.imAmount pos.
Proof.
  intros Hsm Hpos. unfold App.handleOpenPosition. rewrite Hsm.
  destruct (Qle_bool _ _) eqn:Hle; [by apply Qle_bool_iff in Hle|].
  eexists. split; [done|]. simpl. repeat split; try done.
  unfold Qdiv. ring.
Qed.


(** C6 fails in [App]: with a SETTLED market selected and a notional of
    1,000,000, [handleOpenPosition] appends an OPEN position on that
    market, where the Streamlit button refuses. *)
Lemma js_open_position_on_settled_market :
  let s := Samples.app [Samples.btc 0.5; Samples.electionSettled] []
             "poly-2" "poly-1" 10 0.5 1 in
  let st := Samples.session Samples.pyElectionSettled [] in
  App.selectedMarket s = Some Samples.electionSettled
  /\ PdEngine.Market.status Samples.electionSettled = SETTLED
  /\ App.notional s = 1000000
  /\ (exists pos,
         App.positions (App.handleOpenPosition "pos-9" s) = [pos]
         /\ App.Position.marketId pos = "poly-2"%string
         /\ App.Position.status pos = OPEN
         /\ App.Position.imAmount pos == 100000
         /\ App.Position.equity pos == 100000)
  /\ Streamlit.open_position "demo_trader" "2" LONG 1000000 0.1 "pos-9" st
     = Some (st, Streamlit.StError "Cannot open position on a settled market.").
Proof.
  intros s st. do 3 (split; [reflexivity|]). split.
  - eexists. split; [reflexivity|]. by repeat split.
  - by vm_compute.
Qed.

(** ** Ingestion *)

Lemma isBinary_two (outs : json) :
  PdEngine.isBinary outs = match outs with JArr [_; _] => true | _ => false end.
Proof. by destruct outs as [| | | |[|a [|b [|c items]]]|]. Qed.

(** One turn of the loop: a candidate that the filter does not accept
    is passed over. *)
Lemma selectMarkets_cons (JSON_parse : string -> option json) (maxMarkets : nat)
    (m : PdEngine.RawMarket.t) (rest selected : list PdEngine.RawMarket.t) :
  PdEngine.selectMarkets JSON_parse maxMarkets (m :: rest) selected =
  if Ledger.accepted JSON_parse m
  then if bool_decide (maxMarkets <= length (selected ++ [m]))%nat
       then selected ++ [m]
       else PdEngine.selectMarkets JSON_parse maxMarkets rest (selected ++ [m])
  else PdEngine.selectMarkets JSON_parse maxMarkets rest selected.
Proof.
  simpl. unfold Ledger.accepted.
  destruct (PdEngine.RawMarket.active m), (PdEngine.RawMarket.closed m); simpl; try done.
  destruct (JSON_parse _) as [outs|]; [|done].
  rewrite isBinary_two.
  by destruct outs as [| | | |[|a [|b [|c items]]]|].
Qed.

(** The loop keeps the accepted candidates, in order, up to the cap (and
    at least one, because the cap is tested after the push). *)
Lemma selectMarkets_take_filter (JSON_parse : string -> option json) (maxMarkets : nat)
    (data selected : list PdEngine.RawMarket.t) :
  (length selected < Nat.max 1 maxMarkets)%nat ->
  PdEngine.selectMarkets JSON_parse maxMarkets data selected
  = selected ++ take (Nat.max 1 maxMarkets - length selected)
                     (List.filter (Ledger.accepted JSON_parse) data).
Proof.
  revert selected. induction data as [|m rest IH]; intros selected Hlen.
  - simpl. by rewrite take_nil, app_nil_r.
  - rewrite selectMarkets_cons. simpl.
    destruct (Ledger.accepted JSON_parse m); [|by apply IH].
    rewrite length_app. simpl.
    destruct (Nat.max 1 maxMarkets - length selected)%nat as [|k] eqn:Hk; [lia|].
    simpl. case_bool_decide as Hcap.
    + replace k with 0%nat by lia. by rewrite take_0.
    + rewrite IH by (rewrite length_app; simpl; lia).
      rewrite length_app. simpl. rewrite <- app_assoc. simpl.
      do 3 f_equal. lia.
Qed.

(** C8, amended.  A successful response never makes the ingestion fail,
    whatever the candidates hold: the result is the list of the
    candidates that are active, not closed and have an [outcomes] text
    that parses to an array of exactly two entries, in order and cut at
    the cap.  So a candidate whose [outcomes] text does not parse is
    skipped.  Every candidate is normalized with its id prefixed by
    ["poly-"], status OPEN and no outcome; a candidate whose
    [outcomePrices] text does not parse is not skipped on that account
    but normalized with probability 0 (by both front ends). *)
Theorem ingestion_filter
    (JSON_parse : string -> option json) (Number : json -> Q)
    (float_of_str : string -> option Q) :
  (forall (maxMarkets status : nat) (data : list PdEngine.RawMarket.t),
      PdEngine.fetchPolymarketMarkets JSON_parse maxMarkets
        (PdEngine.HttpResponse true status (Resolved data))
      = Resolved (take (Nat.max 1 maxMarkets)
                    (List.filter (Ledger.accepted JSON_parse) data)))
  /\ (forall (maxMarkets : nat) (data : list PdEngine.RawMarket.t)
             (m : PdEngine.RawMarket.t),
      m ∈ PdEngine.selectMarkets JSON_parse maxMarkets data [] ->
      m ∈ data
      /\ PdEngine.RawMarket.active m = true
      /\ PdEngine.RawMarket.closed m = false
      /\ exists a b,
           JSON_parse (default "[]"%string (PdEngine.RawMarket.outcomes m))
           = Some (JArr [a; b]))
  /\ (forall m : PdEngine.RawMarket.t,
      let market := PdEngine.polymarketToBube JSON_parse Number m in
      PdEngine.Market.id market = ("poly-" +:+ PdEngine.RawMarket.id m)%string
      /\ PdEngine.Market.polyId market = PdEngine.RawMarket.id m
      /\ PdEngine.Market.status market = OPEN
      /\ PdEngine.Market.outcome market = None)
  /\ (forall m : PdEngine.RawMarket.t,
      JSON_parse (default "[]"%string (PdEngine.RawMarket.outcomes m)) = None ->
      Ledger.accepted JSON_parse m = false)
  /\ (forall m : PdEngine.RawMarket.t,
      JSON_parse (default "[]"%string (PdEngine.RawMarket.outcomePrices m)) = None ->
      PdEngine.Market.currentP (PdEngine.polymarketToBube JSON_parse Number m) = 0)
  /\ (forall m : Streamlit.RawMarket.t,
      JSON_parse (default "[]"%string (Streamlit.RawMarket.outcomePrices m)) = None ->
      exists market,
        Streamlit.polymarket_market_to_bube JSON_parse float_of_str m
        = Streamlit.Return market
        /\ Streamlit.Market.id market = ("poly-" +:+ Streamlit.RawMarket.id m)%string
        /\ Streamlit.Market.current_p market = 0).
Proof.
  split; [|split; [|split; [|split; [|split]]]].
  - intros maxMarkets status data. simpl.
    rewrite selectMarkets_take_filter by (simpl; lia).
    simpl. by rewrite Nat.sub_0_r.
  - intros maxMarkets data m.
    rewrite selectMarkets_take_filter by (simpl; lia). simpl.
    intros Hin. apply (subseteq_take _ _ m) in Hin.
    apply list_elem_of_In, List.filter_In in Hin as [Hin Hacc].
    split; [by apply list_elem_of_In|].
    unfold Ledger.accepted in Hacc.
    destruct (PdEngine.RawMarket.active m), (PdEngine.RawMarket.closed m); try done.
    do 2 (split; [done|]). simpl in Hacc.
    destruct (JSON_parse _) as [outs|]; [|done].
    destruct outs as [| | | |[|a [|b [|c items]]]|]; try done. by exists a, b.
  - by intros m.
  - intros m Hbad. unfold Ledger.accepted. rewrite Hbad.
    by destruct (PdEngine.RawMarket.active m), (PdEngine.RawMarket.closed m).
  - intros m Hbad. simpl. unfold PdEngine.yesPrice. by rewrite Hbad.
  - intros m Hbad. unfold Streamlit.polymarket_market_to_bube, Streamlit.p_yes_of.
    rewrite Hbad. by eexists.
Qed.

(** C8 as stated fails: the second candidate has an [outcomePrices]
    text that is not JSON, and it is not skipped; it comes out as a
    market with probability 0. *)
Lemma ingestion_filter_counterexample :
  let res := PdEngine.HttpResponse true 200
               (Resolved [Samples.candidate; Samples.badPrices; Samples.badOutcomes]) in
  PdEngine.RawMarket.outcomePrices Samples.badPrices = Some "not json"%string
  /\ Samples.JSON_parse "not json" = None
  /\ PdEngine.fetchPolymarketMarkets Samples.JSON_parse 20 res
     = Resolved [Samples.candidate; Samples.badPrices]
  /\ PdEngine.polymarketToBube Samples.JSON_parse Samples.Number Samples.badPrices
     = Samples.election 0
  /\ exists market,
       Streamlit.polymarket_market_to_bube Samples.JSON_parse Samples.float_of_str
         Samples.pyBadPrices = Streamlit.Return market
       /\ Streamlit.Market.id market = "poly-2"%string
       /\ Streamlit.Market.current_p market = 0.
Proof.
  intros res. do 4 (split; [by vm_compute|]).
  eexists. split; [by vm_compute|]. by split.
Qed.

(** C8, amended, on a batch of three candidates. *)
Lemma ingestion_filter_witness :
  let data := [Samples.candidate; Samples.badPrices; Samples.badOutcomes] in
  PdEngine.fetchPolymarketMarkets Samples.JSON_parse 20
    (PdEngine.HttpResponse true 200 (Resolved data))
  = Resolved [Samples.candidate; Samples.badPrices]
  /\ (Samples.candidate ∈ PdEngine.selectMarkets Samples.JSON_parse 20 data []
      /\ PdEngine.RawMarket.active Samples.candidate = true
      /\ PdEngine.RawMarket.closed Samples.candidate = false
      /\ exists a b,
           Samples.JSON_parse
             (default "[]"%string (PdEngine.RawMarket.outcomes Samples.candidate))
           = Some (JArr [a; b]))
  /\ PdEngine.Market.id
       (PdEngine.polymarketToBube Samples.JSON_parse Samples.Number Samples.candidate)
     = "poly-1"%string
  /\ (Samples.JSON_parse
        (default "[]"%string (PdEngine.RawMarket.outcomes Samples.badOutcomes)) = None
      /\ Ledger.accepted Samples.JSON_parse Samples.badOutcomes = false)
  /\ (Samples.JSON_parse
        (default "[]"%string (PdEngine.RawMarket.outcomePrices Samples.badPrices)) = None
      /\ PdEngine.Market.currentP
           (PdEngine.polymarketToBube Samples.JSON_parse Samples.Number Samples.badPrices)
         = 0)
  /\ (Samples.JSON_parse
        (default "[]"%string (Streamlit.RawMarket.outcomePrices Samples.pyBadPrices)) = None
      /\ exists market,
           Streamlit.polymarket_market_to_bube Samples.JSON_parse Samples.float_of_str
             Samples.pyBadPrices = Streamlit.Return market
           /\ Streamlit.Market.current_p market = 0).
Proof.
  intros data.
  destruct (ingestion_filter Samples.JSON_parse Samples.Number Samples.float_of_str)
    as (Hfetch & Hkept & Hnorm & Houtcomes & Hprices & Hpy).
  assert (Hin : Samples.candidate ∈ PdEngine.selectMarkets Samples.JSON_parse 20 data []).
  { apply list_elem_of_In. vm_compute. by left. }
  split; [|split; [|split; [|split; [|split]]]].
  - by rewrite Hfetch.
  - split; [exact Hin|]. by destruct (Hkept 20%nat data Samples.candidate Hin) as (_ & ? & ? & ?).
  - by destruct (Hnorm Samples.candidate) as (-> & _).
  - assert (Hbad : Samples.JSON_parse
        (default "[]"%string (PdEngine.RawMarket.outcomes Samples.badOutcomes)) = None)
      by (by vm_compute).
    split; [exact Hbad|]. by apply Houtcomes.
  - assert (Hbad : Samples.JSON_parse
        (default "[]"%string (PdEngine.RawMarket.outcomePrices Samples.badPrices)) = None)
      by (by vm_compute).
    split; [exact Hbad|]. by apply Hprices.
  - assert (Hbad : Samples.JSON_parse
        (default "[]"%string (Streamlit.RawMarket.outcomePrices Samples.pyBadPrices)) = None)
      by (by vm_compute).
    split; [exact Hbad|].
    destruct (Hpy Samples.pyBadPrices Hbad) as (market & Hret & _ & Hp).
    by exists market.
Defined.

(** ** A ledger without positions *)

Lemma consistent_initial (s : App.State) :
  App.positions s = [] -> App.marketsChanged s = false -> Ledger.consistent s.
Proof. intros Hp Hc. split; [done|]. rewrite Hp. by intros i pos. Qed.

(** ** Double precision arithmetic *)

Section Binary64.

Local Open Scope float_scope.

(** The comparison of the specification is antisymmetric. *)
Lemma SFcompare_antisym (x y : spec_float) :
  SFcompare y x = option_map CompOpp (SFcompare x y).
Proof.
  destruct x as [sx|sx| |sx mx ex], y as [sy|sy| |sy my ey]; simpl; try done;
    try (by destruct sx); try (by destruct sy); try (by destruct sx, sy).
  f_equal. destruct sx, sy; try done.
  - rewrite (Z.compare_antisym ey ex).
    destruct (ey ?= ex)%Z; simpl; try done.
    f_equal. symmetry. apply (Pos.compare_cont_antisym mx my Eq).
  - rewrite (Z.compare_antisym ey ex).
    destruct (ey ?= ex)%Z; simpl; try done.
    symmetry. apply (Pos.compare_cont_antisym mx my Eq).
Qed.

Lemma is_nan_Prim2SF (x : float) :
  is_nan x = match Prim2SF x with S754_nan => true | _ => false end.
Proof.
  unfold is_nan. rewrite FloatAxioms.eqb_spec. unfold SFeqb.
  destruct (Prim2SF x) as [s|s| |s m e]; simpl; try done; try (by destruct s).
  rewrite Z.compare_refl, Pos.compare_cont_refl. by destruct s.
Qed.

Lemma ltb_leb (a b : float) : (a <? b) = true -> (a <=? b) = true.
Proof.
  rewrite FloatAxioms.ltb_spec, FloatAxioms.leb_spec. unfold SFltb, SFleb.
  by destruct (SFcompare _ _) as [[]|].
Qed.

Lemma not_ltb_leb (a b : float) :
  is_nan a = false -> is_nan b = false -> (a <? b) = false -> (b <=? a) = true.
Proof.
  rewrite !is_nan_Prim2SF, FloatAxioms.ltb_spec, FloatAxioms.leb_spec. unfold SFltb, SFleb.
  rewrite (SFcompare_antisym (Prim2SF a) (Prim2SF b)).
  destruct (Prim2SF a) as [sa|sa| |sa ma ea], (Prim2SF b) as [sb|sb| |sb mb eb];
    try done; intros _ _; destruct (SFcompare _ _) as [[]|] eqn:Hc; try done.
  all: simpl in Hc; try done.
Qed.

Lemma leb_not_ltb (a b : float) : (a <=? b) = true -> (b <? a) = false.
Proof.
  rewrite FloatAxioms.ltb_spec, FloatAxioms.leb_spec. unfold SFltb, SFleb.
  rewrite (SFcompare_antisym (Prim2SF a) (Prim2SF b)).
  by destruct (SFcompare _ _) as [[]|].
Qed.

Lemma leb_not_ltb_eqb (a b : float) :
  (a <=? b) = true -> (a <? b) = false -> (a =? b) = true.
Proof.
  rewrite FloatAxioms.ltb_spec, FloatAxioms.leb_spec, FloatAxioms.eqb_spec. unfold SFltb, SFleb, SFeqb.
  by destruct (SFcompare _ _) as [[]|].
Qed.

Lemma leb_is_nan (a b : float) :
  (a <=? b) = true -> is_nan a = false /\ is_nan b = false.
Proof.
  rewrite !is_nan_Prim2SF, FloatAxioms.leb_spec. unfold SFleb.
  by destruct (Prim2SF a) as [sa|sa| |sa ma ea], (Prim2SF b) as [sb|sb| |sb mb eb].
Qed.


Lemma eqb_sym (a b : float) : (a =? b) = (b =? a).
Proof.
  rewrite !FloatAxioms.eqb_spec. unfold SFeqb.
  rewrite (SFcompare_antisym (Prim2SF a) (Prim2SF b)).
  by destruct (SFcompare _ _) as [[]|].
Qed.

Lemma eqb_refl (a : float) : is_nan a = false -> (a =? a) = true.
Proof. unfold is_nan. by destruct (a =? a). Qed.

Lemma one_leb_pos (x : float) : (1 <=? x) = true -> (0 <? x) = true.
Proof.
  rewrite FloatAxioms.leb_spec, FloatAxioms.ltb_spec. unfold SFleb, SFltb.
  replace (Prim2SF 1) with (S754_finite false 4503599627370496 (-52)) by reflexivity.
  replace (Prim2SF 0) with (S754_zero false) by reflexivity.
  by destruct (Prim2SF x) as [s|[|]| |[|] m e].
Qed.

(** [Math.max(0, x)] and [Math.min(1, y)] on numbers. *)
Lemma Math_max_zero (x : float) :
  is_nan x = false -> App64.Math_max 0 x = if 0 <? x then x else 0.
Proof.
  intros Hx. unfold App64.Math_max. rewrite Hx. simpl.
  destruct (0 <? x); [done|]. by destruct (x <? 0).
Qed.

Lemma Math_min_one (y : float) :
  is_nan y = false -> App64.Math_min 1 y = if 1 <? y then 1 else y.
Proof.
  intros Hy. unfold App64.Math_min. rewrite Hy. simpl.
  destruct (1 <? y); [done|]. by destruct (y <? 1).
Qed.

(** The clamp [Math.min(1, Math.max(0, x))]: NaN goes through. *)
Lemma clamp_nan (x : float) :
  is_nan x = true -> App64.Math_min 1 (App64.Math_max 0 x) = nan.
Proof.
  intros Hx. unfold App64.Math_max. rewrite Hx, orb_true_r. reflexivity.
Qed.

Lemma clamp_number (x : float) :
  is_nan x = false ->
  App64.Math_min 1 (App64.Math_max 0 x)
  = if 0 <? x then (if 1 <? x then 1 else x) else 0.
Proof.
  intros Hx. rewrite (Math_max_zero x Hx).
  destruct (0 <? x) eqn:Hpos.
  - by rewrite (Math_min_one x Hx).
  - reflexivity.
Qed.

Lemma clamp_in_range64 (x : float) :
  is_nan x = false ->
  (0 <=? App64.Math_min 1 (App64.Math_max 0 x)) = true
  /\ (App64.Math_min 1 (App64.Math_max 0 x) <=? 1) = true.
Proof.
  intros Hx. rewrite (clamp_number x Hx).
  destruct (0 <? x) eqn:Hpos; [|by split].
  destruct (1 <? x) eqn:Hbig; [by split|].
  split; [by apply ltb_leb|]. by apply not_ltb_leb.
Qed.

Lemma clamp_values64 (x : float) :
  ((0 <=? x) = true -> (x <=? 1) = true ->
   (App64.Math_min 1 (App64.Math_max 0 x) =? x) = true)
  /\ ((x <=? 0) = true -> App64.Math_min 1 (App64.Math_max 0 x) = 0)
  /\ ((1 <=? x) = true -> (App64.Math_min 1 (App64.Math_max 0 x) =? 1) = true).
Proof.
  split; [|split].
  - intros Hlow Hhigh. destruct (leb_is_nan _ _ Hlow) as [_ Hx].
    rewrite (clamp_number x Hx), (leb_not_ltb x 1 Hhigh).
    destruct (0 <? x) eqn:Hpos; [by apply eqb_refl|].
    by apply leb_not_ltb_eqb.
  - intros Hlow. destruct (leb_is_nan _ _ Hlow) as [Hx _].
    by rewrite (clamp_number x Hx), (leb_not_ltb x 0 Hlow).
  - intros Hhigh. destruct (leb_is_nan _ _ Hhigh) as [_ Hx].
    rewrite (clamp_number x Hx), (one_leb_pos x Hhigh).
    destruct (1 <? x) eqn:Hbig; [done|].
    rewrite eqb_sym. by apply leb_not_ltb_eqb.
Qed.







End Binary64.

(** ** The recompute in double precision *)






Lemma find64_fmap_id (g : PdEngine64.Market.t -> PdEngine64.Market.t)
    (ms : list PdEngine64.Market.t) (mid : string) :
  (forall m, PdEngine64.Market.id (g m) = PdEngine64.Market.id m) ->
  List.find (fun mm => bool_decide (PdEngine64.Market.id mm = mid)) (g <$> ms)
  = g <$> List.find (fun mm => bool_decide (PdEngine64.Market.id mm = mid)) ms.
Proof.
  intros Hid. induction ms as [|a ms IH]; [done|].
  simpl. rewrite Hid. by destruct (bool_decide _).
Qed.

Lemma findMarket64_id (ms : list PdEngine64.Market.t) (i : string)
    (m : PdEngine64.Market.t) :
  App64.findMarket ms (Some i) = Some m -> PdEngine64.Market.id m = i.
Proof.
  simpl. intros Hfind. apply List.find_some in Hfind as [_ Hid].
  by apply bool_decide_eq_true_1 in Hid.
Qed.




Lemma js64_recomputeEffect_markets (s : App64.State) :
  App64.markets (App64.recomputeEffect s) = App64.markets s.
Proof.
  unfold App64.recomputeEffect.
  destruct (App64.marketsChanged s); [|done].
  by destruct (App64.markets s) eqn:Hms.
Qed.







(** The whole price update on the market of a position. *)
Lemma js64_applyPriceUpdate_own (mid : string) (typed : float) (s : App64.State)
    (am : PdEngine64.Market.t) (i : nat) (pos : App64.Position.t) :
  App64.findMarket (App64.markets s) (Some mid) = Some am ->
  App64.positions s !! i = Some pos ->
  App64.Position.marketId pos = mid ->
  exists ms,
    App64.markets (App64.applyPriceUpdate mid typed s) = ms
    /\ App64.positions (App64.applyPriceUpdate mid typed s) !! i
       = Some (App64.recompute ms pos)
    /\ List.find (fun mm => bool_decide (PdEngine64.Market.id mm
                                         = App64.Position.marketId pos)) ms
       = Some (App64.withCurrentP am (App64.Math_min 1 (App64.Math_max 0 typed))).
Proof.
  intros Ham Hi Hmid. eexists. split; [done|].
  unfold App64.applyPriceUpdate.
  set (s2 := App64.handleManualProbApply _).
  assert (Hs2 : App64.marketsChanged s2 = true
                /\ App64.positions s2 = App64.positions s
                /\ App64.markets s2
                   = (fun m => if bool_decide (PdEngine64.Market.id m
                                               = PdEngine64.Market.id am)
                               then App64.withCurrentP m
                                      (App64.Math_min 1 (App64.Math_max 0 typed))
                               else m) <$> App64.markets s).
  { subst s2. unfold App64.handleManualProbApply, App64.adminMarket.
    simpl in *. by rewrite Ham. }
  destruct Hs2 as (Hchanged & Hpos & Hms).
  assert (Hfind :
    List.find (fun mm => bool_decide (PdEngine64.Market.id mm
                                      = App64.Position.marketId pos)) (App64.markets s2)
    = Some (App64.withCurrentP am (App64.Math_min 1 (App64.Math_max 0 typed)))).
  { rewrite Hms, find64_fmap_id by (intros m; simpl; by destruct (bool_decide _)).
    rewrite Hmid. simpl in Ham. rewrite Ham. simpl.
    by rewrite bool_decide_eq_true_2. }
  rewrite js64_recomputeEffect_markets. split; [|done].
  unfold App64.recomputeEffect. rewrite Hchanged.
  destruct (App64.markets s2) as [|m0 ms] eqn:Hms2; [done|]. simpl.
  by rewrite list_lookup_fmap, Hpos, Hi.
Qed.

(** ** The Streamlit propagator in double precision *)

Lemma py64_update_position_cases (market_id : string) (current_p : float)
    (pos : Streamlit64.Position.t) :
  Streamlit64.Position.market_id pos = market_id ->
  Streamlit64.Position.status pos = OPEN ->
  let pnl := Streamlit64.pd_pnl (Streamlit64.Position.notional pos)
               (Streamlit64.Position.entry_p pos) current_p
               (Streamlit64.Position.side pos) in
  let equity := Streamlit64.compute_equity (Streamlit64.Position.im_amount pos) pnl in
  Streamlit64.update_position market_id current_p pos =
  Streamlit64.Position.set_status
    (Streamlit64.Position.set_marks pos pnl equity current_p)
    (if Streamlit64.is_liquidation equity (Streamlit64.Position.im_amount pos)
     then LIQUIDATED else OPEN).
Proof.
  intros Hmid Hopen pnl equity. unfold Streamlit64.update_position.
  rewrite bool_decide_eq_true_2 by done. rewrite Hopen. simpl. fold pnl. fold equity.
  destruct (Streamlit64.is_liquidation equity (Streamlit64.Position.im_amount pos));
    [done|].
  unfold Streamlit64.Position.set_status, Streamlit64.Position.set_marks. simpl.
  by rewrite Hopen.
Qed.


Lemma py64_apply_manual_probability_returns (adm_mid : string) (new_p : float)
    (st : Streamlit64.State) (m : Streamlit64.Market.t) :
  Streamlit64.markets st !! adm_mid = Some m ->
  Streamlit64.apply_manual_probability adm_mid new_p st =
  Some {| Streamlit64.markets :=
            <[adm_mid := Streamlit64.Market.set_current_p m new_p]>
              (Streamlit64.markets st);
          Streamlit64.positions :=
            Streamlit64.update_position adm_mid new_p <$> Streamlit64.positions st |}.
Proof.
  intros Hm. unfold Streamlit64.apply_manual_probability. rewrite Hm. simpl.
  unfold Streamlit64.update_positions_for_market. simpl.
  by rewrite lookup_insert_eq.
Qed.


(** ** Liquidation at a price update *)

Lemma js64_recompute_open (ms : list PdEngine64.Market.t) (m : PdEngine64.Market.t)
    (pos : App64.Position.t) :
  List.find (fun mm => bool_decide (PdEngine64.Market.id mm
                                    = App64.Position.marketId pos)) ms = Some m ->
  App64.Position.status pos = OPEN ->
  let pnl := PdEngine64.pdPnl (App64.Position.notional pos)
               (App64.Position.entryP pos) (PdEngine64.Market.currentP m)
               (App64.Position.side pos) in
  let equity := PdEngine64.computeEquity (App64.Position.imAmount pos) pnl in
  App64.recompute ms pos
  = App64.Position.withStatus
      (App64.Position.withMarks pos (PdEngine64.Market.currentP m) pnl equity)
      (if PdEngine64.isLiquidation equity (App64.Position.imAmount pos)
       then LIQUIDATED else OPEN).
Proof.
  intros Hfind Hopen pnl equity. unfold App64.recompute.
  rewrite Hfind, Hopen. simpl. fold pnl. fold equity.
  destruct (PdEngine64.isLiquidation equity (App64.Position.imAmount pos)); [done|].
  unfold App64.Position.withStatus, App64.Position.withMarks. simpl. by rewrite Hopen.
Qed.

(** The recompute of an OPEN position: its marks, and the source's
    comparison as the one reason for its status. *)
Lemma js64_recompute_liquidation (ms : list PdEngine64.Market.t)
    (m : PdEngine64.Market.t) (pos : App64.Position.t) :
  List.find (fun mm => bool_decide (PdEngine64.Market.id mm
                                    = App64.Position.marketId pos)) ms = Some m ->
  App64.Position.status pos = OPEN ->
  let pos' := App64.recompute ms pos in
  App64.Position.currentP pos' = PdEngine64.Market.currentP m
  /\ App64.Position.equity pos'
     = (App64.Position.imAmount pos
        + PdEngine64.pdPnl (App64.Position.notional pos) (App64.Position.entryP pos)
            (PdEngine64.Market.currentP m) (App64.Position.side pos))%float
  /\ (App64.Position.status pos' = LIQUIDATED
      <-> (App64.Position.equity pos' <=? 0.05 * App64.Position.imAmount pos)%float
          = true)
  /\ (App64.Position.status pos' = OPEN
      <-> (App64.Position.equity pos' <=? 0.05 * App64.Position.imAmount pos)%float
          = false).
Proof.
  intros Hfind Hopen pos'. subst pos'.
  rewrite (js64_recompute_open ms m pos Hfind Hopen). simpl.
  unfold PdEngine64.isLiquidation, PdEngine64.LIQ_THRESHOLD_BETA,
    PdEngine64.computeEquity.
  split; [done|]. split; [done|].
  by destruct (_ <=? _)%float.
Qed.

Lemma py64_update_position_liquidation (market_id : string) (current_p : float)
    (pos : Streamlit64.Position.t) :
  Streamlit64.Position.market_id pos = market_id ->
  Streamlit64.Position.status pos = OPEN ->
  let pos' := Streamlit64.update_position market_id current_p pos in
  Streamlit64.Position.current_p pos' = current_p
  /\ Streamlit64.Position.equity pos'
     = (Streamlit64.Position.im_amount pos
        + Streamlit64.pd_pnl (Streamlit64.Position.notional pos)
            (Streamlit64.Position.entry_p pos) current_p
            (Streamlit64.Position.side pos))%float
  /\ (Streamlit64.Position.status pos' = LIQUIDATED
      <-> (Streamlit64.Position.equity pos'
           <=? 0.05 * Streamlit64.Position.im_amount pos)%float = true)
  /\ (Streamlit64.Position.status pos' = OPEN
      <-> (Streamlit64.Position.equity pos'
           <=? 0.05 * Streamlit64.Position.im_amount pos)%float = false).
Proof.
  intros Hmid Hopen pos'. subst pos'.
  rewrite (py64_update_position_cases market_id current_p pos Hmid Hopen). simpl.
  unfold Streamlit64.is_liquidation, Streamlit64.LIQ_THRESHOLD_BETA,
    Streamlit64.compute_equity.
  split; [done|]. split; [done|].
  by destruct (_ <=? _)%float.
Qed.

(** C2.  A position that is OPEN when the price of its market is
    updated gets the equity [marginAmount + pnl] at the new probability,
    as the double precision arithmetic of the source computes it, and
    becomes LIQUIDATED exactly when the source's comparison
    [equity <= 0.05 * marginAmount] holds of that equity; otherwise it
    stays OPEN (so also when the equity is NaN).  The factor is the one
    constant [LIQ_THRESHOLD_BETA = 0.05] of each front end: the
    predicate takes nothing but the equity and the margin.  Stated for
    the recompute of one position and for the whole price update of
    each front end ([App] passes the number typed through
    [Math.min(1, Math.max(0, .))]). *)
Theorem liquidation_threshold :
  (PdEngine64.LIQ_THRESHOLD_BETA = 0.05%float
   /\ Streamlit64.LIQ_THRESHOLD_BETA = 0.05%float)
  /\ (forall (ms : list PdEngine64.Market.t) (m : PdEngine64.Market.t)
             (pos : App64.Position.t),
      List.find (fun mm => bool_decide (PdEngine64.Market.id mm
                                        = App64.Position.marketId pos)) ms = Some m ->
      App64.Position.status pos = OPEN ->
      let pos' := App64.recompute ms pos in
      App64.Position.equity pos'
      = (App64.Position.imAmount pos
         + PdEngine64.pdPnl (App64.Position.notional pos) (App64.Position.entryP pos)
             (PdEngine64.Market.currentP m) (App64.Position.side pos))%float
      /\ (App64.Position.status pos' = LIQUIDATED
          <-> (App64.Position.equity pos' <=? 0.05 * App64.Position.imAmount pos)%float
              = true)
      /\ (App64.Position.status pos' = OPEN
          <-> (App64.Position.equity pos' <=? 0.05 * App64.Position.imAmount pos)%float
              = false))
  /\ (forall (s : App64.State) (mid : string) (typed : float)
             (am : PdEngine64.Market.t) (i : nat) (pos : App64.Position.t),
      App64.findMarket (App64.markets s) (Some mid) = Some am ->
      App64.positions s !! i = Some pos ->
      App64.Position.marketId pos = mid ->
      App64.Position.status pos = OPEN ->
      exists pos',
        App64.positions (App64.applyPriceUpdate mid typed s) !! i = Some pos'
        /\ App64.Position.currentP pos' = App64.Math_min 1 (App64.Math_max 0 typed)
        /\ App64.Position.equity pos'
           = (App64.Position.imAmount pos
              + PdEngine64.pdPnl (App64.Position.notional pos)
                  (App64.Position.entryP pos)
                  (App64.Math_min 1 (App64.Math_max 0 typed))
                  (App64.Position.side pos))%float
        /\ (App64.Position.status pos' = LIQUIDATED
            <-> (App64.Position.equity pos' <=? 0.05 * App64.Position.imAmount pos)%float
                = true)
        /\ (App64.Position.status pos' = OPEN
            <-> (App64.Position.equity pos' <=? 0.05 * App64.Position.imAmount pos)%float
                = false))
  /\ (forall (market_id : string) (current_p : float) (pos : Streamlit64.Position.t),
      Streamlit64.Position.market_id pos = market_id ->
      Streamlit64.Position.status pos = OPEN ->
      let pos' := Streamlit64.update_position market_id current_p pos in
      Streamlit64.Position.equity pos'
      = (Streamlit64.Position.im_amount pos
         + Streamlit64.pd_pnl (Streamlit64.Position.notional pos)
             (Streamlit64.Position.entry_p pos) current_p
             (Streamlit64.Position.side pos))%float
      /\ (Streamlit64.Position.status pos' = LIQUIDATED
          <-> (Streamlit64.Position.equity pos'
               <=? 0.05 * Streamlit64.Position.im_amount pos)%float = true)
      /\ (Streamlit64.Position.status pos' = OPEN
          <-> (Streamlit64.Position.equity pos'
               <=? 0.05 * Streamlit64.Position.im_amount pos)%float = false))
  /\ (forall (st : Streamlit64.State) (adm_mid : string) (new_p : float)
             (m : Streamlit64.Market.t) (i : nat) (pos : Streamlit64.Position.t),
      Streamlit64.markets st !! adm_mid = Some m ->
      Streamlit64.positions st !! i = Some pos ->
      exists st',
        Streamlit64.apply_manual_probability adm_mid new_p st = Some st'
        /\ Streamlit64.positions st' !! i
           = Some (Streamlit64.update_position adm_mid new_p pos)).
Proof.
  split; [done|]. split; [|split; [|split]].
  - intros ms m pos Hfind Hopen.
    by destruct (js64_recompute_liquidation ms m pos Hfind Hopen) as (_ & ? & ? & ?).
  - intros s mid typed am i pos Ham Hi Hmid Hopen.
    destruct (js64_applyPriceUpdate_own mid typed s am i pos Ham Hi Hmid)
      as (ms & _ & Hpos & Hfind).
    eexists. split; [exact Hpos|].
    by destruct (js64_recompute_liquidation ms _ pos Hfind Hopen) as (? & ? & ? & ?).
  - intros market_id current_p pos Hmid Hopen.
    by destruct (py64_update_position_liquidation market_id current_p pos Hmid Hopen)
      as (_ & ? & ? & ?).
  - intros st adm_mid new_p m i pos Hm Hi.
    rewrite (py64_apply_manual_probability_returns adm_mid new_p st m Hm).
    eexists. split; [done|]. simpl. by rewrite list_lookup_fmap, Hi.
Qed.

(** C2 at the threshold.  SHORT 1,000,000 at a margin of 20%, entered
    at 0.50: at 0.69 the exact equity would be 10,000, which is 0.05 of
    the margin, but the source computes 10000.000000000058 and leaves
    the position OPEN; at 0.70 it is liquidated.  The first worked
    example (LONG 1,000,000 at 10%, from 0.50 to 0.40) is liquidated in
    the Streamlit application as well. *)
Lemma liquidation_threshold_witness :
  let s := Samples64.app [Samples64.btc 0.5; Samples64.election 0.41]
             [Samples64.onBtc SHORT 1000000 20 0.5] "poly-2" "poly-2" 10 0.5 in
  let long := Samples64.pyOnBtc LONG 1000000 0.1 0.5 OPEN in
  (App64.findMarket (App64.markets s) (Some "poly-1"%string) = Some (Samples64.btc 0.5)
   /\ App64.positions s !! 0%nat = Some (Samples64.onBtc SHORT 1000000 20 0.5)
   /\ exists pos',
        App64.positions (App64.applyPriceUpdate "poly-1" 0.69 s) !! 0%nat = Some pos'
        /\ App64.Position.imAmount pos' = 200000%float
        /\ App64.Position.equity pos' = 10000.000000000058%float
        /\ App64.Position.status pos' = OPEN)
  /\ (exists pos',
        App64.positions (App64.applyPriceUpdate "poly-1" 0.7 s) !! 0%nat = Some pos'
        /\ App64.Position.status pos' = LIQUIDATED)
  /\ (Streamlit64.Position.market_id long = "1"%string
      /\ Streamlit64.Position.status (Streamlit64.update_position "1" 0.4 long)
         = LIQUIDATED
      /\ Streamlit64.Position.status (Streamlit64.update_position "1" 0.49 long) = OPEN).
Proof.
  intros s long.
  destruct liquidation_threshold as (_ & _ & Happ & Hpy & _).
  split; [|split].
  - do 2 (split; [reflexivity|]).
    destruct (Happ s "poly-1"%string 0.69%float (Samples64.btc 0.5) 0%nat
                (Samples64.onBtc SHORT 1000000 20 0.5)
                eq_refl eq_refl eq_refl eq_refl) as (pos' & Hi & _ & Heq & _ & Hopen).
    exists pos'. split; [exact Hi|].
    assert (Him : App64.Position.imAmount pos' = 200000%float).
    { vm_compute in Hi. by injection Hi as <-. }
    split; [exact Him|]. split; [rewrite Heq; reflexivity|].
    apply Hopen. rewrite Heq. reflexivity.
  - destruct (Happ s "poly-1"%string 0.7%float (Samples64.btc 0.5) 0%nat
                (Samples64.onBtc SHORT 1000000 20 0.5)
                eq_refl eq_refl eq_refl eq_refl) as (pos' & Hi & _ & Heq & Hliq & _).
    exists pos'. split; [exact Hi|]. apply Hliq. rewrite Heq. reflexivity.
  - split; [reflexivity|].
    destruct (Hpy "1"%string 0.4%float long eq_refl eq_refl) as (Heq & Hliq & _).
    destruct (Hpy "1"%string 0.49%float long eq_refl eq_refl) as (Heq' & _ & Hopen).
    split.
    + apply Hliq. rewrite Heq. reflexivity.
    + apply Hopen. rewrite Heq'. reflexivity.
Defined.

(** ** The frame of a price update *)



(** Outside that domain: a position opened on a market whose quote is
    NaN (the provider's first price was not numeric) has the pnl 0 and
    its margin as equity; the first recompute, whatever market the
    update was for, turns both into NaN and leaves the position OPEN. *)
Lemma js64_price_update_nan_market :
  let opened := Samples64.onBtc LONG 1000000 10 nan in
  let s := Samples64.app [Samples64.btc nan; Samples64.election 0.41]
             [opened] "poly-1" "poly-1" 10 0.5 in
  App64.asOpened (Samples64.btc nan) opened
  /\ App64.Position.pnl opened = 0%float
  /\ App64.Position.equity opened = 100000%float
  /\ exists pos',
       App64.positions (App64.applyPriceUpdate "poly-2" 0.3 s) !! 0%nat = Some pos'
       /\ App64.Position.status pos' = OPEN
       /\ App64.Position.pnl pos' = nan
       /\ App64.Position.equity pos' = nan.
Proof.
  intros opened s. split; [by repeat split|]. do 2 (split; [reflexivity|]).
  eexists. split; [reflexivity|]. by repeat split.
Qed.

(** * Further properties of the code *)

(** ** The Position Ledger of [App] under every event *)

Lemma js_recompute_cases (ms : list PdEngine.Market.t) (pos : App.Position.t) :
  App.recompute ms pos = pos
  \/ exists m,
       List.find (fun mm => bool_decide (PdEngine.Market.id mm = App.Position.marketId pos)) ms
         = Some m
       /\ App.Position.status pos = OPEN
       /\ App.recompute ms pos
          = App.Position.withStatus
              (App.Position.withMarks pos (PdEngine.Market.currentP m)
                 (PdEngine.pdPnl (App.Position.notional pos) (App.Position.entryP pos)
                    (PdEngine.Market.currentP m) (App.Position.side pos))
                 (PdEngine.computeEquity (App.Position.imAmount pos)
                    (PdEngine.pdPnl (App.Position.notional pos) (App.Position.entryP pos)
                       (PdEngine.Market.currentP m) (App.Position.side pos))))
              (if PdEngine.isLiquidation
                    (PdEngine.computeEquity (App.Position.imAmount pos)
                       (PdEngine.pdPnl (App.Position.notional pos)
                          (App.Position.entryP pos) (PdEngine.Market.currentP m)
                          (App.Position.side pos)))
                    (App.Position.imAmount pos)
               then LIQUIDATED else OPEN).
Proof.
  destruct (decide (App.Position.status pos = OPEN)) as [Hopen|Hclosed];
    [|left; by apply js_recompute_not_open].
  destruct (List.find
              (fun mm => bool_decide (PdEngine.Market.id mm = App.Position.marketId pos)) ms)
    as [m|] eqn:Hfind.
  - right. exists m. do 2 (split; [done|]). by apply js_recompute_open.
  - left. unfold App.recompute. by rewrite Hfind.
Qed.

Lemma js_finalize_shape (marketId : string) (outcome : Q) (pos : App.Position.t) :
  App.finalize marketId outcome pos = pos
  \/ (App.Position.status pos = LIQUIDATED
      /\ App.finalize marketId outcome pos = App.Position.withStatus pos SETTLED)
  \/ (App.Position.status pos = OPEN
      /\ App.finalize marketId outcome pos
         = App.Position.withStatus
             (App.Position.withMarks pos outcome
                (PdEngine.pdPnl (App.Position.notional pos) (App.Position.entryP pos)
                   outcome (App.Position.side pos))
                (PdEngine.computeEquity (App.Position.imAmount pos)
                   (PdEngine.pdPnl (App.Position.notional pos) (App.Position.entryP pos)
                      outcome (App.Position.side pos))))
             SETTLED).
Proof.
  destruct (decide (App.Position.marketId pos = marketId)) as [Hmid|Hmid];
    [|left; by apply js_finalize_other].
  rewrite (js_finalize_cases _ _ _ Hmid).
  destruct (App.Position.status pos); [right; by right|right; by left|by left].
Qed.

Lemma js_handleOpenPosition_opened (uuid : string) (s : App.State) :
  App.handleOpenPosition uuid s =
  match App.selectedMarket s with
  | None => s
  | Some sm =>
    if Qle_bool (App.notional s) 0 then s
    else App.setPositions (fun prev => prev ++ [Invariants.opened uuid s sm]) s
  end.
Proof. done. Qed.

Section AppLedger.

Variable JSON_parse : string -> option json.
Variable Number : json -> Q.

(** What a handler does to the list of positions: nothing, one position
    appended, or every position passed through [finalize]. *)
Lemma js_handle_positions (e : App.Event) (s : App.State) :
  App.positions (App.handle JSON_parse Number e s) = App.positions s
  \/ (exists uuid sm,
        e = App.OpenPosition uuid
        /\ App.selectedMarket s = Some sm
        /\ ~ App.notional s <= 0
        /\ App.positions (App.handle JSON_parse Number e s)
           = App.positions s ++ [Invariants.opened uuid s sm])
  \/ (exists am,
        e = App.Settle
        /\ App.adminMarket s = Some am
        /\ App.positions (App.handle JSON_parse Number e s)
           = App.finalize (PdEngine.Market.id am) (App.coerceOutcome (App.settleOutcome s))
               <$> App.positions s).
Proof.
  destruct e; simpl; try by left.
  - rewrite js_handleOpenPosition_opened.
    destruct (App.selectedMarket s) as [sm|] eqn:Hsm; [|by left].
    destruct (Qle_bool _ _) eqn:Hle; [by left|].
    right; left. exists uuid, sm. do 2 (split; [done|]). split; [|done].
    intros H%Qle_bool_iff. congruence.
  - left. apply js_handleManualProbApply_positions.
  - destruct (App.adminMarket s) as [am|] eqn:Ham.
    + right; right. exists am. do 2 (split; [done|]).
      by apply js_handleSettle_positions.
    + left. unfold App.handleSettle. by rewrite Ham.
  - left. apply js_handleRefresh_positions.
Qed.

(** A property of single positions that [recompute], [finalize] and
    [handleOpenPosition] establish or keep is kept by every event. *)
Lemma js_step_Forall (P : App.Position.t -> Prop) (s : App.State) (e : App.Event) :
  (forall ms pos, P pos -> P (App.recompute ms pos)) ->
  (forall marketId outcome pos, P pos -> P (App.finalize marketId outcome pos)) ->
  (forall uuid sm, App.selectedMarket s = Some sm -> ~ App.notional s <= 0 ->
     P (Invariants.opened uuid s sm)) ->
  Forall P (App.positions s) ->
  Forall P (App.positions (App.step JSON_parse Number s e)).
Proof.
  intros Hrecompute Hfinalize Hopened Hall. unfold App.step.
  assert (Hhandled : Forall P (App.positions (App.handle JSON_parse Number e s))).
  { destruct (js_handle_positions e s)
      as [-> | [(uuid & sm & _ & Hsm & Hpos & ->) | (am & _ & _ & ->)]].
    - done.
    - apply Forall_app. split; [done|]. constructor; [|constructor].
      by apply Hopened.
    - apply Forall_fmap. eapply Forall_impl; [exact Hall|].
      intros pos Hp. by apply Hfinalize. }
  destruct (js_recomputeEffect_positions (App.handle JSON_parse Number e s)) as [-> | ->];
    [done|].
  apply Forall_fmap. eapply Forall_impl; [exact Hhandled|].
  intros pos Hp. by apply Hrecompute.
Qed.

(** A reflexive and transitive relation between the versions of a
    position that [recompute] and [finalize] respect relates the position
    at every index before an event to the one at that index after it. *)
Lemma js_step_lookup (R : App.Position.t -> App.Position.t -> Prop)
    (s : App.State) (e : App.Event) (i : nat) (pos : App.Position.t) :
  (forall pos, R pos pos) ->
  (forall a b c, R a b -> R b c -> R a c) ->
  (forall ms pos, R pos (App.recompute ms pos)) ->
  (forall marketId outcome pos, R pos (App.finalize marketId outcome pos)) ->
  App.positions s !! i = Some pos ->
  exists pos',
    App.positions (App.step JSON_parse Number s e) !! i = Some pos' /\ R pos pos'.
Proof.
  intros Hrefl Htrans Hrecompute Hfinalize Hi. unfold App.step.
  assert (Hhandled : exists pos1,
    App.positions (App.handle JSON_parse Number e s) !! i = Some pos1 /\ R pos pos1).
  { destruct (js_handle_positions e s)
      as [-> | [(uuid & sm & _ & _ & _ & ->) | (am & _ & _ & ->)]].
    - by exists pos.
    - exists pos. split; [by apply lookup_app_l_Some|done].
    - eexists. rewrite list_lookup_fmap, Hi. simpl. split; [done|]. apply Hfinalize. }
  destruct Hhandled as (pos1 & Hi1 & HR1).
  destruct (js_recomputeEffect_positions (App.handle JSON_parse Number e s)) as [-> | ->].
  - by exists pos1.
  - eexists. rewrite list_lookup_fmap, Hi1. simpl. split; [done|].
    apply (Htrans _ pos1); [done|apply Hrecompute].
Qed.

End AppLedger.

Lemma laterVersion_refl (pos : App.Position.t) : Invariants.laterVersion pos pos.
Proof. by split. Qed.

Lemma laterVersion_trans (a b c : App.Position.t) :
  Invariants.laterVersion a b -> Invariants.laterVersion b c ->
  Invariants.laterVersion a c.
Proof. intros [H1 H2] [K1 K2]. split; [congruence|lia]. Qed.

Lemma js_recompute_laterVersion (ms : list PdEngine.Market.t) (pos : App.Position.t) :
  Invariants.laterVersion pos (App.recompute ms pos).
Proof.
  destruct (js_recompute_cases ms pos) as [-> | (m & _ & Hopen & ->)];
    [apply laterVersion_refl|].
  split; [done|]. rewrite Hopen. simpl. lia.
Qed.

Lemma js_finalize_laterVersion (marketId : string) (outcome : Q)
    (pos : App.Position.t) :
  Invariants.laterVersion pos (App.finalize marketId outcome pos).
Proof.
  destruct (js_finalize_shape marketId outcome pos) as [-> | [[Hst ->] | [Hst ->]]];
    [apply laterVersion_refl| |]; split; try done; rewrite Hst; simpl; lia.
Qed.

(** X1.  No run of events deletes or moves a position of [App]: the
    position at an index stays at that index, with the fields it was
    opened with (id, market, side, notional, margin, entry probability),
    and its status only moves forward, from OPEN to LIQUIDATED to
    SETTLED. *)
Theorem positions_only_move_forward
    (JSON_parse : string -> option json) (Number : json -> Q)
    (es : list App.Event) (s : App.State) (i : nat) (pos : App.Position.t) :
  App.positions s !! i = Some pos ->
  exists pos',
    App.positions (App.run JSON_parse Number s es) !! i = Some pos'
    /\ Invariants.fixedFields pos' = Invariants.fixedFields pos
    /\ (Invariants.rank (App.Position.status pos)
        <= Invariants.rank (App.Position.status pos'))%nat
    /\ (App.Position.status pos = SETTLED -> App.Position.status pos' = SETTLED)
    /\ (App.Position.status pos' = OPEN -> App.Position.status pos = OPEN).
Proof.
  intros Hi.
  assert (Hlater : exists pos',
    App.positions (App.run JSON_parse Number s es) !! i = Some pos'
    /\ Invariants.laterVersion pos pos').
  { revert s pos Hi. induction es as [|e es IH]; intros s pos Hi.
    - exists pos. split; [done|apply laterVersion_refl].
    - destruct (js_step_lookup JSON_parse Number Invariants.laterVersion s e i pos
                  laterVersion_refl laterVersion_trans js_recompute_laterVersion
                  js_finalize_laterVersion Hi) as (pos1 & Hi1 & Hlater1).
      destruct (IH _ pos1 Hi1) as (pos' & Hi' & Hlater').
      exists pos'. split; [done|]. by apply (laterVersion_trans pos pos1). }
  destruct Hlater as (pos' & Hi' & Hfixed & Hrank).
  exists pos'. do 3 (split; [done|]). split.
  - intros Hst. rewrite Hst in Hrank. by destruct (App.Position.status pos'); simpl in *; try lia.
  - intros Hst. rewrite Hst in Hrank. by destruct (App.Position.status pos); simpl in *; try lia.
Qed.

(** X1 on the first worked example: the price moves to 0.40, then the
    market settles. *)
Lemma positions_only_move_forward_witness :
  let s := Samples.app [Samples.btc 0.5; Samples.election 0.41]
             [Samples.longBtc OPEN] "poly-1" "poly-1" 10 0.4 1 in
  let es := [App.ManualProbApply; App.Settle] in
  App.positions s !! 0%nat = Some (Samples.longBtc OPEN)
  /\ exists pos',
       App.positions (App.run Samples.JSON_parse Samples.Number s es) !! 0%nat = Some pos'
       /\ Invariants.fixedFields pos' = Invariants.fixedFields (Samples.longBtc OPEN)
       /\ App.Position.status pos' = SETTLED.
Proof.
  intros s es. split; [reflexivity|].
  destruct (positions_only_move_forward Samples.JSON_parse Samples.Number es s 0%nat
              (Samples.longBtc OPEN) eq_refl) as (pos' & Hi & Hfixed & _).
  exists pos'. split; [exact Hi|]. split; [exact Hfixed|].
  assert (Hrun : App.positions (App.run Samples.JSON_parse Samples.Number s es) !! 0%nat
                 = Some (App.Position.withStatus
                           (App.Position.withMarks (Samples.longBtc OPEN) 0.4
                              (PdEngine.pdPnl 1000000 0.5 0.4 LONG)
                              (PdEngine.computeEquity 100000
                                 (PdEngine.pdPnl 1000000 0.5 0.4 LONG)))
                           SETTLED)) by reflexivity.
  rewrite Hrun in Hi. by injection Hi as <-.
Defined.

(** X2.  An event changes the number of positions of [App] by at most
    one, and only "Open Position" with a selected market and a positive
    notional adds one. *)
Theorem positions_grow_by_one
    (JSON_parse : string -> option json) (Number : json -> Q)
    (s : App.State) (e : App.Event) :
  length (App.positions (App.step JSON_parse Number s e)) = length (App.positions s)
  \/ (length (App.positions (App.step JSON_parse Number s e))
      = S (length (App.positions s))
      /\ exists uuid sm,
           e = App.OpenPosition uuid
           /\ App.selectedMarket s = Some sm
           /\ ~ App.notional s <= 0).
Proof.
  unfold App.step.
  assert (Heffect : forall s', length (App.positions (App.recomputeEffect s'))
                               = length (App.positions s')).
  { intros s'. destruct (js_recomputeEffect_positions s') as [-> | ->];
      [done|by rewrite length_fmap]. }
  rewrite Heffect.
  destruct (js_handle_positions JSON_parse Number e s)
    as [-> | [(uuid & sm & He & Hsm & Hpos & ->) | (am & _ & _ & ->)]].
  - by left.
  - right. rewrite length_app. simpl. split; [lia|]. by exists uuid, sm.
  - left. by rewrite length_fmap.
Qed.

Lemma js_recompute_balanced (ms : list PdEngine.Market.t) (pos : App.Position.t) :
  Invariants.balanced pos -> Invariants.balanced (App.recompute ms pos).
Proof.
  intros Hpos. by destruct (js_recompute_cases ms pos) as [-> | (m & _ & _ & ->)].
Qed.

Lemma js_finalize_balanced (marketId : string) (outcome : Q) (pos : App.Position.t) :
  Invariants.balanced pos -> Invariants.balanced (App.finalize marketId outcome pos).
Proof.
  intros Hpos.
  by destruct (js_finalize_shape marketId outcome pos) as [-> | [[_ ->] | [_ ->]]].
Qed.

(** X3.  The accounting identity of the Position Ledger of [App]: if
    every position has equity = margin + pnl, then so has every
    position after any run of events.  It holds of every position the
    component opens. *)
Theorem equity_is_margin_plus_pnl
    (JSON_parse : string -> option json) (Number : json -> Q)
    (es : list App.Event) (s : App.State) :
  Forall Invariants.balanced (App.positions s) ->
  Forall Invariants.balanced (App.positions (App.run JSON_parse Number s es)).
Proof.
  revert s. induction es as [|e es IH]; intros s Hall; [done|].
  simpl. apply IH. apply js_step_Forall; try done.
  - apply js_recompute_balanced.
  - apply js_finalize_balanced.
  - intros uuid sm _ _. unfold Invariants.balanced, PdEngine.computeEquity. simpl. ring.
Qed.

(** X3 from an empty ledger: a position is opened, the price moves, the
    market settles. *)
Lemma equity_is_margin_plus_pnl_witness :
  let s := Samples.app [Samples.btc 0.5; Samples.election 0.41] []
             "poly-1" "poly-1" 10 0.4 1 in
  let es := [App.OpenPosition "pos-1"; App.ManualProbApply; App.Settle] in
  Forall Invariants.balanced (App.positions s)
  /\ length (App.positions (App.run Samples.JSON_parse Samples.Number s es)) = 1%nat
  /\ Forall Invariants.balanced
       (App.positions (App.run Samples.JSON_parse Samples.Number s es)).
Proof.
  intros s es.
  assert (Hall : Forall Invariants.balanced (App.positions s)) by constructor.
  split; [exact Hall|]. split; [reflexivity|].
  by apply (equity_is_margin_plus_pnl Samples.JSON_parse Samples.Number es s).
Defined.





(** ** Numeric bounds *)

(** X5.  With a notional that is not negative and probabilities in
    [0,1], the pnl of either side lies between [-notional] and
    [notional], so the equity never falls below [margin - notional].
    Both copies of the pricing function. *)
Theorem pnl_bounded_by_notional (notional entryP currentP marginAmount : Q)
    (side : Side) :
  0 <= notional ->
  0 <= entryP /\ entryP <= 1 ->
  0 <= currentP /\ currentP <= 1 ->
  (- notional <= PdEngine.pdPnl notional entryP currentP side
   /\ PdEngine.pdPnl notional entryP currentP side <= notional
   /\ marginAmount - notional
      <= PdEngine.computeEquity marginAmount
           (PdEngine.pdPnl notional entryP currentP side))
  /\ (- notional <= Streamlit.pd_pnl notional entryP currentP side
      /\ Streamlit.pd_pnl notional entryP currentP side <= notional
      /\ marginAmount - notional
         <= Streamlit.compute_equity marginAmount
              (Streamlit.pd_pnl notional entryP currentP side)).
Proof.
  intros Hn [He0 He1] [Hc0 Hc1].
  unfold PdEngine.pdPnl, PdEngine.computeEquity, Streamlit.pd_pnl,
    Streamlit.compute_equity.
  destruct side; repeat split; nra.
Qed.

(** X5 on the second worked example, settled at outcome 1. *)
Lemma pnl_bounded_by_notional_witness :
  0 <= 500000
  /\ (0 <= 0.41 /\ 0.41 <= 1)
  /\ (0 <= 1 /\ 1 <= 1)
  /\ - (500000) <= PdEngine.pdPnl 500000 0.41 1 SHORT
  /\ 50000 - 500000
     <= PdEngine.computeEquity 50000 (PdEngine.pdPnl 500000 0.41 1 SHORT).
Proof.
  assert (Hn : 0 <= 500000) by (by vm_compute).
  assert (He : 0 <= 0.41 /\ 0.41 <= 1) by (split; by vm_compute).
  assert (Hc : 0 <= 1 /\ 1 <= 1) by (split; by vm_compute).
  destruct (pnl_bounded_by_notional 500000 0.41 1 50000 SHORT Hn He Hc)
    as ((Hlow & _ & Hequity) & _).
  by repeat split.
Defined.

(** ** The clamp of the manual probability *)

(** X7.  "Apply and recompute P&L" passes the number the field holds
    through [Math.min(1, Math.max(0, .))] and writes the result to the
    markets with the admin market's id; the other markets are not
    touched.  A number is clamped to [0,1]: itself inside the range, 0
    below it, 1 above it, infinities included.  NaN is not clamped: it
    is written to the market as it is. *)
Theorem manual_probability_is_clamped (s : App64.State)
    (am : PdEngine64.Market.t) (j : nat) (m : PdEngine64.Market.t) :
  App64.adminMarket s = Some am ->
  App64.markets s !! j = Some m ->
  exists m',
    App64.markets (App64.handleManualProbApply s) !! j = Some m'
    /\ (PdEngine64.Market.id m <> PdEngine64.Market.id am -> m' = m)
    /\ (PdEngine64.Market.id m = PdEngine64.Market.id am ->
        m' = App64.withCurrentP m (PdEngine64.Market.currentP m')
        /\ (is_nan (App64.manualProb s) = true ->
            PdEngine64.Market.currentP m' = nan)
        /\ (is_nan (App64.manualProb s) = false ->
            (0 <=? PdEngine64.Market.currentP m')%float = true
            /\ (PdEngine64.Market.currentP m' <=? 1)%float = true)
        /\ ((0 <=? App64.manualProb s)%float = true ->
            (App64.manualProb s <=? 1)%float = true ->
            (PdEngine64.Market.currentP m' =? App64.manualProb s)%float = true)
        /\ ((App64.manualProb s <=? 0)%float = true ->
            PdEngine64.Market.currentP m' = 0%float)
        /\ ((1 <=? App64.manualProb s)%float = true ->
            (PdEngine64.Market.currentP m' =? 1)%float = true)).
Proof.
  intros Ham Hj. unfold App64.handleManualProbApply. rewrite Ham. simpl.
  rewrite list_lookup_fmap, Hj. simpl. eexists. split; [done|].
  case_bool_decide as Hid; (split; [done|]); intros Hid'; [|done].
  simpl. split; [done|].
  destruct (clamp_values64 (App64.manualProb s)) as (Hin & Hlow & Hhigh).
  split; [apply clamp_nan|]. split; [apply clamp_in_range64|]. done.
Qed.

(** X7 with 1.7 in the field, and with NaN in it. *)
Lemma manual_probability_is_clamped_witness :
  let s := Samples64.app [Samples64.btc 0.5; Samples64.election 0.41] []
             "poly-1" "poly-1" 10 1.7 in
  let bad := Samples64.app [Samples64.btc 0.5; Samples64.election 0.41] []
               "poly-1" "poly-1" 10 nan in
  (App64.adminMarket s = Some (Samples64.btc 0.5)
   /\ (1 <=? App64.manualProb s)%float = true
   /\ exists m',
        App64.markets (App64.handleManualProbApply s) !! 0%nat = Some m'
        /\ (PdEngine64.Market.currentP m' =? 1)%float = true)
  /\ (is_nan (App64.manualProb bad) = true
      /\ exists m',
           App64.markets (App64.handleManualProbApply bad) !! 0%nat = Some m'
           /\ PdEngine64.Market.currentP m' = nan).
Proof.
  intros s bad. split.
  - destruct (manual_probability_is_clamped s (Samples64.btc 0.5) 0%nat
                (Samples64.btc 0.5) eq_refl eq_refl)
      as (m' & Hj & _ & Hadmin).
    destruct (Hadmin eq_refl) as (_ & _ & _ & _ & _ & Hhigh).
    split; [reflexivity|]. split; [reflexivity|].
    exists m'. split; [exact Hj|]. by apply Hhigh.
  - destruct (manual_probability_is_clamped bad (Samples64.btc 0.5) 0%nat
                (Samples64.btc 0.5) eq_refl eq_refl)
      as (m' & Hj & _ & Hadmin).
    destruct (Hadmin eq_refl) as (_ & Hnan & _).
    split; [reflexivity|]. exists m'. split; [exact Hj|]. by apply Hnan.
Defined.

(** ** The provider *)

Lemma indexById_snoc (raw : list PdEngine.RawMarket.t) (m : PdEngine.RawMarket.t) :
  App.indexById (raw ++ [m]) = <[PdEngine.RawMarket.id m := m]> (App.indexById raw).
Proof. unfold App.indexById. by rewrite foldl_app. Qed.

Lemma index_by_id_snoc (poly_markets : list Streamlit.RawMarket.t)
    (m : Streamlit.RawMarket.t) :
  Streamlit.index_by_id (poly_markets ++ [m])
  = <[Streamlit.RawMarket.id m := m]> (Streamlit.index_by_id poly_markets).
Proof. unfold Streamlit.index_by_id. by rewrite foldl_app. Qed.

Lemma indexById_last (raw : list PdEngine.RawMarket.t) (key : string) :
  App.indexById raw !! key
  = List.find (fun m => bool_decide (PdEngine.RawMarket.id m = key)) (reverse raw).
Proof.
  induction raw as [|m raw IH] using rev_ind; [done|].
  rewrite indexById_snoc, reverse_snoc. simpl.
  case_bool_decide as Hid.
  - by rewrite Hid, lookup_insert_eq.
  - by rewrite lookup_insert_ne.
Qed.

(** X9.  What the refresh finds under a provider id.  In [App] the read
    [byId[key]] yields the last candidate of the batch that carries the
    id (a later duplicate replaces an earlier one); when no candidate
    carries it, the read yields the member of [Object.prototype] that
    the id names, if it names one (["constructor"], ["toString"],
    ["__proto__"], ...), and [undefined] only otherwise.  The dict of
    the Streamlit application holds the last candidate with the id, and
    nothing when no candidate carries it. *)
Theorem index_by_id_last_wins (key : string) :
  (forall raw : list PdEngine.RawMarket.t,
      App.getMember (App.indexById raw) key
      = match List.find (fun m => bool_decide (PdEngine.RawMarket.id m = key))
                (reverse raw) with
        | Some m => Some (App.OwnEntry m)
        | None =>
          if bool_decide (key ∈ App.Object_prototype)
          then Some App.Inherited else None
        end)
  /\ (forall raw : list PdEngine.RawMarket.t,
      App.getMember (App.indexById raw) key = None
      <-> Forall (fun m => PdEngine.RawMarket.id m <> key) raw
          /\ key ∉ App.Object_prototype)
  /\ (forall poly_markets : list Streamlit.RawMarket.t,
      Streamlit.index_by_id poly_markets !! key
      = List.find (fun m => bool_decide (Streamlit.RawMarket.id m = key))
          (reverse poly_markets)).
Proof.
  split; [|split].
  - intros raw. unfold App.getMember. by rewrite indexById_last.
  - intros raw. unfold App.getMember. rewrite indexById_last.
    destruct (List.find _ (reverse raw)) as [m|] eqn:Hfind.
    + split; [done|]. intros [Hnone _]. exfalso.
      apply List.find_some in Hfind as [Hin Hid%bool_decide_eq_true_1].
      apply list_elem_of_In in Hin. rewrite elem_of_reverse in Hin.
      by apply (proj1 (Forall_forall _ _) Hnone) in Hin.
    + assert (Hall : Forall (fun m => PdEngine.RawMarket.id m <> key) raw).
      { apply Forall_forall. intros m Hin Hid.
        rewrite <- elem_of_reverse in Hin. apply list_elem_of_In in Hin.
        apply (List.find_none _ _ Hfind) in Hin.
        by rewrite bool_decide_eq_true_2 in Hin. }
      case_bool_decide as Hkey; split; try done.
      by intros [_ ?].
  - induction poly_markets as [|m poly_markets IH] using rev_ind; [done|].
    rewrite index_by_id_snoc, reverse_snoc. simpl.
    case_bool_decide as Hid.
    + by rewrite Hid, lookup_insert_eq.
    + by rewrite lookup_insert_ne.
Qed.

(** ** Recomputing twice *)

Lemma js_recompute_idempotent (ms : list PdEngine.Market.t) (pos : App.Position.t) :
  App.recompute ms (App.recompute ms pos) = App.recompute ms pos.
Proof.
  destruct (js_recompute_cases ms pos) as [Hsame | (m & Hm & Hopen & Heq)];
    [by rewrite !Hsame|].
  rewrite Heq.
  destruct (PdEngine.isLiquidation _ _) eqn:Hliq;
    [by apply js_recompute_not_open|].
  unfold App.recompute. simpl. rewrite Hm. simpl. by rewrite Hliq.
Qed.

Lemma py_update_position_idempotent (market_id : string) (current_p : Q)
    (pos : Streamlit.Position.t) :
  Streamlit.update_position market_id current_p
    (Streamlit.update_position market_id current_p pos)
  = Streamlit.update_position market_id current_p pos.
Proof.
  destruct (decide (Streamlit.Position.status pos = OPEN)) as [Hopen|Hclosed];
    [|by rewrite !(py_update_position_skip _ _ pos) by by left].
  destruct (decide (Streamlit.Position.market_id pos = market_id)) as [Hmid|Hmid];
    [|by rewrite !(py_update_position_skip _ _ pos) by by right].
  rewrite (py_update_position_open market_id current_p pos Hmid Hopen).
  destruct (Streamlit.is_liquidation _ _) eqn:Hliq;
    [by apply py_update_position_skip; left|].
  unfold Streamlit.update_position. simpl.
  rewrite (bool_decide_eq_true_2 _ Hmid). simpl. by rewrite Hliq.
Qed.

(** X10.  Recomputing is idempotent: at unchanged markets, a second
    pass of the recompute effect of [App] over the positions, and a
    second call of [update_positions_for_market] for the same market,
    change nothing. *)
Theorem recompute_twice_is_once :
  (forall (ms : list PdEngine.Market.t) (positions : list App.Position.t),
      App.recompute ms <$> (App.recompute ms <$> positions)
      = App.recompute ms <$> positions)
  /\ (forall (market_id : string) (st st' : Streamlit.State),
      Streamlit.update_positions_for_market market_id st = Some st' ->
      Streamlit.update_positions_for_market market_id st' = Some st').
Proof.
  split.
  - intros ms positions. rewrite <- list_fmap_compose.
    apply list_fmap_ext. intros i pos _. simpl. apply js_recompute_idempotent.
  - intros market_id st st' Hupdate.
    unfold Streamlit.update_positions_for_market in *.
    destruct (Streamlit.markets st !! market_id) as [m|] eqn:Hm; [|done].
    simpl in Hupdate. injection Hupdate as <-. simpl. rewrite Hm. simpl.
    f_equal. f_equal. rewrite <- list_fmap_compose.
    apply list_fmap_ext. intros i pos _. simpl. apply py_update_position_idempotent.
Qed.

(** X10 on the first worked example at 0.40. *)
Lemma recompute_twice_is_once_witness :
  let st := Samples.session Samples.pyElection [Samples.pyLongBtc OPEN] in
  exists st',
    Streamlit.update_positions_for_market "1" st = Some st'
    /\ Streamlit.update_positions_for_market "1" st' = Some st'.
Proof.
  intros st.
  destruct recompute_twice_is_once as [_ Hpy].
  destruct (Streamlit.update_positions_for_market "1" st) as [st'|] eqn:Hupdate;
    [|by vm_compute in Hupdate].
  exists st'. split; [done|]. by apply (Hpy "1"%string st).
Defined.

(** ** A successful refresh *)

Lemma adminMarket64_find (s : App64.State) (am : PdEngine64.Market.t) :
  App64.adminMarket s = Some am ->
  List.find (fun mm => bool_decide (PdEngine64.Market.id mm = PdEngine64.Market.id am))
    (App64.markets s) = Some am.
Proof.
  unfold App64.adminMarket. intros Ham.
  destruct (App64.adminMarketId s) as [a|]; [|done].
  by rewrite (findMarket64_id _ _ _ Ham).
Qed.

(** X11.  When the refresh finds a candidate of the provider's answer
    under the admin market's provider id, the market takes the
    candidate's first price as [Number] converts it (no clamp to [0,1];
    NaN when it is not numeric), with the candidate's question and
    description, and keeps its id, source, status and outcome; the other
    markets are not touched; the manual-probability field holds the
    new price; and every OPEN position on the market is marked at that
    price by the effect that follows, and liquidated exactly when the
    source's comparison [equity <= 0.05 * imAmount] holds of its new
    equity. *)
Theorem refresh_reprices_positions
    (JSON_parse : string -> option json) (Number : json -> float)
    (res : PdEngine.HttpResult) (s : App64.State) (am : PdEngine64.Market.t)
    (raw : list PdEngine.RawMarket.t) (pm : PdEngine.RawMarket.t) :
  App64.adminMarket s = Some am ->
  PdEngine64.Market.source am = "polymarket"%string ->
  PdEngine.fetchPolymarketMarkets JSON_parse 50 res = Resolved raw ->
  App.indexById raw !! PdEngine64.Market.polyId am = Some pm ->
  let price := PdEngine64.yesPrice JSON_parse Number pm in
  let s' := App64.recomputeEffect
              (App64.handleRefreshFromPolymarket JSON_parse Number res s) in
  App64.manualProb s' = price
  /\ (forall (j : nat) (m : PdEngine64.Market.t),
      App64.markets s !! j = Some m ->
      exists m',
        App64.markets s' !! j = Some m'
        /\ (PdEngine64.Market.id m <> PdEngine64.Market.id am -> m' = m)
        /\ (PdEngine64.Market.id m = PdEngine64.Market.id am ->
            PdEngine64.Market.currentP m' = price
            /\ PdEngine64.Market.question m' = Some (PdEngine.RawMarket.question pm)
            /\ PdEngine64.Market.description m'
               = default EmptyString (PdEngine.RawMarket.description pm)
            /\ PdEngine64.Market.id m' = PdEngine64.Market.id m
            /\ PdEngine64.Market.source m' = PdEngine64.Market.source m
            /\ PdEngine64.Market.status m' = PdEngine64.Market.status m
            /\ PdEngine64.Market.outcome m' = PdEngine64.Market.outcome m))
  /\ (forall (i : nat) (pos : App64.Position.t),
      App64.positions s !! i = Some pos ->
      App64.Position.marketId pos = PdEngine64.Market.id am ->
      App64.Position.status pos = OPEN ->
      exists pos',
        App64.positions s' !! i = Some pos'
        /\ App64.Position.currentP pos' = price
        /\ App64.Position.equity pos'
           = (App64.Position.imAmount pos
              + PdEngine64.pdPnl (App64.Position.notional pos)
                  (App64.Position.entryP pos) price (App64.Position.side pos))%float
        /\ (App64.Position.status pos' = LIQUIDATED
            <-> (App64.Position.equity pos' <=? 0.05 * App64.Position.imAmount pos)%float
                = true)
        /\ (App64.Position.status pos' = OPEN
            <-> (App64.Position.equity pos' <=? 0.05 * App64.Position.imAmount pos)%float
                = false)).
Proof.
  intros Ham Hsource Hfetch Hpm price s'.
  set (mapped := PdEngine64.polymarketToBube JSON_parse Number pm).
  set (quoted := fun m : PdEngine64.Market.t =>
         if bool_decide (PdEngine64.Market.id m = PdEngine64.Market.id am)
         then App64.withQuote m mapped else m).
  assert (Hhandle :
    App64.handleRefreshFromPolymarket JSON_parse Number res s
    = App64.setManualProb price (App64.setMarkets (fun prev => quoted <$> prev) s)).
  { unfold App64.handleRefreshFromPolymarket, App64.refreshResolved, App.getMember.
    rewrite Ham, Hsource, Hfetch, Hpm. by rewrite bool_decide_eq_true_2. }
  pose proof (adminMarket64_find s am Ham) as Hfind.
  assert (Hms : App64.markets s' = quoted <$> App64.markets s).
  { subst s'. rewrite js64_recomputeEffect_markets. by rewrite Hhandle. }
  assert (Hps : App64.positions s'
                = App64.recompute (quoted <$> App64.markets s) <$> App64.positions s).
  { subst s'. rewrite Hhandle. unfold App64.recomputeEffect. simpl.
    destruct (App64.markets s) as [|m0 ms] eqn:Hmarkets; [done|]. done. }
  split; [|split].
  - subst s'. rewrite Hhandle.
    unfold App64.recomputeEffect. simpl. by destruct (quoted <$> App64.markets s).
  - intros j m Hj. rewrite Hms, list_lookup_fmap, Hj. simpl.
    eexists. split; [done|]. subst quoted. simpl.
    case_bool_decide as Hid; by split.
  - intros i pos Hi Hmid Hopen. rewrite Hps, list_lookup_fmap, Hi. simpl.
    eexists. split; [done|].
    assert (Hquoted :
      List.find (fun mm => bool_decide (PdEngine64.Market.id mm
                                        = App64.Position.marketId pos))
        (quoted <$> App64.markets s) = Some (App64.withQuote am mapped)).
    { rewrite find64_fmap_id
        by (intros m; subst quoted; simpl; by destruct (bool_decide _)).
      rewrite Hmid, Hfind. simpl. subst quoted. simpl.
      by rewrite bool_decide_eq_true_2. }
    by destruct (js64_recompute_liquidation _ _ pos Hquoted Hopen) as (? & ? & ? & ?).
Qed.

(** X11 with the first market quoted at 0.62 by the provider, and with
    a first price that is not numeric. *)
Lemma refresh_reprices_positions_witness :
  let s := Samples64.app [Samples64.btc 0.5; Samples64.election 0.41]
             [Samples64.onBtc LONG 1000000 10 0.5] "poly-1" "poly-1" 10 0.5 in
  let res := PdEngine.HttpResponse true 200 (Resolved [Samples.candidate]) in
  let s' := App64.recomputeEffect
              (App64.handleRefreshFromPolymarket Samples.JSON_parse Samples64.Number
                 res s) in
  let words := PdEngine.HttpResponse true 200 (Resolved [Samples64.wordPrices]) in
  let t' := App64.recomputeEffect
              (App64.handleRefreshFromPolymarket Samples.JSON_parse Samples64.Number
                 words s) in
  App64.adminMarket s = Some (Samples64.btc 0.5)
  /\ PdEngine.fetchPolymarketMarkets Samples.JSON_parse 50 res
     = Resolved [Samples.candidate]
  /\ App.indexById [Samples.candidate] !! "1"%string = Some Samples.candidate
  /\ App64.manualProb s' = 0.62%float
  /\ (exists pos',
         App64.positions s' !! 0%nat = Some pos'
         /\ App64.Position.currentP pos' = 0.62%float
         /\ App64.Position.equity pos' = 220000%float
         /\ App64.Position.status pos' = OPEN)
  /\ is_nan (App64.manualProb t') = true
  /\ exists pos',
       App64.positions t' !! 0%nat = Some pos'
       /\ is_nan (App64.Position.equity pos') = true
       /\ App64.Position.status pos' = OPEN.
Proof.
  intros s res s' words t'.
  assert (Hfetch : PdEngine.fetchPolymarketMarkets Samples.JSON_parse 50 res
                   = Resolved [Samples.candidate]) by (by vm_compute).
  assert (Hpm : App.indexById [Samples.candidate] !! "1"%string = Some Samples.candidate)
    by (by vm_compute).
  destruct (refresh_reprices_positions Samples.JSON_parse Samples64.Number res s
              (Samples64.btc 0.5) [Samples.candidate] Samples.candidate
              eq_refl eq_refl Hfetch Hpm) as (Hprob & _ & Hpos).
  destruct (Hpos 0%nat (Samples64.onBtc LONG 1000000 10 0.5) eq_refl eq_refl eq_refl)
    as (pos' & Hi & Hcur & Heq & _ & Hopen).
  assert (Hwords : PdEngine.fetchPolymarketMarkets Samples.JSON_parse 50 words
                   = Resolved [Samples64.wordPrices]) by (by vm_compute).
  assert (Hpm' : App.indexById [Samples64.wordPrices] !! "1"%string
                 = Some Samples64.wordPrices) by (by vm_compute).
  destruct (refresh_reprices_positions Samples.JSON_parse Samples64.Number words s
              (Samples64.btc 0.5) [Samples64.wordPrices] Samples64.wordPrices
              eq_refl eq_refl Hwords Hpm') as (Hprob' & _ & Hpos').
  destruct (Hpos' 0%nat (Samples64.onBtc LONG 1000000 10 0.5) eq_refl eq_refl eq_refl)
    as (pos'' & Hi' & Hcur' & Heq' & _ & Hopen').
  split; [reflexivity|]. split; [exact Hfetch|]. split; [exact Hpm|].
  split; [exact Hprob|]. split.
  - exists pos'. split; [exact Hi|]. split; [exact Hcur|].
    split; [rewrite Heq; reflexivity|]. apply Hopen. rewrite Heq. reflexivity.
  - split; [unfold t'; rewrite Hprob'; reflexivity|].
    exists pos''. split; [exact Hi'|]. split; [rewrite Heq'; reflexivity|].
    apply Hopen'. rewrite Heq'. reflexivity.
Defined.

(** ** Loading the markets on mount *)

Lemma fetchPolymarketMarkets_resolved (JSON_parse : string -> option json)
    (maxMarkets : nat) (res : PdEngine.HttpResult) (raw : list PdEngine.RawMarket.t) :
  PdEngine.fetchPolymarketMarkets JSON_parse maxMarkets res = Resolved raw ->
  exists status data,
    res = PdEngine.HttpResponse true status (Resolved data)
    /\ raw = take (Nat.max 1 maxMarkets) (List.filter (Ledger.accepted JSON_parse) data).
Proof.
  destruct res as [reason|[|] status [data|reason]]; simpl; try done.
  intros [= <-]. exists status, data. split; [done|].
  rewrite selectMarkets_take_filter by (simpl; lia). simpl. by rewrite Nat.sub_0_r.
Qed.

(** X12.  The mount effect.  If the fetch fails, nothing of the state
    changes and the error message is shown.  If it succeeds, the markets
    are replaced by the normalized candidates, at most 15 of them, all
    OPEN, without outcome and with source ["polymarket"]; the first of
    them becomes both the selected and the admin market and its
    probability fills the manual-probability field; no error is shown.
    Started without positions, the component is then in a consistent
    state. *)
Theorem mount_loads_markets
    (JSON_parse : string -> option json) (Number : json -> Q)
    (res : PdEngine.HttpResult) (s : App.State) :
  (forall reason,
      PdEngine.fetchPolymarketMarkets JSON_parse 15 res = Rejected reason ->
      View.load JSON_parse Number res s = (s, View.loadError))
  /\ (forall raw,
      PdEngine.fetchPolymarketMarkets JSON_parse 15 res = Resolved raw ->
      let s' := (View.mount JSON_parse Number res s).1 in
      (View.mount JSON_parse Number res s).2 = EmptyString
      /\ App.markets s' = PdEngine.polymarketToBube JSON_parse Number <$> raw
      /\ (length (App.markets s') <= 15)%nat
      /\ Forall (fun m => PdEngine.Market.status m = OPEN
                          /\ PdEngine.Market.outcome m = None
                          /\ PdEngine.Market.source m = "polymarket"%string)
           (App.markets s')
      /\ (forall first rest,
          raw = first :: rest ->
          App.selectedMarket s' = Some (PdEngine.polymarketToBube JSON_parse Number first)
          /\ App.adminMarket s' = Some (PdEngine.polymarketToBube JSON_parse Number first)
          /\ App.manualProb s' = PdEngine.yesPrice JSON_parse Number first)
      /\ (App.positions s = [] -> App.positions s' = [] /\ Ledger.consistent s')).
Proof.
  split.
  - intros reason Hfetch. unfold View.load. by rewrite Hfetch.
  - intros raw Hfetch s'. subst s'. unfold View.mount, View.load. rewrite Hfetch.
    simpl.
    set (mapped := PdEngine.polymarketToBube JSON_parse Number <$> raw).
    assert (Hmarkets : forall s1, App.markets s1 = mapped ->
              App.markets (App.recomputeEffect s1) = mapped).
    { intros s1 <-. apply js_recomputeEffect_markets. }
    split; [done|].
    assert (Hms : App.markets (App.recomputeEffect
              match mapped with
              | [] => App.setMarkets (fun _ => mapped) s
              | first :: _ =>
                App.setManualProb (PdEngine.Market.currentP first)
                  (App.setAdminMarketId (Some (PdEngine.Market.id first))
                     (App.setSelectedMarketId (Some (PdEngine.Market.id first))
                        (App.setMarkets (fun _ => mapped) s)))
              end) = mapped).
    { apply Hmarkets. by destruct mapped. }
    split; [exact Hms|]. rewrite Hms. split; [|split; [|split]].
    + subst mapped. rewrite length_fmap.
      destruct (fetchPolymarketMarkets_resolved _ _ _ _ Hfetch) as (? & data & _ & ->).
      rewrite length_take. apply Nat.le_min_l.
    + subst mapped. apply Forall_fmap. by apply Forall_true.
    + intros first rest ->. subst mapped. simpl.
      unfold App.recomputeEffect, App.selectedMarket, App.adminMarket. simpl.
      by rewrite bool_decide_eq_true_2.
    + intros Hempty.
      assert (Hpositions : App.positions (App.recomputeEffect
                match mapped with
                | [] => App.setMarkets (fun _ => mapped) s
                | first :: _ =>
                  App.setManualProb (PdEngine.Market.currentP first)
                    (App.setAdminMarketId (Some (PdEngine.Market.id first))
                       (App.setSelectedMarketId (Some (PdEngine.Market.id first))
                          (App.setMarkets (fun _ => mapped) s)))
                end) = []).
      { destruct mapped; unfold App.recomputeEffect; simpl; by rewrite Hempty. }
      split; [exact Hpositions|]. apply consistent_initial; [exact Hpositions|].
      by destruct mapped.
Qed.

(** X12 on a batch of three candidates, of which two are accepted. *)
Lemma mount_loads_markets_witness :
  let s := Samples.app [] [] "none" "none" 10 0.5 1 in
  let res := PdEngine.HttpResponse true 200
               (Resolved [Samples.candidate; Samples.badPrices; Samples.badOutcomes]) in
  let s' := (View.mount Samples.JSON_parse Samples.Number res s).1 in
  PdEngine.fetchPolymarketMarkets Samples.JSON_parse 15 res
  = Resolved [Samples.candidate; Samples.badPrices]
  /\ App.positions s = []
  /\ length (App.markets s') = 2%nat
  /\ App.selectedMarketId s' = Some "poly-1"%string
  /\ App.manualProb s' = 0.62
  /\ Ledger.consistent s'.
Proof.
  intros s res s'.
  assert (Hfetch : PdEngine.fetchPolymarketMarkets Samples.JSON_parse 15 res
                   = Resolved [Samples.candidate; Samples.badPrices]) by (by vm_compute).
  destruct (mount_loads_markets Samples.JSON_parse Samples.Number res s) as [_ Hok].
  destruct (Hok _ Hfetch) as (_ & Hms & _ & _ & Hfirst & Hcons).
  destruct (Hfirst _ _ eq_refl) as (_ & _ & Hprob).
  subst s'.
  split; [exact Hfetch|]. split; [reflexivity|]. split; [by rewrite Hms|].
  split; [reflexivity|]. split; [exact Hprob|]. by apply Hcons.
Defined.

(** ** The Streamlit fetch *)

Section SessionFetch.

Variable json_loads : string -> option json.
Variable str_len : string -> nat.

(** One turn of the loop with the default flags. *)
Lemma select_markets_cons (max_markets : Z) (m : Session.Candidate.t)
    (rest selected : list Session.Candidate.t) :
  Session.select_markets json_loads str_len max_markets true true (m :: rest) selected =
  match Invariants.failure json_loads m with
  | Some e => Streamlit.Raise e
  | None =>
    if Invariants.accepted json_loads str_len m
    then if bool_decide (max_markets <= Z.of_nat (length (selected ++ [m])))%Z
         then Streamlit.Return (selected ++ [m])
         else Session.select_markets json_loads str_len max_markets true true rest
                (selected ++ [m])
    else Session.select_markets json_loads str_len max_markets true true rest selected
  end.
Proof.
  simpl. unfold Invariants.failure, Invariants.accepted, Session.outcomes_of.
  destruct (Session.Candidate.is_dict m); simpl; [|done].
  destruct (Session.Candidate.active m), (Session.Candidate.closed m); simpl; try done.
  destruct (Session.Candidate.outcomes m) as [|text|]; [| |done].
  - destruct (json_loads _) as [outs|]; [|done].
    destruct outs as [| | | | |]; simpl; try done;
      by destruct (bool_decide _).
  - destruct (json_loads _) as [outs|]; [|done].
    destruct outs as [| | | | |]; simpl; try done;
      by destruct (bool_decide _).
Qed.

Lemma select_markets_take_filter (max_markets : Z)
    (data selected : list Session.Candidate.t) :
  Forall (fun m => Invariants.failure json_loads m = None) data ->
  (length selected < Z.to_nat (Z.max 1 max_markets))%nat ->
  Session.select_markets json_loads str_len max_markets true true data selected
  = Streamlit.Return
      (selected ++ take (Z.to_nat (Z.max 1 max_markets) - length selected)
                        (List.filter (Invariants.accepted json_loads str_len) data)).
Proof.
  revert selected. induction data as [|m rest IH]; intros selected Hsized Hlen.
  - simpl. by rewrite take_nil, app_nil_r.
  - apply Forall_cons in Hsized as [Hm Hsized].
    rewrite select_markets_cons, Hm. simpl.
    destruct (Invariants.accepted json_loads str_len m); [|by apply IH].
    rewrite length_app. simpl.
    destruct (Z.to_nat (Z.max 1 max_markets) - length selected)%nat as [|k] eqn:Hk;
      [lia|].
    simpl. case_bool_decide as Hcap.
    + replace k with 0%nat by lia. by rewrite take_0.
    + rewrite IH by (try done; rewrite length_app; simpl; lia).
      rewrite length_app. simpl. rewrite <- app_assoc. simpl.
      do 4 f_equal. lia.
Qed.

Lemma select_markets_raises (max_markets : Z)
    (before : list Session.Candidate.t) (m : Session.Candidate.t)
    (rest selected : list Session.Candidate.t) (e : Streamlit.Exc) :
  Forall (fun m => Invariants.failure json_loads m = None) before ->
  (length selected
   + length (List.filter (Invariants.accepted json_loads str_len) before)
   < Z.to_nat (Z.max 1 max_markets))%nat ->
  Invariants.failure json_loads m = Some e ->
  Session.select_markets json_loads str_len max_markets true true
    (before ++ m :: rest) selected
  = Streamlit.Raise e.
Proof.
  revert selected. induction before as [|b before IH]; intros selected Hsized Hlen Hm.
  - simpl app. by rewrite select_markets_cons, Hm.
  - apply Forall_cons in Hsized as [Hb Hsized].
    simpl app. rewrite select_markets_cons, Hb. simpl in Hlen.
    destruct (Invariants.accepted json_loads str_len b).
    + simpl in Hlen. rewrite bool_decide_eq_false_2
        by (rewrite length_app; simpl; lia).
      apply IH; try done. rewrite length_app. simpl. lia.
    + by apply IH.
Qed.

(** Once the cap is reached the loop is left: what follows is not
    looked at. *)
Lemma select_markets_capped (max_markets : Z)
    (before rest selected : list Session.Candidate.t) :
  Forall (fun m => Invariants.failure json_loads m = None) before ->
  (length selected < Z.to_nat (Z.max 1 max_markets))%nat ->
  (Z.to_nat (Z.max 1 max_markets)
   <= length selected
      + length (List.filter (Invariants.accepted json_loads str_len) before))%nat ->
  Session.select_markets json_loads str_len max_markets true true
    (before ++ rest) selected
  = Streamlit.Return
      (selected ++ take (Z.to_nat (Z.max 1 max_markets) - length selected)
                        (List.filter (Invariants.accepted json_loads str_len) before)).
Proof.
  revert selected. induction before as [|b before IH]; intros selected Hsized Hlen Hcap.
  - simpl in Hcap. lia.
  - apply Forall_cons in Hsized as [Hb Hsized].
    simpl app. rewrite select_markets_cons, Hb. simpl in Hcap |- *.
    destruct (Invariants.accepted json_loads str_len b).
    + simpl in Hcap. rewrite length_app. simpl.
      destruct (Z.to_nat (Z.max 1 max_markets) - length selected)%nat as [|k] eqn:Hk;
        [lia|].
      simpl. case_bool_decide as Hfull.
      * replace k with 0%nat by lia. by rewrite take_0.
      * rewrite IH by (try done; rewrite length_app; simpl; lia).
        rewrite length_app. simpl. rewrite <- app_assoc. simpl.
        do 4 f_equal. lia.
    + by apply IH.
Qed.

Lemma select_markets_unfiltered (max_markets : Z)
    (data selected : list Session.Candidate.t) :
  (length selected < Z.to_nat (Z.max 1 max_markets))%nat ->
  Session.select_markets json_loads str_len max_markets false false data selected
  = Streamlit.Return
      (selected ++ take (Z.to_nat (Z.max 1 max_markets) - length selected) data).
Proof.
  revert selected. induction data as [|m rest IH]; intros selected Hlen.
  - simpl. by rewrite take_nil, app_nil_r.
  - simpl. rewrite length_app. simpl.
    destruct (Z.to_nat (Z.max 1 max_markets) - length selected)%nat as [|k] eqn:Hk;
      [lia|].
    simpl. case_bool_decide as Hcap.
    + replace k with 0%nat by lia. by rewrite take_0.
    + rewrite IH by (rewrite length_app; simpl; lia).
      rewrite length_app. simpl. rewrite <- app_assoc. simpl.
      do 4 f_equal. lia.
Qed.

End SessionFetch.

(** X13.  [fetch_polymarket_markets] of the Streamlit application, on
    the list the body of the response is iterated as.  An exception of
    the transport is passed on.  With the default flags the loop raises
    at an item that is not a dict ([AttributeError]) and at an active,
    open dict whose [outcomes] are not a string or decode to a number, a
    boolean or null ([TypeError]).  If no item of the list is of that
    kind, the result is the list of the dicts that are active, not
    closed and whose [outcomes] decode to a value of length 2, in order,
    cut after [max(1, max_markets)] of them (the cap is tested after the
    append, so at least one is kept).  The same holds of the items in
    front of one that raises when they fill the cap, since the loop is
    left there; otherwise the whole call raises the exception of the
    first such item.  With both flags off nothing is read of an item and
    nothing is filtered. *)
Theorem streamlit_fetch_selection
    (json_loads : string -> option json) (str_len : string -> nat) (max_markets : Z) :
  (forall e flag1 flag2,
      Session.fetch_polymarket_markets json_loads str_len max_markets flag1 flag2
        (Streamlit.Raise e) = Streamlit.Raise e)
  /\ (forall data,
      Forall (fun m => Invariants.failure json_loads m = None) data ->
      Session.fetch_polymarket_markets json_loads str_len max_markets true true
        (Streamlit.Return data)
      = Streamlit.Return
          (take (Z.to_nat (Z.max 1 max_markets))
             (List.filter (Invariants.accepted json_loads str_len) data)))
  /\ (forall before m rest e,
      Forall (fun m => Invariants.failure json_loads m = None) before ->
      (length (List.filter (Invariants.accepted json_loads str_len) before)
       < Z.to_nat (Z.max 1 max_markets))%nat ->
      Invariants.failure json_loads m = Some e ->
      Session.fetch_polymarket_markets json_loads str_len max_markets true true
        (Streamlit.Return (before ++ m :: rest))
      = Streamlit.Raise e)
  /\ (forall before rest,
      Forall (fun m => Invariants.failure json_loads m = None) before ->
      (Z.to_nat (Z.max 1 max_markets)
       <= length (List.filter (Invariants.accepted json_loads str_len) before))%nat ->
      Session.fetch_polymarket_markets json_loads str_len max_markets true true
        (Streamlit.Return (before ++ rest))
      = Streamlit.Return
          (take (Z.to_nat (Z.max 1 max_markets))
             (List.filter (Invariants.accepted json_loads str_len) before)))
  /\ (forall m,
      Invariants.failure json_loads m
      = if negb (Session.Candidate.is_dict m) then Some Streamlit.AttributeError
        else if negb (Session.Candidate.active m) || Session.Candidate.closed m
        then None
        else match Session.Candidate.outcomes m with
             | Session.NotText => Some Streamlit.TypeError
             | Session.Absent =>
               match json_loads "[]" with
               | Some (JNull | JBool _ | JNum _) => Some Streamlit.TypeError
               | _ => None
               end
             | Session.Text text =>
               match json_loads text with
               | Some (JNull | JBool _ | JNum _) => Some Streamlit.TypeError
               | _ => None
               end
             end)
  /\ (forall data,
      Session.fetch_polymarket_markets json_loads str_len max_markets false false
        (Streamlit.Return data)
      = Streamlit.Return (take (Z.to_nat (Z.max 1 max_markets)) data)).
Proof.
  split; [done|]. split; [|split; [|split; [|split]]].
  - intros data Hsized. simpl.
    rewrite select_markets_take_filter by (try done; simpl; lia).
    simpl. by rewrite Nat.sub_0_r.
  - intros before m rest e Hsized Hlen Hm. simpl.
    by apply select_markets_raises.
  - intros before rest Hsized Hcap. simpl.
    rewrite select_markets_capped by (try done; simpl; lia).
    simpl. by rewrite Nat.sub_0_r.
  - intros m. unfold Invariants.failure, Session.outcomes_of.
    destruct (Session.Candidate.is_dict m); simpl; [|done].
    destruct (negb _ || _); [done|].
    by destruct (Session.Candidate.outcomes m).
  - intros data. simpl.
    rewrite select_markets_unfiltered by (simpl; lia).
    simpl. by rewrite Nat.sub_0_r.
Qed.

(** X13 on a binary and a closed candidate, followed by a candidate
    whose [outcomes] are the number 5, by one whose [outcomes] are
    [null], and by an item that is [null]; and on the same with a cap of
    1, which the first candidate fills. *)
Lemma streamlit_fetch_selection_witness :
  (Forall (fun m => Invariants.failure Examples.json_loads m = None)
     [Examples.binary; Examples.closedOne]
   /\ Session.fetch_polymarket_markets Examples.json_loads String.length 10 true true
        (Streamlit.Return [Examples.binary; Examples.closedOne])
      = Streamlit.Return [Examples.binary])
  /\ (Invariants.failure Examples.json_loads Examples.numeric
      = Some Streamlit.TypeError
      /\ Session.fetch_polymarket_markets Examples.json_loads String.length 10 true true
           (Streamlit.Return [Examples.binary; Examples.closedOne; Examples.numeric])
         = Streamlit.Raise Streamlit.TypeError)
  /\ (Invariants.failure Examples.json_loads Examples.nullOutcomes
      = Some Streamlit.TypeError
      /\ Session.fetch_polymarket_markets Examples.json_loads String.length 10 true true
           (Streamlit.Return
              [Examples.binary; Examples.closedOne; Examples.nullOutcomes])
         = Streamlit.Raise Streamlit.TypeError)
  /\ (Invariants.failure Examples.json_loads Examples.notDict
      = Some Streamlit.AttributeError
      /\ Session.fetch_polymarket_markets Examples.json_loads String.length 10 true true
           (Streamlit.Return [Examples.binary; Examples.closedOne; Examples.notDict])
         = Streamlit.Raise Streamlit.AttributeError)
  /\ Session.fetch_polymarket_markets Examples.json_loads String.length 1 true true
       (Streamlit.Return [Examples.binary; Examples.closedOne; Examples.notDict])
     = Streamlit.Return [Examples.binary].
Proof.
  destruct (streamlit_fetch_selection Examples.json_loads String.length 10)
    as (_ & Hsized & Hraise & _).
  destruct (streamlit_fetch_selection Examples.json_loads String.length 1)
    as (_ & _ & _ & Hcapped & _).
  assert (Hok : Forall (fun m => Invariants.failure Examples.json_loads m = None)
                  [Examples.binary; Examples.closedOne]).
  { constructor; [by vm_compute|]. constructor; [by vm_compute|constructor]. }
  assert (Hnum : Invariants.failure Examples.json_loads Examples.numeric
                 = Some Streamlit.TypeError) by (by vm_compute).
  assert (Hnull : Invariants.failure Examples.json_loads Examples.nullOutcomes
                  = Some Streamlit.TypeError) by (by vm_compute).
  assert (Hitem : Invariants.failure Examples.json_loads Examples.notDict
                  = Some Streamlit.AttributeError) by (by vm_compute).
  assert (Hlen : (length (List.filter
                            (Invariants.accepted Examples.json_loads String.length)
                            [Examples.binary; Examples.closedOne])
                  < Z.to_nat (Z.max 1 10))%nat) by (vm_compute; lia).
  split; [|split; [|split; [|split]]].
  - split; [exact Hok|]. by rewrite (Hsized _ Hok).
  - split; [exact Hnum|].
    exact (Hraise [Examples.binary; Examples.closedOne] Examples.numeric [] _
             Hok Hlen Hnum).
  - split; [exact Hnull|].
    exact (Hraise [Examples.binary; Examples.closedOne] Examples.nullOutcomes [] _
             Hok Hlen Hnull).
  - split; [exact Hitem|].
    exact (Hraise [Examples.binary; Examples.closedOne] Examples.notDict [] _
             Hok Hlen Hitem).
  - change [Examples.binary; Examples.closedOne; Examples.notDict]
      with ([Examples.binary; Examples.closedOne] ++ [Examples.notDict]).
    rewrite (Hcapped [Examples.binary; Examples.closedOne] [Examples.notDict] Hok);
      [reflexivity|].
    vm_compute. lia.
Defined.

(** ** Normalizing a candidate in the Streamlit application *)



(** ** Seeding the session *)

Section SessionSeed.

Variable json_loads : string -> option json.
Variable float_of_str : string -> option Q.
Variable str_len : string -> nat.

Lemma seed_nonempty (poly_markets : list Session.Candidate.t)
    (markets : gmap string Streamlit.Market.t) :
  markets <> ∅ -> (Session.seed json_loads float_of_str poly_markets markets).1 <> ∅.
Proof.
  revert markets. induction poly_markets as [|pm rest IH]; intros markets Hne; [done|].
  simpl. destruct (Streamlit.polymarket_market_to_bube _ _ _) as [bm|e]; [|done].
  apply IH. apply insert_non_empty.
Qed.

Lemma seed_cons_nonempty (pm : Session.Candidate.t) (rest : list Session.Candidate.t)
    (markets : gmap string Streamlit.Market.t) (seeded : gmap string Streamlit.Market.t) :
  Session.seed json_loads float_of_str (pm :: rest) markets = (seeded, None) ->
  seeded <> ∅.
Proof.
  simpl. destruct (Streamlit.polymarket_market_to_bube _ _ _) as [bm|e]; [|done].
  intros Hseed.
  pose proof (seed_nonempty rest (<[Streamlit.Market.id bm := bm]> markets)
                (insert_non_empty _ _ _)) as Hne.
  by rewrite Hseed in Hne.
Qed.

Lemma seed_openNoOutcome (poly_markets : list Session.Candidate.t)
    (markets : gmap string Streamlit.Market.t) :
  map_Forall (fun _ m => Invariants.openNoOutcome m) markets ->
  map_Forall (fun _ m => Invariants.openNoOutcome m)
    (Session.seed json_loads float_of_str poly_markets markets).1.
Proof.
  revert markets. induction poly_markets as [|pm rest IH]; intros markets Hall; [done|].
  simpl.
  destruct (Streamlit.polymarket_market_to_bube _ _ _) as [bm|e] eqn:Hbm; [|done].
  apply IH. apply map_Forall_insert_2; [|done].
  unfold Streamlit.polymarket_market_to_bube in Hbm.
  destruct (Streamlit.p_yes_of _ _ _); [|done]. by injection Hbm as <-.
Qed.

Lemma fallback_openNoOutcome (id1 id2 : string)
    (markets : gmap string Streamlit.Market.t) :
  map_Forall (fun _ m => Invariants.openNoOutcome m) markets ->
  map_Forall (fun _ m => Invariants.openNoOutcome m) (Session.fallback id1 id2 markets).
Proof.
  intros Hall. unfold Session.fallback.
  apply map_Forall_insert_2; [done|]. by apply map_Forall_insert_2.
Qed.

End SessionSeed.

(** X15.  The market seeding of [init_state].  A session that already
    has markets is left alone.  Otherwise the session ends up with at
    least one market, every market OPEN and without outcome, and the
    positions as they were.  When the fetch raises or returns no
    candidate, the markets are exactly the two demo markets (quoted 0.62
    and 0.41) under the two fresh ids, and the warning is shown. *)
Theorem init_state_seeds_markets
    (json_loads : string -> option json) (float_of_str : string -> option Q)
    (str_len : string -> nat)
    (response : Streamlit.Try (list Session.Candidate.t)) (id1 id2 : string)
    (st : Streamlit.State) :
  let seeded := Session.init_state json_loads float_of_str str_len response id1 id2 st in
  (Streamlit.markets st <> ∅ -> seeded = (st, false))
  /\ Streamlit.markets seeded.1 <> ∅
  /\ Streamlit.positions seeded.1 = Streamlit.positions st
  /\ (Streamlit.markets st = ∅ ->
      map_Forall (fun _ m => Streamlit.Market.status m = OPEN
                             /\ Streamlit.Market.outcome m = None)
        (Streamlit.markets seeded.1))
  /\ (Streamlit.markets st = ∅ ->
      (forall poly_markets,
          Session.fetch_polymarket_markets json_loads str_len 10 true true response
          = Streamlit.Return poly_markets -> poly_markets = []) ->
      seeded.2 = true
      /\ Streamlit.markets seeded.1 !! id2 = Some (Session.m2 id2)
      /\ (id1 <> id2 -> Streamlit.markets seeded.1 !! id1 = Some (Session.m1 id1))
      /\ forall k, k <> id1 -> k <> id2 -> Streamlit.markets seeded.1 !! k = None).
Proof.
  intros seeded. subst seeded. unfold Session.init_state.
  case_bool_decide as Hempty; [|by repeat split].
  split; [done|].
  assert (Hdemo :
    Session.fallback id1 id2 (Streamlit.markets st) <> ∅
    /\ map_Forall (fun _ m => Invariants.openNoOutcome m)
         (Session.fallback id1 id2 (Streamlit.markets st))
    /\ Session.fallback id1 id2 (Streamlit.markets st) !! id2 = Some (Session.m2 id2)
    /\ (id1 <> id2 ->
        Session.fallback id1 id2 (Streamlit.markets st) !! id1 = Some (Session.m1 id1))
    /\ (forall k, k <> id1 -> k <> id2 ->
        Session.fallback id1 id2 (Streamlit.markets st) !! k = None)).
  { rewrite Hempty. unfold Session.fallback.
    split; [apply insert_non_empty|].
    split; [by apply (fallback_openNoOutcome id1 id2 ∅)|].
    split; [by rewrite lookup_insert_eq|].
    split; [intros Hne; by rewrite lookup_insert_ne, lookup_insert_eq|].
    intros k H1 H2. by rewrite !lookup_insert_ne. }
  destruct Hdemo as (Hne & Hall & Hid2 & Hid1 & Hother).
  destruct (Session.fetch_polymarket_markets _ _ _ _ _ _) as [[|pm rest]|e] eqn:Hfetch;
    cbn [fst snd Streamlit.markets Streamlit.positions].
  - split; [done|]. split; [done|]. split; [done|]. by intros _ _.
  - pose proof (seed_openNoOutcome json_loads float_of_str (pm :: rest)
                  (Streamlit.markets st)) as Hseeded.
    destruct (Session.seed _ _ _ _) as [markets [e|]] eqn:Hseed;
      cbn [fst snd Streamlit.markets Streamlit.positions] in *.
    + split; [unfold Session.fallback; apply insert_non_empty|].
      split; [done|]. split.
      * intros _. apply fallback_openNoOutcome. apply Hseeded.
        rewrite Hempty. apply map_Forall_empty.
      * intros _ Hnone. by specialize (Hnone _ eq_refl).
    + split; [by apply (seed_cons_nonempty json_loads float_of_str pm rest
                          (Streamlit.markets st))|].
      split; [done|]. split.
      * intros _. apply Hseeded. rewrite Hempty. apply map_Forall_empty.
      * intros _ Hnone. by specialize (Hnone _ eq_refl).
  - split; [done|]. split; [done|]. split; [done|]. by intros _ _.
Qed.

(** X15 on a fresh session whose fetch fails. *)
Lemma init_state_seeds_markets_witness :
  let seeded := Session.init_state Examples.json_loads Samples.float_of_str String.length
                  (Streamlit.Raise Streamlit.RequestException) "m1" "m2" Examples.fresh in
  Streamlit.markets Examples.fresh = ∅
  /\ "m1"%string <> "m2"%string
  /\ seeded.2 = true
  /\ Streamlit.markets seeded.1 !! "m1"%string = Some (Session.m1 "m1")
  /\ Streamlit.markets seeded.1 !! "m2"%string = Some (Session.m2 "m2")
  /\ Streamlit.markets seeded.1 !! "poly-1"%string = None.
Proof.
  intros seeded.
  destruct (init_state_seeds_markets Examples.json_loads Samples.float_of_str
              String.length (Streamlit.Raise Streamlit.RequestException) "m1" "m2"
              Examples.fresh) as (_ & _ & _ & _ & Hdemo).
  assert (Hne : "m1"%string <> "m2"%string) by done.
  destruct (Hdemo eq_refl) as (Hwarn & H2 & H1 & Hother); [by intros ? [=]|].
  split; [reflexivity|]. split; [exact Hne|]. split; [exact Hwarn|].
  split; [by apply H1|]. split; [exact H2|]. by apply Hother.
Defined.

(** ** The positions tab of the Streamlit application *)

Lemma py_update_position_market_id (market_id : string) (current_p : Q)
    (pos : Streamlit.Position.t) :
  Streamlit.Position.market_id (Streamlit.update_position market_id current_p pos)
  = Streamlit.Position.market_id pos.
Proof.
  unfold Streamlit.update_position.
  destruct (negb _); [done|]. destruct (negb _); [done|].
  by destruct (Streamlit.is_liquidation _ _).
Qed.

Lemma update_all_spec (market_ids : list string) (st : Streamlit.State) :
  NoDup market_ids ->
  Forall (fun k => is_Some (Streamlit.markets st !! k)) market_ids ->
  Session.update_all market_ids st =
  Some {| Streamlit.markets := Streamlit.markets st;
          Streamlit.positions :=
            (fun pos =>
               if bool_decide (Streamlit.Position.market_id pos ∈ market_ids)
               then Invariants.remark (Streamlit.markets st) pos else pos)
              <$> Streamlit.positions st |}.
Proof.
  revert st. induction market_ids as [|k rest IH]; intros st Hnodup Hdom.
  - simpl. destruct st as [markets positions]. simpl. f_equal. f_equal.
    rewrite <- (list_fmap_id positions) at 1. apply list_fmap_ext.
    by intros i pos _.
  - apply NoDup_cons in Hnodup as [Hk Hnodup].
    apply Forall_cons in Hdom as [[m Hm] Hdom].
    simpl. rewrite (py_update_positions_returns k st m Hm). simpl.
    rewrite IH by done. simpl. f_equal. f_equal.
    rewrite <- list_fmap_compose. apply list_fmap_ext. intros i pos _. simpl.
    rewrite py_update_position_market_id.
    destruct (decide (Streamlit.Position.market_id pos = k)) as [Hpos|Hpos].
    + rewrite bool_decide_eq_false_2 by (by rewrite Hpos).
      rewrite bool_decide_eq_true_2 by (rewrite Hpos; apply elem_of_cons; by left).
      unfold Invariants.remark. by rewrite Hpos, Hm.
    + rewrite (py_update_position_skip k _ pos) by (by right).
      destruct (decide (Streamlit.Position.market_id pos ∈ rest)) as [Hin|Hin].
      * rewrite !bool_decide_eq_true_2; [done| |done]. apply elem_of_cons. by right.
      * rewrite !bool_decide_eq_false_2; [done| |done].
        intros [?|?]%elem_of_cons; done.
Qed.

Lemma update_all_keys (market_ids : list string) (st : Streamlit.State) :
  market_ids ≡ₚ (map_to_list (Streamlit.markets st)).*1 ->
  Session.update_all market_ids st =
  Some {| Streamlit.markets := Streamlit.markets st;
          Streamlit.positions :=
            Invariants.remark (Streamlit.markets st) <$> Streamlit.positions st |}.
Proof.
  intros Hperm.
  assert (Hnodup : NoDup (map_to_list (Streamlit.markets st)).*1)
    by apply NoDup_fst_map_to_list.
  assert (Hdom : Forall (fun k => is_Some (Streamlit.markets st !! k))
                   (map_to_list (Streamlit.markets st)).*1).
  { apply Forall_forall. intros k Hk.
    apply list_elem_of_fmap in Hk as ([k' m] & -> & Hin).
    apply elem_of_map_to_list in Hin. by eexists. }
  rewrite update_all_spec; [|by rewrite Hperm|by rewrite Hperm].
  f_equal. f_equal. apply list_fmap_ext. intros i pos _. simpl.
  case_bool_decide as Hin; [done|].
  unfold Invariants.remark.
  destruct (Streamlit.markets st !! Streamlit.Position.market_id pos) as [m|] eqn:Hm;
    [|done].
  exfalso. apply Hin. rewrite Hperm.
  apply list_elem_of_fmap. exists (Streamlit.Position.market_id pos, m).
  split; [done|]. by apply elem_of_map_to_list.
Qed.

Lemma positions_tab_returns (current_user_id : string) (st : Streamlit.State) :
  Exists (fun p => Streamlit.Position.user_id p = current_user_id)
    (Streamlit.positions st) ->
  Session.positions_tab current_user_id st =
  Some {| Streamlit.markets := Streamlit.markets st;
          Streamlit.positions :=
            Invariants.remark (Streamlit.markets st) <$> Streamlit.positions st |}.
Proof.
  intros Hsome. unfold Session.positions_tab.
  destruct (List.filter _ _) as [|p ps] eqn:Hfilter; [|by apply update_all_keys].
  exfalso. apply Exists_exists in Hsome as (p & Hin & Hp).
  assert (Hin' : In p (List.filter
            (fun p => bool_decide (Streamlit.Position.user_id p = current_user_id))
            (Streamlit.positions st))).
  { apply List.filter_In. split; [by apply list_elem_of_In|].
    by apply bool_decide_eq_true_2. }
  by rewrite Hfilter in Hin'.
Qed.

(** X16.  The recompute of the "Positions & Risk" tab never fails and
    never touches the markets.  When the current user has no position
    nothing changes; otherwise every position of the ledger, of any
    user, is marked at the current probability of its own market, as
    [update_positions_for_market] would for that market alone, and a
    position whose market is unknown is left as it is.  The order in
    which the markets are visited does not matter. *)
Theorem positions_tab_marks_every_position (current_user_id : string)
    (st : Streamlit.State) :
  (Forall (fun p => Streamlit.Position.user_id p <> current_user_id)
     (Streamlit.positions st) ->
   Session.positions_tab current_user_id st = Some st)
  /\ (Exists (fun p => Streamlit.Position.user_id p = current_user_id)
        (Streamlit.positions st) ->
      Session.positions_tab current_user_id st =
      Some {| Streamlit.markets := Streamlit.markets st;
              Streamlit.positions :=
                Invariants.remark (Streamlit.markets st) <$> Streamlit.positions st |})
  /\ (forall market_ids,
      market_ids ≡ₚ (map_to_list (Streamlit.markets st)).*1 ->
      Session.update_all market_ids st
      = Session.update_all (map_to_list (Streamlit.markets st)).*1 st).
Proof.
  split; [|split].
  - intros Hnone. unfold Session.positions_tab.
    destruct (List.filter _ _) as [|p ps] eqn:Hfilter; [done|].
    assert (Hin : In p (List.filter
              (fun p => bool_decide (Streamlit.Position.user_id p = current_user_id))
              (Streamlit.positions st))) by (rewrite Hfilter; by left).
    apply List.filter_In in Hin as [Hin Hp%bool_decide_eq_true_1].
    apply list_elem_of_In in Hin.
    by apply (proj1 (Forall_forall _ _) Hnone) in Hin.
  - apply positions_tab_returns.
  - intros market_ids Hperm. by rewrite !update_all_keys.
Qed.

(** X16 on a session with two markets and a position on each, one of
    them of another user: both are marked. *)
Lemma positions_tab_marks_every_position_witness :
  let other :=
    {| Streamlit.Position.id := "pos-3";
       Streamlit.Position.user_id := "someone_else";
       Streamlit.Position.market_id := "2";
       Streamlit.Position.side := SHORT;
       Streamlit.Position.notional := 500000;
       Streamlit.Position.im_pct := 0.1;
       Streamlit.Position.im_amount := 50000;
       Streamlit.Position.entry_p := 0.5;
       Streamlit.Position.current_p := 0.5;
       Streamlit.Position.pnl := 0;
       Streamlit.Position.equity := 50000;
       Streamlit.Position.status := OPEN |} in
  let st := Samples.session Samples.pyElection [Samples.pyLongBtc OPEN; other] in
  Exists (fun p => Streamlit.Position.user_id p = "demo_trader"%string)
    (Streamlit.positions st)
  /\ exists st',
       Session.positions_tab "demo_trader" st = Some st'
       /\ Streamlit.markets st' = Streamlit.markets st
       /\ Streamlit.Position.status <$> Streamlit.positions st' = [OPEN; OPEN]
       /\ Streamlit.Position.current_p <$> Streamlit.positions st' = [0.5; 0.41]
       /\ Forall2 Qeq (Streamlit.Position.equity <$> Streamlit.positions st')
            [100000; 95000].
Proof.
  intros other st.
  assert (Huser : Exists (fun p => Streamlit.Position.user_id p = "demo_trader"%string)
                    (Streamlit.positions st)) by (by left).
  split; [exact Huser|].
  destruct (positions_tab_marks_every_position "demo_trader" st) as (_ & Hsome & _).
  eexists. split; [exact (Hsome Huser)|].
  split; [reflexivity|]. split; [by vm_compute|]. split; [by vm_compute|].
  repeat constructor.
Defined.

(** ** A position at its first recompute *)



(** ** The three tables of [App] *)

Lemma js_recompute_marketId (ms : list PdEngine.Market.t) (pos : App.Position.t) :
  App.Position.marketId (App.recompute ms pos) = App.Position.marketId pos.
Proof.
  destruct (js_recompute_laterVersion ms pos) as [Hfixed _].
  unfold Invariants.fixedFields in Hfixed. congruence.
Qed.

Lemma js_finalize_marketId (marketId : string) (outcome : Q) (pos : App.Position.t) :
  App.Position.marketId (App.finalize marketId outcome pos) = App.Position.marketId pos.
Proof.
  destruct (js_finalize_laterVersion marketId outcome pos) as [Hfixed _].
  unfold Invariants.fixedFields in Hfixed. congruence.
Qed.

Lemma js_settle_step_status (JSON_parse : string -> option json) (Number : json -> Q)
    (s : App.State) (am : PdEngine.Market.t) (pos' : App.Position.t) :
  App.adminMarket s = Some am ->
  pos' ∈ App.positions (App.step JSON_parse Number s App.Settle) ->
  App.Position.marketId pos' = PdEngine.Market.id am ->
  App.Position.status pos' = SETTLED.
Proof.
  intros Ham Hin Hmid. unfold App.step in Hin. simpl in Hin.
  assert (Hfinal : forall pos,
    App.Position.marketId (App.finalize (PdEngine.Market.id am)
                             (App.coerceOutcome (App.settleOutcome s)) pos)
    = PdEngine.Market.id am ->
    App.Position.status (App.finalize (PdEngine.Market.id am)
                           (App.coerceOutcome (App.settleOutcome s)) pos) = SETTLED).
  { intros pos Hpos. rewrite js_finalize_marketId in Hpos.
    by apply js_finalize_status. }
  destruct (js_recomputeEffect_positions (App.handleSettle s)) as [Heq|Heq];
    rewrite Heq, (js_handleSettle_positions s am Ham) in Hin.
  - apply list_elem_of_fmap in Hin as (pos & -> & _). by apply Hfinal.
  - apply list_elem_of_fmap in Hin as (pos1 & -> & Hin).
    apply list_elem_of_fmap in Hin as (pos & -> & _).
    rewrite js_recompute_marketId in Hmid.
    rewrite js_recompute_not_open; [by apply Hfinal|].
    by rewrite (Hfinal pos Hmid).
Qed.

(** X18.  The three tables of [App] (open, liquidated, settled) show
    every position of the ledger exactly once.  After "Settle market",
    no position of the settled market is left in the open or in the
    liquidated table: all of them are in the settled table. *)
Theorem tables_split_the_ledger
    (JSON_parse : string -> option json) (Number : json -> Q) :
  (forall positions,
      View.openPositions positions ++ View.liquidatedPositions positions
        ++ View.settledPositions positions ≡ₚ positions)
  /\ (forall (s : App.State) (am : PdEngine.Market.t),
      App.adminMarket s = Some am ->
      let positions' := App.positions (App.step JSON_parse Number s App.Settle) in
      length positions' = length (App.positions s)
      /\ Forall (fun pos => App.Position.marketId pos <> PdEngine.Market.id am)
           (View.openPositions positions' ++ View.liquidatedPositions positions')
      /\ forall pos,
           pos ∈ positions' ->
           App.Position.marketId pos = PdEngine.Market.id am ->
           pos ∈ View.settledPositions positions').
Proof.
  split.
  - intros positions. unfold View.openPositions, View.liquidatedPositions,
      View.settledPositions.
    induction positions as [|pos rest IH]; [done|].
    simpl. destruct (App.Position.status pos) eqn:Hst; simpl.
    + by rewrite IH.
    + rewrite <- Permutation_middle. by rewrite IH.
    + rewrite app_assoc, <- Permutation_middle, <- app_assoc. by rewrite IH.
  - intros s am Ham positions'.
    assert (Hsettled : forall pos,
      pos ∈ positions' -> App.Position.marketId pos = PdEngine.Market.id am ->
      App.Position.status pos = SETTLED)
      by (intros pos; apply (js_settle_step_status JSON_parse Number s am pos Ham)).
    split; [|split].
    + subst positions'. unfold App.step. simpl.
      destruct (js_recomputeEffect_positions (App.handleSettle s)) as [Heq|Heq];
        rewrite Heq, (js_handleSettle_positions s am Ham);
        by rewrite ?length_fmap.
    + apply Forall_app. unfold View.openPositions, View.liquidatedPositions.
      split; apply Forall_forall; intros pos Hin Hmid;
        apply list_elem_of_In, List.filter_In in Hin as [Hin Hst%bool_decide_eq_true_1];
        apply list_elem_of_In in Hin;
        by rewrite (Hsettled pos Hin Hmid) in Hst.
    + intros pos Hin Hmid. unfold View.settledPositions.
      apply list_elem_of_In, List.filter_In. split; [by apply list_elem_of_In|].
      apply bool_decide_eq_true_2. by apply Hsettled.
Qed.

(** X18 on a ledger with one position on each of two markets, when the
    first market settles. *)
Lemma tables_split_the_ledger_witness :
  let s := Samples.app [Samples.btc 0.5; Samples.election 0.41]
             [Samples.longBtc OPEN; Samples.shortElection OPEN]
             "poly-1" "poly-1" 10 0.5 1 in
  let positions' :=
    App.positions (App.step Samples.JSON_parse Samples.Number s App.Settle) in
  App.adminMarket s = Some (Samples.btc 0.5)
  /\ length positions' = 2%nat
  /\ length (View.openPositions positions') = 1%nat
  /\ length (View.settledPositions positions') = 1%nat
  /\ Forall (fun pos => App.Position.marketId pos <> "poly-1"%string)
       (View.openPositions positions' ++ View.liquidatedPositions positions').
Proof.
  intros s positions'.
  destruct (tables_split_the_ledger Samples.JSON_parse Samples.Number) as [_ Hsettle].
  destruct (Hsettle s (Samples.btc 0.5) eq_refl) as (Hlen & Hrest & _).
  split; [reflexivity|]. split; [exact Hlen|].
  split; [by vm_compute|]. split; [by vm_compute|]. exact Hrest.
Defined.

(** ** The refresh of the Streamlit application *)

(** X19.  "Pull latest Polymarket price" of the Streamlit application
    is all or nothing, and never raises for a market that exists.
    Either it reports success, and then the admin market has the name,
    the description and the first price of the provider's candidate
    (its status and outcome are kept, also when it is SETTLED), the
    other markets are untouched and every position is the one
    [update_positions_for_market] computes at that price; or it reports
    an error, a warning or an information and the session is exactly as
    before, also when the normalization of the candidate raises. *)
Theorem streamlit_refresh_all_or_nothing
    (json_loads : string -> option json) (float_of_str : string -> option Q)
    (adm_mid : string) (fetched : Streamlit.Try (list Streamlit.RawMarket.t))
    (st : Streamlit.State) (adm_m : Streamlit.Market.t) :
  Streamlit.markets st !! adm_mid = Some adm_m ->
  exists st' feedback,
    Streamlit.refresh_from_polymarket json_loads float_of_str adm_mid fetched st
    = Some (st', feedback)
    /\ ((st' = st /\ exists msg,
            feedback = Streamlit.StError msg \/ feedback = Streamlit.StWarning msg
            \/ feedback = Streamlit.StInfo msg)
        \/ (feedback = Streamlit.StSuccess
            /\ Streamlit.Market.source adm_m = Some "polymarket"%string
            /\ exists poly_markets poly_id pm bm m',
                 fetched = Streamlit.Return poly_markets
                 /\ Streamlit.Market.poly_id adm_m = Some poly_id
                 /\ Streamlit.index_by_id poly_markets !! poly_id = Some pm
                 /\ Streamlit.polymarket_market_to_bube json_loads float_of_str pm
                    = Streamlit.Return bm
                 /\ Streamlit.markets st' = <[adm_mid := m']> (Streamlit.markets st)
                 /\ Streamlit.Market.current_p m' = Streamlit.Market.current_p bm
                 /\ Streamlit.Market.name m' = Streamlit.Market.name bm
                 /\ Streamlit.Market.description m' = Streamlit.Market.description bm
                 /\ Streamlit.Market.status m' = Streamlit.Market.status adm_m
                 /\ Streamlit.Market.outcome m' = Streamlit.Market.outcome adm_m
                 /\ Streamlit.positions st'
                    = Streamlit.update_position adm_mid (Streamlit.Market.current_p bm)
                        <$> Streamlit.positions st)).
Proof.
  intros Hm. unfold Streamlit.refresh_from_polymarket. rewrite Hm. simpl.
  destruct (bool_decide_reflect
              (Streamlit.Market.source adm_m = Some "polymarket"%string)) as [Hsrc|Hsrc];
    simpl; [|eexists _, _; split; [done|]; left; split; [done|]; eexists; eauto].
  destruct fetched as [poly_markets|e];
    [|eexists _, _; split; [done|]; left; split; [done|]; eexists; eauto].
  destruct (Streamlit.Market.poly_id adm_m) as [poly_id|] eqn:Hpoly; simpl;
    [|eexists _, _; split; [done|]; left; split; [done|]; eexists; eauto].
  destruct (Streamlit.index_by_id poly_markets !! poly_id) as [pm|] eqn:Hpm;
    [|eexists _, _; split; [done|]; left; split; [done|]; eexists; eauto].
  destruct (Streamlit.polymarket_market_to_bube json_loads float_of_str pm)
    as [bm|e] eqn:Hbm;
    [|eexists _, _; split; [done|]; left; split; [done|]; eexists; eauto].
  unfold Streamlit.update_positions_for_market. cbn [Streamlit.markets Streamlit.positions].
  rewrite lookup_insert_eq. simpl.
  eexists _, _. split; [done|]. right. split; [done|]. split; [done|].
  eexists poly_markets, poly_id, pm, bm, _. by repeat split.
Qed.

(** X19 on a SETTLED market whose candidate is quoted 0.62, and on the
    same market when the candidate's [outcomePrices] text is the
    number 5. *)
Lemma streamlit_refresh_all_or_nothing_witness :
  let st := Samples.session Samples.pyElectionSettled [Samples.pyShortElection SETTLED] in
  let quoted := Streamlit.RawMarket.mk "2" (Some "Election") None None
                  (Some Samples.pricesText) in
  let numeric := Streamlit.RawMarket.mk "2" (Some "Election") None None
                   (Some "5"%string) in
  Streamlit.markets st !! "2"%string = Some Samples.pyElectionSettled
  /\ (exists st',
         Streamlit.refresh_from_polymarket Samples.JSON_parse Samples.float_of_str "2"
           (Streamlit.Return [quoted]) st = Some (st', Streamlit.StSuccess)
         /\ (Streamlit.Market.current_p <$> Streamlit.markets st' !! "2"%string) = Some 0.62
         /\ (Streamlit.Market.status <$> Streamlit.markets st' !! "2"%string) = Some SETTLED
         /\ Streamlit.positions st' = Streamlit.positions st)
  /\ exists msg,
       Streamlit.refresh_from_polymarket Examples.json_loads Samples.float_of_str "2"
         (Streamlit.Return [numeric]) st
       = Some (st, Streamlit.StError msg).
Proof.
  intros st quoted numeric.
  assert (Hm : Streamlit.markets st !! "2"%string = Some Samples.pyElectionSettled)
    by reflexivity.
  split; [exact Hm|]. split.
  - destruct (streamlit_refresh_all_or_nothing Samples.JSON_parse Samples.float_of_str
                "2" (Streamlit.Return [quoted]) st Samples.pyElectionSettled Hm)
      as (st' & feedback & Hret & Hcases).
    assert (Hrun : Streamlit.refresh_from_polymarket Samples.JSON_parse
                     Samples.float_of_str "2" (Streamlit.Return [quoted]) st
                   = Some ({| Streamlit.markets :=
                                <["2"%string :=
                                    Streamlit.Market.set_quote Samples.pyElectionSettled
                                      0.62 "Election" EmptyString]> (Streamlit.markets st);
                              Streamlit.positions := Streamlit.positions st |},
                           Streamlit.StSuccess)) by reflexivity.
    rewrite Hrun in Hret. injection Hret as <- <-.
    eexists. split; [exact Hrun|]. by repeat split.
  - destruct (streamlit_refresh_all_or_nothing Examples.json_loads Samples.float_of_str
                "2" (Streamlit.Return [numeric]) st
                Samples.pyElectionSettled Hm)
      as (st' & feedback & Hret & Hcases).
    assert (Hrun : Streamlit.refresh_from_polymarket Examples.json_loads
                     Samples.float_of_str "2"
                     (Streamlit.Return [numeric]) st
                   = Some (st, Streamlit.StError "Error refreshing from Polymarket"))
      by reflexivity.
    rewrite Hrun in Hret. injection Hret as <- <-.
    destruct Hcases as [[_ (msg & _)]|[Hfb _]]; [|discriminate Hfb].
    eexists. exact Hrun.
Defined.
